(** * Polygon-bot: the laddered-entry trading bot of [src/bot.py]

    A shallow embedding of [PolymarketBot] and of the properties its
    specification states about it.

    - Python floats are IEEE 754 binary64 numbers: they are modelled by
      the kernel's primitive floats ([PrimFloat]), whose operations round
      the same way.
    - The trading venue (the CLOB client, the Gamma HTTP endpoint, the
      clock) is outside the program: it is an abstract world [W] with one
      transition per call, each of which either returns or raises.
    - A method of the bot is a computation [M A]: from a world it gives an
      outcome (returned value, raised exception, or fuel exhausted for the
      unbounded monitoring loop), the world it leaves behind and the
      events it performed, oldest first.  Side effects survive an
      exception, as they do in Python. *)

From Stdlib Require Import Floats String Ascii List ZArith Bool Lia.
Import ListNotations.

#[local] Set Warnings "-inexact-float".
#[local] Open Scope list_scope.

(** ** Values exchanged with the venue *)

(** The exceptions the program can meet; all of them derive from Python's
    [Exception], so an [except Exception] clause catches each of them. *)
Inductive exn : Type :=
| IndexError
| KeyError
| ValueError
| TypeError
| GatewayError (msg : string).

(** A Python string-or-[None], as [dict.get] returns it. *)
Definition pystr : Type := option string.

Inductive side : Type := BUY | SELL.

(** [OrderArgs(price=, size=, side=, token_id=)]. *)
Record OrderArgs : Type := mkOrderArgs {
  oa_price : float;
  oa_size : float;
  oa_side : side;
  oa_token_id : pystr
}.

(** What [create_and_post_order] hands back.  The program tests
    [resp and isinstance(resp, dict) and resp.get('success')]: for a dict
    this is the truth value of its ['success'] entry (an empty dict has
    none), for anything else it is false. *)
Inductive post_resp : Type :=
| NotADict
| RespDict (success : bool) (orderID : pystr).

(** An entry of the list [get_orders] returns; the program reads
    [order.get('orderID')]. *)
Record order : Type := mkOrder { orderID : pystr }.

(** A numeric field of a response, as the program reads it through
    [float(...)]: absent, present but not convertible, or a number. *)
Inductive field : Type :=
| Missing
| Unparsable
| Num (x : float).

(** A price level of the order book; the program reads [level['price']]. *)
Record level : Type := mkLevel { price : field }.

(** The order book: [ob.get('bids', [])] and [ob.get('asks', [])]. *)
Record order_book : Type := mkBook {
  bids : list level;
  asks : list level
}.

(** The answer of [get_balance_allowance]; the program reads
    [resp.get('balance', 0)]. *)
Record balance_resp : Type := mkBalance { balance : field }.

(** An entry of a market's ['tokens'] list. *)
Record token : Type := mkToken { token_id : pystr }.

(** The keys of a market dictionary that the program reads. *)
Inductive market_key : Type :=
| KeyTokens
| KeyClobTokenIds
| KeyEndDate
| KeyEndDateIso
| KeyConditionId.

(** A market dictionary, restricted to the keys the program reads.  Each
    field is what [dict.get] gives for its key: a value, or [None] when
    the key is absent and when the key holds [None].  [null_keys] lists
    the keys that hold [None]: [dict.update] and the truth value of the
    dictionary tell them apart from the absent ones.  [other_keys] tells
    whether the dictionary has further keys (it matters for the truth
    value of the dictionary only). *)
Record market : Type := mkMarketWith {
  tokens : option (list token);
  clobTokenIds : pystr;
  endDate : pystr;
  end_date_iso : pystr;
  conditionId : pystr;
  other_keys : bool;
  null_keys : list market_key
}.

(** A market dictionary none of whose keys holds [None]. *)
Definition mkMarket (tokens : option (list token))
    (clobTokenIds endDate end_date_iso conditionId : pystr) (other_keys : bool)
    : market :=
  mkMarketWith tokens clobTokenIds endDate end_date_iso conditionId other_keys [].

(** The answer of [requests.get]: a status code and what [resp.json()]
    gives, which may raise. *)
Record http_resp : Type := mkHttp {
  status_code : Z;
  json : exn + list market
}.

(** A [datetime]: naive, or aware and then normalised to UTC; in both
    cases counted in microseconds. *)
Inductive datetime : Type :=
| Naive (us : Z)
| Aware (us : Z).

(** ** Outcomes and events *)

(** How a computation ends: it returns, it raises, or the fuel given to
    the monitoring loop ran out ([while True] has no bound of its own). *)
Inductive outcome (A : Type) : Type :=
| Returned (a : A)
| Raised (e : exn)
| OutOfFuel.
Arguments Returned {A} a.
Arguments Raised {A} e.
Arguments OutOfFuel {A}.

(** What a run does that can be observed from outside: the calls to the
    venue, the pauses, and three marks the embedding adds: a finished
    evaluation of the time gate with its verdict, the start of the
    monitor, and an invocation of the liquidation. *)
Inductive event : Type :=
| EvRequestsGet (slug : string)
| EvGetMarket (id : pystr)
| EvNow
| EvPost (args : OrderArgs)
| EvGetOrders (tok : pystr)
| EvCancel (id : pystr)
| EvGetOrderBook (tok : pystr)
| EvGetBalance (tok : pystr)
| EvSleep (seconds : nat)
| EvGate (verdict : outcome bool)
| EvMonitorStart (tok : pystr) (cost : float)
| EvLiquidate (tok : pystr) (amount : float).

(** ** The venue *)

(** One transition per external call.  A call returns ([inr]) or raises
    ([inl]); the clock cannot fail. *)
Record Client (W : Type) : Type := mkClient {
  requests_get : string -> W -> (exn + http_resp) * W;
  get_market : pystr -> W -> (exn + market) * W;
  now : W -> Z * W;
  create_and_post_order : OrderArgs -> W -> (exn + post_resp) * W;
  get_orders : pystr -> W -> (exn + list order) * W;
  cancel : pystr -> W -> (exn + unit) * W;
  get_order_book : pystr -> W -> (exn + order_book) * W;
  get_balance_allowance : pystr -> W -> (exn + balance_resp) * W
}.
Arguments requests_get {W} _ _ _.
Arguments get_market {W} _ _ _.
Arguments now {W} _ _.
Arguments create_and_post_order {W} _ _ _.
Arguments get_orders {W} _ _ _.
Arguments cancel {W} _ _ _.
Arguments get_order_book {W} _ _ _.
Arguments get_balance_allowance {W} _ _ _.

(** ** Computations *)

Definition M (W A : Type) : Type := W -> outcome A * W * list event.

Definition ret {W A} (a : A) : M W A := fun w => (Returned a, w, []).

Definition raise {W A} (e : exn) : M W A := fun w => (Raised e, w, []).

Definition out_of_fuel {W A} : M W A := fun w => (OutOfFuel, w, []).

Definition bind {W A B} (m : M W A) (k : A -> M W B) : M W B :=
  fun w =>
    match m w with
    | (Returned a, w1, t1) =>
        match k a w1 with
        | (r, w2, t2) => (r, w2, t1 ++ t2)
        end
    | (Raised e, w1, t1) => (Raised e, w1, t1)
    | (OutOfFuel, w1, t1) => (OutOfFuel, w1, t1)
    end.

(** [try: body / except Exception as e: handler]. *)
Definition try_except {W A} (body : M W A) (handler : exn -> M W A) : M W A :=
  fun w =>
    match body w with
    | (Raised e, w1, t1) =>
        match handler e w1 with
        | (r, w2, t2) => (r, w2, t1 ++ t2)
        end
    | other => other
    end.

Definition emit {W} (e : event) : M W unit := fun w => (Returned tt, w, [e]).

(** An external call: the event, then the venue's answer. *)
Definition call {W A} (e : event) (f : W -> (exn + A) * W) : M W A :=
  fun w =>
    match f w with
    | (inr a, w1) => (Returned a, w1, [e])
    | (inl x, w1) => (Raised x, w1, [e])
    end.

Declare Scope bot_scope.
Delimit Scope bot_scope with bot.
Notation "x <- c1 ;; c2" := (bind c1 (fun x => c2))
  (at level 61, c1 at next level, right associativity) : bot_scope.
Notation "c1 ;; c2" := (bind c1 (fun _ => c2))
  (at level 61, right associativity) : bot_scope.
#[local] Open Scope bot_scope.

(** Projections of a finished run. *)
Definition result {W A} (r : outcome A * W * list event) : outcome A := fst (fst r).
Definition world {W A} (r : outcome A * W * list event) : W := snd (fst r).
Definition events {W A} (r : outcome A * W * list event) : list event := snd r.

(** Three properties of a computation, from every world: all its events
    satisfy [P]; it does not run out of fuel; it returns. *)
Definition emits {W A} (P : event -> Prop) (m : M W A) : Prop :=
  forall w, Forall P (events (m w)).

Definition halts {W A} (m : M W A) : Prop :=
  forall w, result (m w) <> OutOfFuel.

Definition returns {W A} (m : M W A) : Prop :=
  forall w, exists a, result (m w) = Returned a.

(** ** Python helpers *)

(** [float(field)] where the field must be present ([d['price']]). *)
Definition float_of_field {W} (f : field) : M W float :=
  match f with
  | Missing => raise KeyError
  | Unparsable => raise ValueError
  | Num x => ret x
  end.

(** [l[i]] on a list: negative indices count from the end. *)
Definition py_index {A} (l : list A) (i : Z) : option A :=
  if (0 <=? i)%Z then nth_error l (Z.to_nat i)
  else if (- Z.of_nat (length l) <=? i)%Z
       then nth_error l (Z.to_nat (Z.of_nat (length l) + i))
       else None.

Definition index {W A} (l : list A) (i : Z) : M W A :=
  match py_index l i with
  | Some a => ret a
  | None => raise IndexError
  end.

(** Truth value of a string-or-[None]. *)
Definition truthy (s : pystr) : bool :=
  match s with
  | None | Some EmptyString => false
  | Some _ => true
  end.

(** [a or b]. *)
Definition py_or (a b : pystr) : pystr := if truthy a then a else b.

(** [s.replace('Z', '+00:00')]. *)
Fixpoint replace_Z (s : string) : string :=
  match s with
  | EmptyString => EmptyString
  | String c rest =>
      if Ascii.eqb c "Z"%char
      then String.append "+00:00"%string (replace_Z rest)
      else String c (replace_Z rest)
  end.

(** The float nearest to an integer (ties to even), as Python converts an
    [int] that meets a [float] in an operation. *)
Definition Z2float (z : Z) : float :=
  SF2Prim (binary_normalize prec emax z 0 false).

(** [timedelta.total_seconds()].  A [timedelta] is a whole number of
    microseconds.  Python divides that integer by [10**6] with one
    rounding; here the integer is converted first and then divided.  The
    two agree for a [timedelta] of at most [2^53] microseconds (285
    years), whose conversion is exact, and may differ in the last place
    beyond: what is stated of the value of the division carries that
    bound. *)
Definition total_seconds (delta : Z) : float := (Z2float delta / 1000000)%float.

(** [sum(prices)]: the built-in starts from [0] and adds from the left
    (as it does up to Python 3.11; later versions compensate the rounding
    of the additions, and nothing below depends on the difference). *)
Definition py_sum (l : list float) : float := fold_left PrimFloat.add l 0%float.

Section Bot.

Variable W : Type.
Variable client : Client W.

(** Two functions of Python's standard library, taken as they are:
    [datetime.fromisoformat] and [json.loads], the latter on the arrays of
    strings the venue stores under ['clobTokenIds'] (any other document
    counts as a failure here). *)
Variable fromisoformat : string -> exn + datetime.
Variable json_loads : string -> exn + list string.

(** A pure library call that returns or raises. *)
Definition lift {A} (r : exn + A) : M W A :=
  match r with
  | inr a => ret a
  | inl e => raise e
  end.

(** ** [place_ladder_orders] (bot.py, lines 98-118) *)

(** The body of the [for] loop: one guarded submission. *)
Definition place_one (token_id : pystr) (size : float)
    (order_ids : list pystr) (price : float) : M W (list pystr) :=
  try_except
    (let order_args := mkOrderArgs price size BUY token_id in
     resp <- call (EvPost order_args) (create_and_post_order client order_args) ;;
     match resp with
     | RespDict true order_id => ret (order_ids ++ [order_id])
     | _ => ret order_ids
     end)
    (fun _ => ret order_ids).

Fixpoint place_loop (token_id : pystr) (prices : list float) (size : float)
    (order_ids : list pystr) : M W (list pystr) :=
  match prices with
  | [] => ret order_ids
  | price :: rest =>
      order_ids' <- place_one token_id size order_ids price ;;
      place_loop token_id rest size order_ids'
  end.

Definition place_ladder_orders (token_id : pystr) (prices : list float)
    (size : float) : M W (list pystr) :=
  place_loop token_id prices size [].

(** [total_max_cost = sum(prices) * size_per_step] (bot.py, line 265). *)
Definition total_max_cost (prices : list float) (size_per_step : float) : float :=
  (py_sum prices * size_per_step)%float.

(** ** [get_market_details] (bot.py, lines 56-79) *)

Definition market_key_eqb (a b : market_key) : bool :=
  match a, b with
  | KeyTokens, KeyTokens
  | KeyClobTokenIds, KeyClobTokenIds
  | KeyEndDate, KeyEndDate
  | KeyEndDateIso, KeyEndDateIso
  | KeyConditionId, KeyConditionId => true
  | _, _ => false
  end.

Definition all_keys : list market_key :=
  [KeyTokens; KeyClobTokenIds; KeyEndDate; KeyEndDateIso; KeyConditionId].

Definition is_none {A} (o : option A) : bool :=
  match o with
  | Some _ => false
  | None => true
  end.

(** Whether [dict.get] gives [None] for a key. *)
Definition reads_none (m : market) (k : market_key) : bool :=
  match k with
  | KeyTokens => is_none (tokens m)
  | KeyClobTokenIds => is_none (clobTokenIds m)
  | KeyEndDate => is_none (endDate m)
  | KeyEndDateIso => is_none (end_date_iso m)
  | KeyConditionId => is_none (conditionId m)
  end.

(** Whether the dictionary has the key with the value [None], and whether
    it has the key at all ([key in m]). *)
Definition null_in (m : market) (k : market_key) : bool :=
  reads_none m k && existsb (market_key_eqb k) (null_keys m).

Definition has_key (m : market) (k : market_key) : bool :=
  negb (reads_none m k) || null_in m k.

(** What a key reads after [m.update(g)], from what it reads in [g] and
    what it read in [m]: every key of [g] is written over, with its value
    or with its [None]. *)
Definition updated {A} (g : market) (k : market_key) (in_g in_m : option A) : option A :=
  if has_key g k then in_g else in_m.

(** [market.update(gamma_data)]. *)
Definition update (m g : market) : market :=
  mkMarketWith
    (updated g KeyTokens (tokens g) (tokens m))
    (updated g KeyClobTokenIds (clobTokenIds g) (clobTokenIds m))
    (updated g KeyEndDate (endDate g) (endDate m))
    (updated g KeyEndDateIso (end_date_iso g) (end_date_iso m))
    (updated g KeyConditionId (conditionId g) (conditionId m))
    (other_keys g || other_keys m)
    (filter (fun k => if has_key g k then null_in g k else null_in m k) all_keys).

(** How a key reads in [m.update(g)]: the value [g] has for it; [None]
    when [g] has the key with [None]; what it read in [m] when [g] has not
    the key. *)
Definition merged_reads {A} (g : market) (k : market_key)
    (in_g in_m merged : option A) : Prop :=
  (forall v, in_g = Some v -> merged = Some v)
  /\ (in_g = None -> In k (null_keys g) -> merged = None)
  /\ (in_g = None -> ~ In k (null_keys g) -> merged = in_m).

Definition get_market_details (market_slug : string) : M W (option market) :=
  try_except
    (resp <- call (EvRequestsGet market_slug) (requests_get client market_slug) ;;
     let fallback :=
       (market <- call (EvGetMarket (Some market_slug))
                       (get_market client (Some market_slug)) ;;
        ret (Some market)) in
     if (status_code resp =? 200)%Z then
       data <- lift (json resp) ;;
       match data with
       | gamma_data :: _ =>
           let condition_id := conditionId gamma_data in
           market <- call (EvGetMarket condition_id) (get_market client condition_id) ;;
           ret (Some (update market gamma_data))
       | [] => fallback
       end
     else fallback)
    (fun _ => ret None).

(** ** [check_time_remaining] (bot.py, lines 81-96) *)

(** [datetime.now(timezone.utc)], in microseconds. *)
Definition utc_now : M W Z :=
  fun w => let (t, w1) := now client w in (Returned t, w1, [EvNow]).

(** The body of the method.  The threshold is an [int] (13 by default, or
    what the operator typed), which Python compares with the float
    [remaining] as the number it is; here it is converted first.  The
    comparison is the same when either of the two is below [2^53] in
    size, the conversion being exact or else beyond [remaining] on the
    threshold's side. *)
Definition check_time_remaining_body (market_data : market) (threshold_minutes : Z)
    : M W bool :=
  let close_time_str := py_or (endDate market_data) (end_date_iso market_data) in
  match close_time_str with
  | Some s =>
      if negb (truthy close_time_str) then ret false
      else
        close_time <- lift (fromisoformat (replace_Z s)) ;;
        now_us <- utc_now ;;
        delta <- match close_time with
                 | Aware close_us => ret (close_us - now_us)%Z
                 | Naive _ => raise TypeError
                 end ;;
        let remaining := (total_seconds delta / 60)%float in
        ret (Z2float threshold_minutes <? remaining)%float
  | None => ret false
  end.

(** The method, with the mark of its verdict. *)
Definition check_time_remaining (market_data : market) (threshold_minutes : Z)
    : M W bool :=
  fun w =>
    match check_time_remaining_body market_data threshold_minutes w with
    | (r, w1, t) => (r, w1, t ++ [EvGate r])
    end.

(** ** [close_all_positions] (bot.py, lines 138-166) *)

Fixpoint cancel_loop (open_orders : list order) : M W unit :=
  match open_orders with
  | [] => ret tt
  | o :: rest =>
      let order_id := orderID o in
      call (EvCancel order_id) (cancel client order_id) ;;
      cancel_loop rest
  end.

Definition close_all_positions (token_id : pystr) (amount : float) : M W unit :=
  emit (EvLiquidate token_id amount) ;;
  try_except
    (open_orders <- call (EvGetOrders token_id) (get_orders client token_id) ;;
     cancel_loop open_orders)
    (fun _ => ret tt) ;;
  try_except
    (if (0 <? amount)%float then
       let order_args := mkOrderArgs 0.01 amount SELL token_id in
       call (EvPost order_args) (create_and_post_order client order_args) ;;
       ret tt
     else ret tt)
    (fun _ => ret tt).

(** ** [get_token_balance] (bot.py, lines 168-179) *)

Definition get_token_balance (token_id : pystr) : M W float :=
  try_except
    (resp <- call (EvGetBalance token_id) (get_balance_allowance client token_id) ;;
     match balance resp with
     | Missing => ret 0%float
     | Unparsable => raise ValueError
     | Num x => ret x
     end)
    (fun _ => ret 0%float).

(** ** [monitor_and_close] (bot.py, lines 181-231) *)

(** How the body of the [while True] loop ends: [break], [continue], or
    by reaching its last statement, the 15 seconds' sleep. *)
Inductive flow : Type := Break | Continue | Next.

Definition current_value (balance current_price : float) : float :=
  (balance * current_price)%float.

Definition profit_target (initial_total_cost : float) : float :=
  (initial_total_cost * 1.3)%float.

Definition monitor_iteration (token_id : pystr) (initial_total_cost : float)
    : M W flow :=
  try_except
    (balance <- get_token_balance token_id ;;
     if (balance <=? 0)%float then
       open_orders <- call (EvGetOrders token_id) (get_orders client token_id) ;;
       match open_orders with
       | [] => ret Break
       | _ :: _ => emit (EvSleep 10) ;; ret Continue
       end
     else
       ob <- call (EvGetOrderBook token_id) (get_order_book client token_id) ;;
       match asks ob with
       | [] => emit (EvSleep 10) ;; ret Continue
       | _ :: _ =>
           match bids ob with
           | [] => emit (EvSleep 10) ;; ret Continue
           | best :: _ =>
               current_price <- float_of_field (price best) ;;
               if (profit_target initial_total_cost
                     <=? current_value balance current_price)%float
               then close_all_positions token_id balance ;; ret Break
               else ret Next
           end
       end)
    (fun _ => ret Next).

Fixpoint monitor_loop (fuel : nat) (token_id : pystr) (initial_total_cost : float)
    : M W unit :=
  match fuel with
  | O => out_of_fuel
  | S fuel' =>
      f <- monitor_iteration token_id initial_total_cost ;;
      match f with
      | Break => ret tt
      | Continue => monitor_loop fuel' token_id initial_total_cost
      | Next =>
          emit (EvSleep 15) ;;
          monitor_loop fuel' token_id initial_total_cost
      end
  end.

Definition monitor_and_close (fuel : nat) (token_id : pystr)
    (initial_total_cost : float) : M W unit :=
  emit (EvMonitorStart token_id initial_total_cost) ;;
  monitor_loop fuel token_id initial_total_cost.

(** ** [run] (bot.py, lines 233-271) *)

(** [not market_data] for a dictionary: it has no key at all. *)
Definition dict_empty (m : market) : bool :=
  forallb (fun k => negb (has_key m k)) all_keys && negb (other_keys m).

(** Lines 241-253: the token to trade; [None] when the method returns for
    want of tokens. *)
Definition select_token (market_data : market) (outcome_index : Z)
    : M W (option pystr) :=
  match tokens market_data with
  | Some (t :: ts) =>
      tok <- index (t :: ts) outcome_index ;;
      ret (Some (token_id tok))
  | _ =>
      let clob_token_ids := clobTokenIds market_data in
      match clob_token_ids with
      | Some s =>
          if truthy clob_token_ids then
            ids <- lift (json_loads s) ;;
            id <- index ids outcome_index ;;
            ret (Some (Some id))
          else ret None
      | None => ret None
      end
  end.

Definition prices : list float := [0.10; 0.20; 0.30]%float.
Definition size_per_step : float := 10%float.

Definition run (fuel : nat) (market_slug : string) (time_threshold : Z)
    (outcome_index : Z) : M W unit :=
  market_data <- get_market_details market_slug ;;
  match market_data with
  | None => ret tt
  | Some md =>
      if dict_empty md then ret tt
      else
        sel <- select_token md outcome_index ;;
        match sel with
        | None => ret tt
        | Some token_id =>
            enough <- check_time_remaining md time_threshold ;;
            if negb enough then ret tt
            else
              let total_max_cost := total_max_cost prices size_per_step in
              place_ladder_orders token_id prices size_per_step ;;
              monitor_and_close fuel token_id total_max_cost
        end
  end.

End Bot.

(** ** What the venue answered to a ladder

    The answers the venue gives to the submissions of a ladder, obtained
    by asking it directly, one price after the other; they are the
    reference [place_ladder_orders] is compared with. *)
Section Answers.

Variable W : Type.
Variable client : Client W.

Fixpoint submissions (token_id : pystr) (size : float) (prices : list float)
    (w : W) : list (exn + post_resp) :=
  match prices with
  | [] => []
  | price :: rest =>
      let (r, w1) := create_and_post_order client (mkOrderArgs price size BUY token_id) w in
      r :: submissions token_id size rest w1
  end.

Fixpoint venue_after (token_id : pystr) (size : float) (prices : list float)
    (w : W) : W :=
  match prices with
  | [] => w
  | price :: rest =>
      venue_after token_id size rest
        (snd (create_and_post_order client (mkOrderArgs price size BUY token_id) w))
  end.

End Answers.

(** A submission succeeded when the venue returned a dictionary whose
    ['success'] entry is true; its identifier is the ['orderID'] entry. *)
Definition accepted (r : exn + post_resp) : option pystr :=
  match r with
  | inr (RespDict true order_id) => Some order_id
  | _ => None
  end.

Fixpoint placed (answers : list (exn + post_resp)) : list pystr :=
  match answers with
  | [] => []
  | r :: rest =>
      match accepted r with
      | Some order_id => order_id :: placed rest
      | None => placed rest
      end
  end.

Fixpoint failures (answers : list (exn + post_resp)) : nat :=
  match answers with
  | [] => 0
  | r :: rest =>
      match accepted r with
      | Some _ => failures rest
      | None => S (failures rest)
      end
  end.

(** The constraints the specification puts on a ladder: every price
    strictly between 0 and 1, and a positive size. *)
Definition valid_price (p : float) : bool := ((0 <? p) && (p <? 1))%float.

Definition valid_plan (prices : list float) (size : float) : bool :=
  forallb valid_price prices && (0 <? size)%float.

(** The submissions among a list of events. *)
Fixpoint posts (evs : list event) : list OrderArgs :=
  match evs with
  | [] => []
  | EvPost args :: rest => args :: posts rest
  | _ :: rest => posts rest
  end.

(** The balance [get_token_balance] makes of an answer of the venue: the
    number under ['balance'], and 0 for a failed call, a missing entry or
    an entry that is no number. *)
Definition balance_read (r : exn + balance_resp) : float :=
  match r with
  | inr (mkBalance (Num x)) => x
  | _ => 0%float
  end.

(** The cancellation attempts among a list of events. *)
Fixpoint cancels (evs : list event) : list pystr :=
  match evs with
  | [] => []
  | EvCancel id :: rest => id :: cancels rest
  | _ :: rest => cancels rest
  end.

(** The invocations of the liquidation among a list of events. *)
Fixpoint liquidations (evs : list event) : list (pystr * float) :=
  match evs with
  | [] => []
  | EvLiquidate tok amount :: rest => (tok, amount) :: liquidations rest
  | _ :: rest => liquidations rest
  end.

(** What the liquidation does after its mark: it lists the open orders,
    cancels, and sells. *)
Definition liquidation_step (e : event) : Prop :=
  match e with
  | EvGetOrders _ | EvCancel _ | EvPost _ => True
  | _ => False
  end.

(** The number of evaluations of the time gate. *)
Fixpoint gates (evs : list event) : nat :=
  match evs with
  | [] => 0
  | EvGate _ :: rest => S (gates rest)
  | _ :: rest => gates rest
  end.

(** The events of trading: submissions, and everything the monitor and
    the liquidation do. *)
Definition trading (e : event) : bool :=
  match e with
  | EvPost _ | EvGetOrders _ | EvCancel _ | EvGetOrderBook _ | EvGetBalance _
  | EvSleep _ | EvMonitorStart _ _ | EvLiquidate _ _ => true
  | EvRequestsGet _ | EvGetMarket _ | EvNow | EvGate _ => false
  end.

(** The events of resolving the market, and those of the monitor once it
    has started. *)
Definition resolving (e : event) : Prop :=
  match e with
  | EvRequestsGet _ | EvGetMarket _ => True
  | _ => False
  end.

Definition monitoring (e : event) : Prop :=
  match e with
  | EvGetBalance _ | EvGetOrders _ | EvGetOrderBook _ | EvSleep _
  | EvLiquidate _ _ | EvCancel _ | EvPost _ => True
  | _ => False
  end.

(** The three shapes the events of a session can take: it stops before
    the gate (no market, no token, or an exception on the way); it stops
    at the gate, whose verdict is not [True]; or it passes the gate,
    submits the ladder and monitors with the ladder's maximum cost. *)
Inductive session : list event -> Prop :=
| session_stopped pre :
    Forall resolving pre ->
    session pre
| session_gated pre clock_reads v :
    Forall resolving pre ->
    Forall (eq EvNow) clock_reads ->
    v <> Returned true ->
    session (pre ++ clock_reads ++ [EvGate v])
| session_traded pre clock_reads tok mon :
    Forall resolving pre ->
    Forall (eq EvNow) clock_reads ->
    Forall monitoring mon ->
    session (pre ++ clock_reads ++ EvGate (Returned true)
               :: map (fun p => EvPost (mkOrderArgs p size_per_step BUY tok)) prices
               ++ EvMonitorStart tok (total_max_cost prices size_per_step) :: mon).

(** A checker for the place of the time gate in a run, [n] being the
    number of its evaluations so far: the gate is evaluated while [n] is 0
    only, and an event of trading occurs while [n] is 1 only. *)
Fixpoint well_gated (n : nat) (evs : list event) : bool :=
  match evs with
  | [] => true
  | EvGate _ :: rest => (n =? 0) && well_gated (S n) rest
  | e :: rest => (if trading e then n =? 1 else true) && well_gated n rest
  end.

(** ** A scripted venue

    A venue for concrete runs: each kind of call reads its next answer
    from a list, and raises once the list is used up. *)
Module Scripted.

Record world : Type := mkWorld {
  http_answers : list (exn + http_resp);
  market_answers : list (exn + market);
  clock : Z;
  post_answers : list (exn + post_resp);
  orders_answers : list (exn + list order);
  cancel_answers : list (exn + unit);
  book_answers : list (exn + order_book);
  balance_answers : list (exn + balance_resp)
}.

Definition next_answer {A} (l : list (exn + A)) : (exn + A) * list (exn + A) :=
  match l with
  | [] => (inl (GatewayError "no answer"), [])
  | a :: rest => (a, rest)
  end.

Definition client : Client world :=
  mkClient world
    (fun _ w =>
       let (a, l) := next_answer (http_answers w) in
       (a, mkWorld l (market_answers w) (clock w) (post_answers w) (orders_answers w)
             (cancel_answers w) (book_answers w) (balance_answers w)))
    (fun _ w =>
       let (a, l) := next_answer (market_answers w) in
       (a, mkWorld (http_answers w) l (clock w) (post_answers w) (orders_answers w)
             (cancel_answers w) (book_answers w) (balance_answers w)))
    (fun w => (clock w, w))
    (fun _ w =>
       let (a, l) := next_answer (post_answers w) in
       (a, mkWorld (http_answers w) (market_answers w) (clock w) l (orders_answers w)
             (cancel_answers w) (book_answers w) (balance_answers w)))
    (fun _ w =>
       let (a, l) := next_answer (orders_answers w) in
       (a, mkWorld (http_answers w) (market_answers w) (clock w) (post_answers w) l
             (cancel_answers w) (book_answers w) (balance_answers w)))
    (fun _ w =>
       let (a, l) := next_answer (cancel_answers w) in
       (a, mkWorld (http_answers w) (market_answers w) (clock w) (post_answers w)
             (orders_answers w) l (book_answers w) (balance_answers w)))
    (fun _ w =>
       let (a, l) := next_answer (book_answers w) in
       (a, mkWorld (http_answers w) (market_answers w) (clock w) (post_answers w)
             (orders_answers w) (cancel_answers w) l (balance_answers w)))
    (fun _ w =>
       let (a, l) := next_answer (balance_answers w) in
       (a, mkWorld (http_answers w) (market_answers w) (clock w) (post_answers w)
             (orders_answers w) (cancel_answers w) (book_answers w) l)).

(** A venue with nothing to say. *)
Definition silent : world := mkWorld [] [] 0 [] [] [] [] [].

Definition down : exn := GatewayError "down".

(** A stand-in for [datetime.fromisoformat] that knows three instants of
    one day, counted from its midnight, which is where [clock] 0 stands:
    00:10 and 00:20 in UTC, and 00:20 without a time zone. *)
Definition fromisoformat (s : string) : exn + datetime :=
  if String.eqb s "2025-01-01T00:10:00+00:00" then inr (Aware 600000000)
  else if String.eqb s "2025-01-01T00:20:00+00:00" then inr (Aware 1200000000)
  else if String.eqb s "2025-01-01T00:20:00" then inr (Naive 1200000000)
  else inl ValueError.

(** A stand-in for [json.loads] that rejects every document. *)
Definition json_loads (s : string) : exn + list string := inl ValueError.

End Scripted.

(** ** The lookups beside the session

    Two methods of [PolymarketBot] that [run] does not call. *)
Section Lookups.

Variable W : Type.
Variable client : Client W.

(** [resolve_slug_to_condition_id] (bot.py, lines 42-54). *)
Definition resolve_slug_to_condition_id (market_slug : string) : M W pystr :=
  try_except
    (resp <- call (EvRequestsGet market_slug) (requests_get client market_slug) ;;
     if (status_code resp =? 200)%Z then
       data <- lift W (json resp) ;;
       match data with
       | first :: _ => ret (conditionId first)
       | [] => ret None
       end
     else ret None)
    (fun _ => ret None).

(** [get_position_value] (bot.py, lines 120-136). *)
Definition get_position_value (token_id : pystr) (amount : float) : M W float :=
  try_except
    (ob <- call (EvGetOrderBook token_id) (get_order_book client token_id) ;;
     match bids ob, asks ob with
     | b :: _, a :: _ =>
         best_bid <- float_of_field (price b) ;;
         best_ask <- float_of_field (price a) ;;
         let mid_price := ((best_bid + best_ask) / 2)%float in
         ret (amount * mid_price)%float
     | _, _ => ret 0%float
     end)
    (fun _ => ret 0%float).

End Lookups.

(** ** [parse_url] (bot.py, lines 273-281) *)

(** [s.split(sep)] for a separator of one character: the pieces between
    its occurrences, of which there is always one at least. *)
Fixpoint split (sep : ascii) (s : string) : list string :=
  match s with
  | EmptyString => [EmptyString]
  | String c rest =>
      if Ascii.eqb c sep then EmptyString :: split sep rest
      else match split sep rest with
           | piece :: pieces => String c piece :: pieces
           | [] => [String c EmptyString]
           end
  end.

(** The slug of a URL: what follows the last ['/'] of what precedes the
    first ['?'].  An exception of the indexing would give [None]. *)
Definition parse_url (url : string) : pystr :=
  match py_index (split "?"%char url) 0 with
  | Some path =>
      match py_index (split "/"%char path) (-1) with
      | Some slug => Some slug
      | None => None
      end
  | None => None
  end.

(** [c in s] for a character. *)
Fixpoint has_char (c : ascii) (s : string) : bool :=
  match s with
  | EmptyString => false
  | String x rest => Ascii.eqb x c || has_char c rest
  end.

(** The cancellations of a list of orders that go through until one
    raises, asked of the venue one after the other: how many are tried. *)
Fixpoint cancel_tried {W} (client : Client W) (open_orders : list order) (w : W) : nat :=
  match open_orders with
  | [] => 0
  | o :: rest =>
      match cancel client (orderID o) w with
      | (inr _, w1) => S (cancel_tried client rest w1)
      | (inl _, _) => 1
      end
  end.

(** Whether the venue lets every cancellation of a list through. *)
Fixpoint cancel_all_ok {W} (client : Client W) (open_orders : list order) (w : W) : bool :=
  match open_orders with
  | [] => true
  | o :: rest =>
      match cancel client (orderID o) w with
      | (inr _, w1) => cancel_all_ok client rest w1
      | (inl _, _) => false
      end
  end.

(** The one order the liquidation submits for a token: a sale at 0.01. *)
Definition is_sale_of (tok : pystr) (a : OrderArgs) : Prop :=
  oa_side a = SELL /\ oa_price a = 0.01%float /\ oa_token_id a = tok.

(** The pauses among a list of events. *)
Fixpoint sleeps (evs : list event) : list nat :=
  match evs with
  | [] => []
  | EvSleep n :: rest => n :: sleeps rest
  | _ :: rest => sleeps rest
  end.

(** ** [find_market] (search_market.py, lines 8-34)

    The lookup utility has a client of its own and prints what it finds. *)
Module Search.

(** An entry of a dictionary as [dict.get] and the code that follows tell
    it apart: no such key, a key holding [None], or a value. *)
Inductive jval (A : Type) : Type :=
| Absent
| Null
| Val (a : A).
Arguments Absent {A}.
Arguments Null {A}.
Arguments Val {A} a.

(** A market of the listing, with the keys the utility reads. *)
Record listing : Type := mkListing {
  question : jval string;
  market_slug : jval string;
  condition_id : jval string;
  listed_tokens : jval (list token)
}.

(** A page of the listing: [resp.get('data', [])] and
    [resp.get('next_cursor')]. *)
Record page : Type := mkPage {
  data : jval (list listing);
  next_cursor : pystr
}.

(** The exceptions the utility can meet: [None.lower()], iterating over
    [None] (a [TypeError]), and whatever the client raises. *)
Inductive error : Type :=
| AttributeError
| NotIterable
| ClientError (msg : string).

(** How the utility ends: it returns, an exception leaves it (nothing
    catches any), or the fuel given to its [while True] loop ran out. *)
Inductive ending : Type :=
| Done
| Failed (e : error)
| Unfinished.

(** What it does: the requests, with their cursor, and the lines printed;
    a line is kept as the value it shows. *)
Inductive output : Type :=
| GetMarkets (cursor : string)
| PrintFound (q : jval string)
| PrintSlug (s : jval string)
| PrintCondition (c : jval string)
| PrintTokens (t : jval (list token))
| PrintComplete.

(** [needle in hay] on strings. *)
Fixpoint starts_with (needle hay : string) : bool :=
  match needle, hay with
  | EmptyString, _ => true
  | String _ _, EmptyString => false
  | String a needle', String b hay' => Ascii.eqb a b && starts_with needle' hay'
  end.

Fixpoint contains (needle hay : string) : bool :=
  starts_with needle hay
  || match hay with
     | EmptyString => false
     | String _ hay' => contains needle hay'
     end.

Section FindMarket.

Variable W : Type.

(** [client.get_markets(next_cursor=cursor)]. *)
Variable get_markets : string -> W -> (error + page) * W.

(** [str.lower], of Python's library, taken as it is. *)
Variable lower : string -> string.

(** [m.get(key, '').lower()]: [None] has no such method. *)
Definition lowered (f : jval string) : error + string :=
  match f with
  | Absent => inr (lower EmptyString)
  | Null => inl AttributeError
  | Val s => inr (lower s)
  end.

(** The test of line 23-24; [or] looks at the slug only when the question
    does not match. *)
Definition matches (keyword : string) (m : listing) : error + bool :=
  match lowered (question m) with
  | inl e => inl e
  | inr q =>
      if contains (lower keyword) q then inr true
      else match lowered (market_slug m) with
           | inl e => inl e
           | inr s => inr (contains (lower keyword) s)
           end
  end.

(** The test on a market none of whose two fields is [None]: the keyword,
    lowered, occurs in the lowered question or in the lowered slug, an
    absent field counting as the empty string. *)
Definition text (f : jval string) : string :=
  match f with
  | Val s => lower s
  | _ => lower EmptyString
  end.

Definition is_match (keyword : string) (m : listing) : bool :=
  contains (lower keyword) (text (question m))
  || contains (lower keyword) (text (market_slug m)).

Definition no_null (m : listing) : Prop :=
  question m <> Null /\ market_slug m <> Null.

(** The four lines printed for a market found. *)
Definition report (m : listing) : list output :=
  [PrintFound (question m); PrintSlug (market_slug m);
   PrintCondition (condition_id m); PrintTokens (listed_tokens m)].

(** The [for] loop over a page: what it prints, and the exception that
    stopped it, if any. *)
Fixpoint scan (keyword : string) (markets : list listing) : list output * option error :=
  match markets with
  | [] => ([], None)
  | m :: rest =>
      match matches keyword m with
      | inl e => ([], Some e)
      | inr found =>
          let (out, stop) := scan keyword rest in
          ((if found then report m else []) ++ out, stop)
      end
  end.

Fixpoint find_market_from (fuel : nat) (keyword cursor : string) (w : W)
    : ending * W * list output :=
  match fuel with
  | O => (Unfinished, w, [])
  | S fuel' =>
      match get_markets cursor w with
      | (inl e, w1) => (Failed e, w1, [GetMarkets cursor])
      | (inr resp, w1) =>
          match data resp with
          | Null => (Failed NotIterable, w1, [GetMarkets cursor])
          | other =>
              let markets := match other with Val l => l | _ => [] end in
              match scan keyword markets with
              | (out, Some e) => (Failed e, w1, GetMarkets cursor :: out)
              | (out, None) =>
                  match next_cursor resp with
                  | Some (String c cs) =>
                      match find_market_from fuel' keyword (String c cs) w1 with
                      | (r, w2, out') => (r, w2, GetMarkets cursor :: out ++ out')
                      end
                  | _ => (Done, w1, GetMarkets cursor :: out ++ [PrintComplete])
                  end
              end
          end
      end
  end.

(** The utility starts from the empty cursor. *)
Definition find_market (fuel : nat) (keyword : string) (w : W)
    : ending * W * list output :=
  find_market_from fuel keyword EmptyString w.

End FindMarket.

(** The lines that report a market, among what the utility did. *)
Fixpoint found (out : list output) : list (jval string) :=
  match out with
  | [] => []
  | PrintFound q :: rest => q :: found rest
  | _ :: rest => found rest
  end.

(** The cursors requested. *)
Fixpoint requested (out : list output) : list string :=
  match out with
  | [] => []
  | GetMarkets c :: rest => c :: requested rest
  | _ :: rest => requested rest
  end.

(** A stand-in for [str.lower] on the letters A to Z. *)
Definition lower_char (c : ascii) : ascii :=
  let n := nat_of_ascii c in
  if (65 <=? n) && (n <=? 90) then ascii_of_nat (n + 32) else c.

Fixpoint ascii_lower (s : string) : string :=
  match s with
  | EmptyString => EmptyString
  | String c rest => String (lower_char c) (ascii_lower rest)
  end.

(** A scripted listing: the pages, served in turn whatever the cursor. *)
Definition scripted (cursor : string) (w : list (error + page))
    : (error + page) * list (error + page) :=
  match w with
  | [] => (inl (ClientError "no answer"), [])
  | a :: rest => (a, rest)
  end.

End Search.

(** * Properties *)

(** ** Floating-point facts *)

Lemma SFmul_comm (p e : Z) (x y : spec_float) : SFmul p e x y = SFmul p e y x.
Proof.
  destruct x as [sx | sx | | sx mx ex], y as [sy | sy | | sy my ey]; simpl;
    try reflexivity; try (f_equal; apply xorb_comm).
  rewrite (xorb_comm sx sy), (Pos.mul_comm mx my), (Z.add_comm ex ey).
  reflexivity.
Qed.

Lemma float_mul_comm (x y : float) : (x * y)%float = (y * x)%float.
Proof.
  apply Prim2SF_inj. rewrite !mul_spec. apply SFmul_comm.
Qed.

(** A strictly positive float is not [<= 0] (and is not a NaN). *)
Lemma float_pos_not_le0 (b : float) :
  (0 <? b)%float = true -> (b <=? 0)%float = false.
Proof.
  rewrite ltb_spec, leb_spec. unfold SFltb, SFleb.
  replace (Prim2SF 0) with (S754_zero false) by reflexivity.
  destruct (Prim2SF b) as [s | s | | s m e]; simpl; try discriminate;
    destruct s; simpl; congruence.
Qed.

(** ** Running the monad *)

Section MonadFacts.

Context {W : Type}.

Lemma bind_returned {A B} (m : M W A) (k : A -> M W B) w a w1 t1 :
  m w = (Returned a, w1, t1) ->
  bind m k w = (result (k a w1), world (k a w1), t1 ++ events (k a w1)).
Proof.
  intros H. unfold bind. rewrite H. destruct (k a w1) as [[r w2] t2]. reflexivity.
Qed.

Lemma bind_run {A B} (m : M W A) (k : A -> M W B) w :
  bind m k w =
  match m w with
  | (Returned a, w1, t1) =>
      let r := k a w1 in (result r, world r, t1 ++ events r)
  | (Raised e, w1, t1) => (Raised e, w1, t1)
  | (OutOfFuel, w1, t1) => (OutOfFuel, w1, t1)
  end.
Proof.
  unfold bind. destruct (m w) as [[[a | e | ] w1] t1]; try reflexivity.
  destruct (k a w1) as [[r w2] t2]. reflexivity.
Qed.

End MonadFacts.

(** ** The execution engine: [place_ladder_orders] *)

Section Ladder.

Variable W : Type.
Variable client : Client W.

Lemma place_one_run tok size ids p w :
  let args := mkOrderArgs p size BUY tok in
  place_one W client tok size ids p w =
  (Returned (match accepted (fst (create_and_post_order client args w)) with
             | Some id => ids ++ [id]
             | None => ids
             end),
   snd (create_and_post_order client args w),
   [EvPost args]).
Proof.
  unfold place_one, try_except, bind, call, ret. cbn.
  destruct (create_and_post_order client _ w) as [[e | [ | [ | ] id]] w1];
    reflexivity.
Qed.

Lemma place_loop_run tok size prices : forall ids w,
  place_loop W client tok prices size ids w =
  (Returned (ids ++ placed (submissions W client tok size prices w)),
   venue_after W client tok size prices w,
   map (fun p => EvPost (mkOrderArgs p size BUY tok)) prices).
Proof.
  induction prices as [ | p rest IH]; intros ids w; cbn [place_loop].
  - cbn. rewrite app_nil_r. reflexivity.
  - rewrite (bind_returned _ _ _ _ _ _ (place_one_run tok size ids p w)).
    rewrite IH. cbn.
    destruct (create_and_post_order client _ w) as [r w1]. cbn.
    destruct (accepted r); cbn; rewrite <- ?app_assoc; reflexivity.
Qed.

Lemma posts_map_EvPost (l : list OrderArgs) : posts (map EvPost l) = l.
Proof.
  induction l as [ | a l IH]; cbn; congruence.
Qed.

Lemma submissions_length tok size prices : forall w,
  length (submissions W client tok size prices w) = length prices.
Proof.
  induction prices as [ | p rest IH]; intros w; cbn.
  - reflexivity.
  - destruct (create_and_post_order client _ w) as [r w1]. cbn. now rewrite IH.
Qed.

Lemma placed_failures answers :
  length (placed answers) + failures answers = length answers.
Proof.
  induction answers as [ | r rest IH]; cbn.
  - reflexivity.
  - destruct (accepted r); cbn; lia.
Qed.

End Ladder.

(** ** C5, C7, C4: what the execution engine submits and returns *)

(** C5. Whatever the venue answers, [place_ladder_orders] raises nothing,
    submits every price of the ladder, and returns exactly the
    identifiers of the submissions the venue accepted, in order: as many
    as there are prices less the failed submissions (by exception or by a
    response without success), so N-1 when exactly one fails, and an
    empty list is returned like any other. *)
Theorem C5_partial_failure_tolerant :
  forall (W : Type) (client : Client W) (tok : pystr) (prices : list float)
         (size : float) (w : W),
    let r := place_ladder_orders W client tok prices size w in
    let answers := submissions W client tok size prices w in
    result r = Returned (placed answers)
    /\ posts (events r) = map (fun p => mkOrderArgs p size BUY tok) prices
    /\ length (posts (events r)) = length prices
    /\ length (placed answers) + failures answers = length prices
    /\ (failures answers = 1 -> length (placed answers) = length prices - 1)
    /\ (placed answers = [] -> result r = Returned []).
Proof.
  intros W client tok prices size w r answers.
  assert (Hr : r = (Returned (placed answers),
                    venue_after W client tok size prices w,
                    map (fun p => EvPost (mkOrderArgs p size BUY tok)) prices)).
  { unfold r, place_ladder_orders. rewrite place_loop_run. reflexivity. }
  assert (Hp : posts (events r) = map (fun p => mkOrderArgs p size BUY tok) prices).
  { rewrite Hr. unfold events; cbn [snd].
    rewrite <- (map_map (fun p => mkOrderArgs p size BUY tok) EvPost).
    apply posts_map_EvPost. }
  assert (Hn : length (placed answers) + failures answers = length prices).
  { rewrite placed_failures. apply submissions_length. }
  repeat split.
  - rewrite Hr. reflexivity.
  - exact Hp.
  - rewrite Hp. apply length_map.
  - exact Hn.
  - intros H1. lia.
  - intros H0. rewrite Hr. cbn. now rewrite H0.
Qed.

(** C5 on a scripted venue that raises for the second of three
    submissions: the three are attempted and two identifiers come back. *)
Lemma C5_partial_failure_tolerant_witness :
  let tok := Some "tok"%string in
  let w := Scripted.mkWorld [] [] 0
             [inr (RespDict true (Some "o1"%string)); inl Scripted.down;
              inr (RespDict true (Some "o3"%string))] [] [] [] [] in
  let r := place_ladder_orders Scripted.world Scripted.client tok prices size_per_step w in
  result r = Returned [Some "o1"%string; Some "o3"%string]
  /\ length (posts (events r)) = 3
  /\ length (placed (submissions Scripted.world Scripted.client tok size_per_step prices w))
     = length prices - 1.
Proof.
  intros tok w r.
  pose proof (C5_partial_failure_tolerant Scripted.world Scripted.client tok prices
                size_per_step w) as [H1 [_ [H3 [_ [H5 _]]]]].
  split; [exact H1 | ]. split; [exact H3 | ]. apply H5. reflexivity.
Defined.

(** C7. The ladder submitted for a schedule [P] and a size [s] is one BUY
    order of size [s] per entry of [P], in the order of [P], and the
    maximum cost derived from it is [s] times the sum of [P]. *)
Theorem C7_ladder_shape_and_cost :
  forall (W : Type) (client : Client W) (tok : pystr) (P : list float)
         (s : float) (w : W),
    let ladder := posts (events (place_ladder_orders W client tok P s w)) in
    ladder = map (fun p => mkOrderArgs p s BUY tok) P
    /\ length ladder = length P
    /\ Forall (fun a => oa_side a = BUY /\ oa_size a = s) ladder
    /\ map oa_price ladder = P
    /\ total_max_cost P s = (s * py_sum P)%float.
Proof.
  intros W client tok P s w ladder.
  assert (Hl : ladder = map (fun p => mkOrderArgs p s BUY tok) P).
  { unfold ladder, place_ladder_orders. rewrite place_loop_run.
    unfold events; cbn [snd].
    rewrite <- (map_map (fun p => mkOrderArgs p s BUY tok) EvPost).
    apply posts_map_EvPost. }
  rewrite Hl. repeat split.
  - apply length_map.
  - apply Forall_forall. intros a Ha. apply in_map_iff in Ha.
    destruct Ha as [p [<- _]]. split; reflexivity.
  - rewrite map_map. cbn. apply map_id.
  - unfold total_max_cost. apply float_mul_comm.
Qed.

(** C4, as the code has it. [place_ladder_orders] validates nothing: for
    every schedule and size, within the constraints or not, it raises
    nothing and submits one order per entry with the price and size it was
    given.  The schedule the session itself uses, [0.10, 0.20, 0.30] with
    size 10, is within the constraints. *)
Theorem C4_no_validation :
  forall (W : Type) (client : Client W) (tok : pystr) (P : list float)
         (s : float) (w : W),
    let r := place_ladder_orders W client tok P s w in
    (exists ids, result r = Returned ids)
    /\ posts (events r) = map (fun p => mkOrderArgs p s BUY tok) P
    /\ valid_plan prices size_per_step = true.
Proof.
  intros W client tok P s w r. unfold r, place_ladder_orders.
  rewrite place_loop_run. repeat split.
  - eexists. reflexivity.
  - unfold events; cbn [snd].
    rewrite <- (map_map (fun p => mkOrderArgs p s BUY tok) EvPost).
    apply posts_map_EvPost.
Qed.

(** C4 fails on the code: a schedule with a price above 1 and a price
    below 0, with a negative size, is not rejected; both orders are
    submitted and the venue's identifiers are returned. *)
Lemma C4_invalid_plan_is_submitted :
  let w := Scripted.mkWorld [] [] 0
             [inr (RespDict true (Some "o1"%string));
              inr (RespDict true (Some "o2"%string))] [] [] [] [] in
  let r := place_ladder_orders Scripted.world Scripted.client
             (Some "tok"%string) [1.5; -0.2]%float (-1)%float w in
  valid_plan [1.5; -0.2]%float (-1)%float = false
  /\ result r = Returned [Some "o1"%string; Some "o2"%string]
  /\ posts (events r) =
       [mkOrderArgs 1.5 (-1) BUY (Some "tok"%string);
        mkOrderArgs (-0.2) (-1) BUY (Some "tok"%string)].
Proof.
  repeat split.
Qed.

(** ** C9: the monitor with nothing held *)

(** One turn of the loop that ends by [continue] or by its last statement
    hands over to the next turn, with the same token and the same cost. *)
Lemma monitor_loop_step (W : Type) (client : Client W) fuel tok cost w f w1 t1 :
  monitor_iteration W client tok cost w = (Returned f, w1, t1) ->
  monitor_loop W client (S fuel) tok cost w =
  match f with
  | Break => (Returned tt, w1, t1)
  | Continue =>
      let r := monitor_loop W client fuel tok cost w1 in
      (result r, world r, t1 ++ events r)
  | Next =>
      let r := monitor_loop W client fuel tok cost w1 in
      (result r, world r, t1 ++ EvSleep 15 :: events r)
  end.
Proof.
  intros H. cbn [monitor_loop]. rewrite (bind_returned _ _ _ _ _ _ H).
  destruct f; cbn.
  - rewrite app_nil_r. reflexivity.
  - reflexivity.
  - unfold bind, emit. destruct (monitor_loop W client fuel tok cost w1) as [[r w2] t2].
    reflexivity.
Qed.

Lemma get_token_balance_run (W : Type) (client : Client W) tok w :
  get_token_balance W client tok w =
  (Returned (balance_read (fst (get_balance_allowance client tok w))),
   snd (get_balance_allowance client tok w),
   [EvGetBalance tok]).
Proof.
  unfold get_token_balance, try_except, bind, call.
  destruct (get_balance_allowance client tok w) as [[e | [[ | | x]]] w1];
    reflexivity.
Qed.

Lemma get_token_balance_events (W : Type) (client : Client W) tok w b w1 t1 :
  get_token_balance W client tok w = (Returned b, w1, t1) ->
  t1 = [EvGetBalance tok].
Proof.
  rewrite get_token_balance_run. congruence.
Qed.

(** C9. When the balance read is [<= 0] and the venue lists no open order,
    the loop ends on that turn (whatever fuel is left) and no liquidation
    is invoked; when it lists some, the turn sleeps 10 seconds and the
    loop goes on with its next turn. *)
Theorem C9_nothing_held :
  forall (W : Type) (client : Client W) (tok : pystr) (cost : float)
         (w w1 w2 : W) (b : float) (t1 : list event) (open_orders : list order),
    get_token_balance W client tok w = (Returned b, w1, t1) ->
    (b <=? 0)%float = true ->
    get_orders client tok w1 = (inr open_orders, w2) ->
    match open_orders with
    | [] =>
        monitor_iteration W client tok cost w =
          (Returned Break, w2, [EvGetBalance tok; EvGetOrders tok])
        /\ forall fuel,
             monitor_loop W client (S fuel) tok cost w =
               (Returned tt, w2, [EvGetBalance tok; EvGetOrders tok])
             /\ liquidations (events (monitor_loop W client (S fuel) tok cost w)) = []
    | _ :: _ =>
        monitor_iteration W client tok cost w =
          (Returned Continue, w2, [EvGetBalance tok; EvGetOrders tok; EvSleep 10])
        /\ liquidations (events (monitor_iteration W client tok cost w)) = []
        /\ forall fuel,
             let next := monitor_loop W client fuel tok cost w2 in
             monitor_loop W client (S fuel) tok cost w =
               (result next, world next,
                [EvGetBalance tok; EvGetOrders tok; EvSleep 10] ++ events next)
    end.
Proof.
  intros W client tok cost w w1 w2 b t1 open_orders Hb Hle Ho.
  pose proof (get_token_balance_events _ _ _ _ _ _ _ Hb) as ->.
  assert (Hit : monitor_iteration W client tok cost w =
                match open_orders with
                | [] => (Returned Break, w2, [EvGetBalance tok; EvGetOrders tok])
                | _ :: _ =>
                    (Returned Continue, w2,
                     [EvGetBalance tok; EvGetOrders tok; EvSleep 10])
                end).
  { unfold monitor_iteration, try_except, bind. rewrite Hb, Hle.
    unfold call. rewrite Ho. destruct open_orders; reflexivity. }
  destruct open_orders as [ | o os].
  - split; [exact Hit | ]. intros fuel.
    rewrite (monitor_loop_step _ _ _ _ _ _ _ _ _ Hit). split; reflexivity.
  - split; [exact Hit | ]. split; [rewrite Hit; reflexivity | ]. intros fuel.
    rewrite (monitor_loop_step _ _ _ _ _ _ _ _ _ Hit). reflexivity.
Qed.

(** C9 on a scripted venue: a balance of 0, once with no open order and
    once with one. *)
Lemma C9_nothing_held_witness :
  let tok := Some "tok"%string in
  let w := Scripted.mkWorld [] [] 0 [] [inr []] [] [] [inr (mkBalance (Num 0))] in
  let w' := Scripted.mkWorld [] [] 0 [] [inr [mkOrder (Some "o1"%string)]] [] []
              [inr (mkBalance (Num 0))] in
  (monitor_iteration Scripted.world Scripted.client tok 6 w =
     (Returned Break, Scripted.silent, [EvGetBalance tok; EvGetOrders tok])
   /\ forall fuel,
        monitor_loop Scripted.world Scripted.client (S fuel) tok 6 w =
          (Returned tt, Scripted.silent, [EvGetBalance tok; EvGetOrders tok])
        /\ liquidations
             (events (monitor_loop Scripted.world Scripted.client (S fuel) tok 6 w)) = [])
  /\ monitor_iteration Scripted.world Scripted.client tok 6 w' =
       (Returned Continue, Scripted.silent,
        [EvGetBalance tok; EvGetOrders tok; EvSleep 10]).
Proof.
  intros tok w w'. split.
  - apply (C9_nothing_held Scripted.world Scripted.client tok 6%float
             w (Scripted.mkWorld [] [] 0 [] [inr []] [] [] []) Scripted.silent
             0%float [EvGetBalance tok] []); reflexivity.
  - apply (C9_nothing_held Scripted.world Scripted.client tok 6%float
             w' (Scripted.mkWorld [] [] 0 [] [inr [mkOrder (Some "o1"%string)]] [] [] [])
             Scripted.silent 0%float [EvGetBalance tok]
             [mkOrder (Some "o1"%string)]); reflexivity.
Defined.

(** ** What a computation emits, and how it ends

    [emits], [halts] and [returns] follow the structure of a computation. *)
Section Emits.

Context {W : Type}.

Lemma emits_ret {A} P (a : A) : emits P (@ret W A a).
Proof. intros w. constructor. Qed.

Lemma emits_raise {A} P e : emits P (@raise W A e).
Proof. intros w. constructor. Qed.

Lemma emits_emit P e : P e -> emits P (@emit W e).
Proof. intros H w. repeat constructor. exact H. Qed.

Lemma emits_call {A} P e (f : W -> (exn + A) * W) : P e -> emits P (call e f).
Proof.
  intros H w. unfold call. destruct (f w) as [[x | a] w1]; repeat constructor; exact H.
Qed.

Lemma emits_bind {A B} P (m : M W A) (k : A -> M W B) :
  emits P m -> (forall a, emits P (k a)) -> emits P (bind m k).
Proof.
  intros Hm Hk w. specialize (Hm w). unfold bind.
  destruct (m w) as [[[a | e | ] w1] t1]; cbn in *; try exact Hm.
  specialize (Hk a w1). destruct (k a w1) as [[r w2] t2]. cbn in *.
  apply Forall_app. split; assumption.
Qed.

Lemma emits_try {A} P (body : M W A) (handler : exn -> M W A) :
  emits P body -> (forall e, emits P (handler e)) -> emits P (try_except body handler).
Proof.
  intros Hb Hh w. specialize (Hb w). unfold try_except.
  destruct (body w) as [[[a | e | ] w1] t1]; cbn in *; try exact Hb.
  specialize (Hh e w1). destruct (handler e w1) as [[r w2] t2]. cbn in *.
  apply Forall_app. split; assumption.
Qed.

Lemma halts_ret {A} (a : A) : halts (@ret W A a).
Proof. intros w. discriminate. Qed.

Lemma halts_raise {A} e : halts (@raise W A e).
Proof. intros w. discriminate. Qed.

Lemma halts_emit e : halts (@emit W e).
Proof. intros w. discriminate. Qed.

Lemma halts_call {A} e (f : W -> (exn + A) * W) : halts (call e f).
Proof.
  intros w. unfold call. destruct (f w) as [[x | a] w1]; discriminate.
Qed.

Lemma halts_bind {A B} (m : M W A) (k : A -> M W B) :
  halts m -> (forall a, halts (k a)) -> halts (bind m k).
Proof.
  intros Hm Hk w. specialize (Hm w). unfold bind.
  destruct (m w) as [[[a | e | ] w1] t1]; cbn in *; try discriminate; try congruence.
  specialize (Hk a w1). destruct (k a w1) as [[r w2] t2]. exact Hk.
Qed.

Lemma halts_try {A} (body : M W A) (handler : exn -> M W A) :
  halts body -> (forall e, halts (handler e)) -> halts (try_except body handler).
Proof.
  intros Hb Hh w. specialize (Hb w). unfold try_except.
  destruct (body w) as [[[a | e | ] w1] t1]; cbn in *; try discriminate; try congruence.
  specialize (Hh e w1). destruct (handler e w1) as [[r w2] t2]. exact Hh.
Qed.

Lemma returns_halts {A} (m : M W A) : returns m -> halts m.
Proof.
  intros H w. destruct (H w) as [a ->]. discriminate.
Qed.

Lemma returns_ret {A} (a : A) : returns (@ret W A a).
Proof. intros w. exists a. reflexivity. Qed.

Lemma returns_emit e : returns (@emit W e).
Proof. intros w. exists tt. reflexivity. Qed.

Lemma returns_bind {A B} (m : M W A) (k : A -> M W B) :
  returns m -> (forall a, returns (k a)) -> returns (bind m k).
Proof.
  intros Hm Hk w. destruct (Hm w) as [a Ha]. unfold bind.
  destruct (m w) as [[r w1] t1]. cbn in Ha. subst r.
  destruct (Hk a w1) as [b Hb]. destruct (k a w1) as [[r w2] t2]. cbn in Hb.
  exists b. exact Hb.
Qed.

(** A guarded block whose handler returns, returns. *)
Lemma returns_try {A} (body : M W A) (handler : exn -> M W A) :
  halts body -> (forall e, returns (handler e)) -> returns (try_except body handler).
Proof.
  intros Hb Hh w. specialize (Hb w). unfold try_except.
  destruct (body w) as [[[a | e | ] w1] t1]; cbn in *.
  - exists a. reflexivity.
  - destruct (Hh e w1) as [b Hb']. destruct (handler e w1) as [[r w2] t2].
    exists b. exact Hb'.
  - congruence.
Qed.

End Emits.

Create HintDb bot.
#[local] Hint Resolve emits_ret emits_raise emits_emit emits_call emits_bind emits_try
  halts_ret halts_raise halts_emit halts_call halts_bind halts_try
  returns_ret returns_emit returns_bind returns_try returns_halts : bot.

(** ** The liquidation: [close_all_positions] *)

Section Liquidation.

Variable W : Type.
Variable client : Client W.

Lemma cancel_loop_emits (P : event -> Prop) open_orders :
  (forall id, P (EvCancel id)) -> emits P (cancel_loop W client open_orders).
Proof.
  intros H. induction open_orders as [ | o rest IH]; cbn [cancel_loop]; auto with bot.
Qed.

Lemma cancel_loop_halts open_orders : halts (cancel_loop W client open_orders).
Proof.
  induction open_orders as [ | o rest IH]; cbn [cancel_loop]; auto with bot.
Qed.

Lemma liquidations_none (t : list event) :
  Forall liquidation_step t -> liquidations t = [].
Proof.
  induction 1 as [ | e t He _ IH]; [reflexivity | ].
  destruct e; cbn in *; tauto.
Qed.

(** The liquidation returns, whatever the venue does, and its events are
    its mark followed by listing, cancelling and selling. *)
Lemma close_all_positions_run tok amount w :
  exists w' t,
    close_all_positions W client tok amount w =
      (Returned tt, w', EvLiquidate tok amount :: t)
    /\ Forall liquidation_step t.
Proof.
  unfold close_all_positions.
  set (rest := bind (try_except _ _) _).
  assert (Hret : returns rest).
  { unfold rest. apply returns_bind; [ | intros _ ]; apply returns_try;
      auto using cancel_loop_halts with bot.
    destruct (0 <? amount)%float; auto with bot. }
  assert (Hem : emits liquidation_step rest).
  { unfold rest. apply emits_bind; [ | intros _ ]; apply emits_try; auto with bot.
    - apply emits_bind; [apply emits_call; exact I | ].
      intros a. apply cancel_loop_emits. intros id. exact I.
    - destruct (0 <? amount)%float; auto with bot.
      apply emits_bind; [apply emits_call; exact I | auto with bot]. }
  specialize (Hret w). specialize (Hem w). destruct Hret as [[] Hr].
  unfold bind at 1, emit. destruct (rest w) as [[r w'] t]. cbn in *. subst r.
  exists w', t. split; [reflexivity | exact Hem].
Qed.

Lemma close_all_positions_liquidations tok amount w :
  liquidations (events (close_all_positions W client tok amount w)) = [(tok, amount)].
Proof.
  destruct (close_all_positions_run tok amount w) as [w' [t [-> Ht]]].
  cbn. now rewrite liquidations_none.
Qed.

End Liquidation.

(** C1 fails on the code.  The cancellations share one guarded block: when
    the venue lists the open orders [o :: others] and the cancellation of
    [o] raises, [o] is the only order the liquidation tries to cancel,
    whatever [others] holds; the exception is caught and the sale still
    takes place when the amount is positive. *)
Theorem C1_failed_cancel_skips_the_rest :
  forall (W : Type) (client : Client W) (tok : pystr) (amount : float)
         (w w1 w2 : W) (o : order) (others : list order) (e : exn),
    get_orders client tok w = (inr (o :: others), w1) ->
    cancel client (orderID o) w1 = (inl e, w2) ->
    let r := close_all_positions W client tok amount w in
    result r = Returned tt
    /\ cancels (events r) = [orderID o]
    /\ posts (events r) =
         if (0 <? amount)%float then [mkOrderArgs 0.01 amount SELL tok] else [].
Proof.
  intros W client tok amount w w1 w2 o others e Ho Hc r.
  unfold r, close_all_positions, bind, emit, try_except, call.
  rewrite Ho. cbn [cancel_loop]. unfold bind, call. rewrite Hc. cbn.
  destruct (0 <? amount)%float; cbn; [ | repeat split].
  destruct (create_and_post_order client _ w2) as [[x | a] w3]; repeat split.
Qed.

(** C1 at the input of the specification's test: two open orders, the
    cancellation of the first raises and that of the second would succeed;
    the second is never tried. *)
Lemma C1_failed_cancel_skips_the_rest_witness :
  let tok := Some "tok"%string in
  let A := mkOrder (Some "A"%string) in
  let B := mkOrder (Some "B"%string) in
  let w := Scripted.mkWorld [] [] 0 [inr (RespDict true (Some "sell"%string))]
             [inr [A; B]] [inl Scripted.down; inr tt] [] [] in
  let r := close_all_positions Scripted.world Scripted.client tok 100 w in
  result r = Returned tt
  /\ cancels (events r) = [Some "A"%string]
  /\ posts (events r) = [mkOrderArgs 0.01 100 SELL tok].
Proof.
  intros tok A B w.
  apply (C1_failed_cancel_skips_the_rest Scripted.world Scripted.client tok 100%float w
           (Scripted.mkWorld [] [] 0 [inr (RespDict true (Some "sell"%string))]
              [] [inl Scripted.down; inr tt] [] [])
           (Scripted.mkWorld [] [] 0 [inr (RespDict true (Some "sell"%string))]
              [] [inr tt] [] [])
           A [B] Scripted.down); reflexivity.
Defined.

(** ** The monitor: one turn of the loop *)

Section Monitor.

Variable W : Type.
Variable client : Client W.

(** The turn, case by case on what the venue answers. *)
Lemma monitor_iteration_run tok cost w :
  monitor_iteration W client tok cost w =
  let (rb, w1) := get_balance_allowance client tok w in
  let b := balance_read rb in
  if (b <=? 0)%float then
    match get_orders client tok w1 with
    | (inr [], w2) => (Returned Break, w2, [EvGetBalance tok; EvGetOrders tok])
    | (inr (_ :: _), w2) =>
        (Returned Continue, w2, [EvGetBalance tok; EvGetOrders tok; EvSleep 10])
    | (inl _, w2) => (Returned Next, w2, [EvGetBalance tok; EvGetOrders tok])
    end
  else
    match get_order_book client tok w1 with
    | (inl _, w2) => (Returned Next, w2, [EvGetBalance tok; EvGetOrderBook tok])
    | (inr ob, w2) =>
        match asks ob, bids ob with
        | [], _ | _ :: _, [] =>
            (Returned Continue, w2, [EvGetBalance tok; EvGetOrderBook tok; EvSleep 10])
        | _ :: _, best :: _ =>
            match price best with
            | Num p =>
                if (profit_target cost <=? current_value b p)%float then
                  let r := close_all_positions W client tok b w2 in
                  (Returned Break, world r,
                   [EvGetBalance tok; EvGetOrderBook tok] ++ events r)
                else (Returned Next, w2, [EvGetBalance tok; EvGetOrderBook tok])
            | _ => (Returned Next, w2, [EvGetBalance tok; EvGetOrderBook tok])
            end
        end
    end.
Proof.
  unfold monitor_iteration, try_except, bind at 1.
  rewrite get_token_balance_run.
  destruct (get_balance_allowance client tok w) as [rb w1]. cbn [fst snd].
  destruct (balance_read rb <=? 0)%float.
  - unfold bind, call, emit. destruct (get_orders client tok w1) as [[e | [ | o os]] w2];
      reflexivity.
  - unfold bind at 1, call.
    destruct (get_order_book client tok w1) as [[e | ob] w2]; [reflexivity | ].
    destruct (asks ob) as [ | a al]; [reflexivity | ].
    destruct (bids ob) as [ | best bl]; [reflexivity | ].
    unfold bind at 1. destruct (price best) as [ | | p]; try reflexivity.
    cbn [float_of_field ret].
    destruct (profit_target cost <=? current_value (balance_read rb) p)%float;
      [ | reflexivity].
    destruct (close_all_positions_run W client tok (balance_read rb) w2)
      as [w' [t [Hc _]]].
    unfold bind at 1. rewrite Hc. cbn. rewrite app_nil_r. reflexivity.
Qed.

(** No exception leaves a turn. *)
Lemma monitor_iteration_returns tok cost : returns (monitor_iteration W client tok cost).
Proof.
  intros w. rewrite monitor_iteration_run.
  destruct (get_balance_allowance client tok w) as [rb w1]. cbn zeta.
  destruct (balance_read rb <=? 0)%float.
  - destruct (get_orders client tok w1) as [[e | [ | o os]] w2]; eexists; reflexivity.
  - destruct (get_order_book client tok w1) as [[e | ob] w2]; [eexists; reflexivity | ].
    destruct (asks ob), (bids ob) as [ | best bl]; try (eexists; reflexivity).
    destruct (price best); try (eexists; reflexivity).
    destruct (_ <=? _)%float; eexists; reflexivity.
Qed.

End Monitor.

(** ** C2: errors during a turn of the monitor *)

(** The errors of a turn, query by query.  No exception leaves a turn of
    the loop.  An exception of the open-orders query or of the order-book
    query reaches the loop's handler, and the loop goes on with its next
    turn after the 15 seconds' sleep.  An exception of the balance query
    does not reach it: [get_token_balance] catches it and reads a balance
    of 0, so the turn goes on to the open-orders query as for an empty
    position.  A turn ends the loop only on the branch of a balance [<= 0]
    with no open order, or on the profit branch, after the liquidation. *)
Lemma monitor_turn_errors :
  forall (W : Type) (client : Client W) (tok : pystr) (cost : float) (w : W),
    let r := monitor_iteration W client tok cost w in
    (exists f, result r = Returned f)
    /\ (forall b w1 t1 e w2,
          get_token_balance W client tok w = (Returned b, w1, t1) ->
          (b <=? 0)%float = true ->
          get_orders client tok w1 = (inl e, w2) ->
          r = (Returned Next, w2, [EvGetBalance tok; EvGetOrders tok]))
    /\ (forall b w1 t1 e w2,
          get_token_balance W client tok w = (Returned b, w1, t1) ->
          (b <=? 0)%float = false ->
          get_order_book client tok w1 = (inl e, w2) ->
          r = (Returned Next, w2, [EvGetBalance tok; EvGetOrderBook tok]))
    /\ (forall e w1,
          get_balance_allowance client tok w = (inl e, w1) ->
          get_token_balance W client tok w = (Returned 0%float, w1, [EvGetBalance tok])
          /\ forall w2,
               get_orders client tok w1 = (inr [], w2) ->
               r = (Returned Break, w2, [EvGetBalance tok; EvGetOrders tok]))
    /\ (forall f w' t fuel,
          r = (Returned f, w', t) ->
          f <> Break ->
          result (monitor_loop W client (S fuel) tok cost w)
          = result (monitor_loop W client fuel tok cost w'))
    /\ (result r = Returned Break ->
          (exists b w1 t1 w2,
              get_token_balance W client tok w = (Returned b, w1, t1)
              /\ (b <=? 0)%float = true
              /\ get_orders client tok w1 = (inr [], w2)
              /\ liquidations (events r) = [])
          \/ (exists b w1 t1 ob w2 best p,
                get_token_balance W client tok w = (Returned b, w1, t1)
                /\ (b <=? 0)%float = false
                /\ get_order_book client tok w1 = (inr ob, w2)
                /\ asks ob <> []
                /\ hd_error (bids ob) = Some best
                /\ price best = Num p
                /\ (profit_target cost <=? current_value b p)%float = true
                /\ liquidations (events r) = [(tok, b)])).
Proof.
  intros W client tok cost w r.
  split; [apply monitor_iteration_returns | ].
  split; [ | split; [ | split; [ | split]]].
  - intros b w1 t1 e w2 Hb Hle Ho. unfold r. rewrite monitor_iteration_run.
    rewrite get_token_balance_run in Hb.
    destruct (get_balance_allowance client tok w) as [rb w0]. cbn [fst snd] in Hb.
    injection Hb as Hb Hw _. subst w0. cbn zeta. rewrite Hb, Hle, Ho. reflexivity.
  - intros b w1 t1 e w2 Hb Hle Ho. unfold r. rewrite monitor_iteration_run.
    rewrite get_token_balance_run in Hb.
    destruct (get_balance_allowance client tok w) as [rb w0]. cbn [fst snd] in Hb.
    injection Hb as Hb Hw _. subst w0. cbn zeta. rewrite Hb, Hle, Ho. reflexivity.
  - intros e w1 He. split; [rewrite get_token_balance_run, He; reflexivity | ].
    intros w2 Ho. unfold r. rewrite monitor_iteration_run, He. cbn. rewrite Ho.
    reflexivity.
  - intros f w' t fuel Hr Hf.
    rewrite (monitor_loop_step W client fuel tok cost w f w' t Hr).
    destruct f; [congruence | reflexivity | reflexivity].
  - unfold r. rewrite monitor_iteration_run.
    pose proof (get_token_balance_run W client tok w) as Hb.
    destruct (get_balance_allowance client tok w) as [rb w1]. cbn [fst snd] in Hb.
    cbn zeta. destruct (balance_read rb <=? 0)%float eqn:Hle.
    + destruct (get_orders client tok w1) as [[e | [ | o os]] w2] eqn:Ho;
        try discriminate.
      intros _. left. exists (balance_read rb), w1, [EvGetBalance tok], w2.
      repeat split; assumption.
    + destruct (get_order_book client tok w1) as [[e | ob] w2] eqn:Hob;
        try discriminate.
      destruct (asks ob) as [ | a al] eqn:Ha; try discriminate.
      destruct (bids ob) as [ | best bl] eqn:Hbids; try discriminate.
      destruct (price best) as [ | | p] eqn:Hp; try discriminate.
      destruct (profit_target cost <=? current_value (balance_read rb) p)%float eqn:Hv;
        try discriminate.
      intros _. right.
      exists (balance_read rb), w1, [EvGetBalance tok], ob, w2, best, p.
      repeat split; try assumption.
      * rewrite Ha. discriminate.
      * rewrite Hbids. reflexivity.
      * cbn. apply close_all_positions_liquidations.
Qed.

(** C2 fails on the code.  [get_token_balance] has a handler of its own
    that answers 0 (bot.py, lines 177-179), so an exception of the balance
    query never reaches the handler of the loop (lines 228-231): the turn
    reads a balance of 0, and when no order is open it takes the exit of
    an empty position.  The error by itself ends the monitor on that turn,
    with nothing cancelled and nothing sold, whatever the venue holds and
    however many turns the monitor was given. *)
Theorem C2_balance_error_stops_the_monitor :
  forall (W : Type) (client : Client W) (tok : pystr) (cost : float)
         (w w1 w2 : W) (e : exn) (fuel : nat),
    get_balance_allowance client tok w = (inl e, w1) ->
    get_orders client tok w1 = (inr [], w2) ->
    let r := monitor_and_close W client (S fuel) tok cost w in
    get_token_balance W client tok w = (Returned 0%float, w1, [EvGetBalance tok])
    /\ monitor_iteration W client tok cost w
       = (Returned Break, w2, [EvGetBalance tok; EvGetOrders tok])
    /\ r = (Returned tt, w2,
            [EvMonitorStart tok cost; EvGetBalance tok; EvGetOrders tok])
    /\ liquidations (events r) = []
    /\ sleeps (events r) = [].
Proof.
  intros W client tok cost w w1 w2 e fuel He Ho r.
  assert (Hit : monitor_iteration W client tok cost w
                = (Returned Break, w2, [EvGetBalance tok; EvGetOrders tok])).
  { rewrite monitor_iteration_run, He. cbn. rewrite Ho. reflexivity. }
  assert (Hr : r = (Returned tt, w2,
                    [EvMonitorStart tok cost; EvGetBalance tok; EvGetOrders tok])).
  { unfold r, monitor_and_close, bind at 1, emit.
    rewrite (monitor_loop_step W client fuel tok cost w Break _ _ Hit). reflexivity. }
  split; [rewrite get_token_balance_run, He; reflexivity | ].
  split; [exact Hit | ]. split; [exact Hr | ].
  rewrite Hr. split; reflexivity.
Qed.

(** C2's failure on a scripted venue that holds 100 shares worth less than
    the target and has no open order left.  When its balance query raises
    once, the monitor ends on its first turn, the 100 shares unsold and
    the later answers of the venue unread; when the same query answers,
    the turn ends by its last statement and the monitor carries on. *)
Lemma C2_balance_error_stops_the_monitor_witness :
  let tok := Some "tok"%string in
  let cost := total_max_cost prices size_per_step in
  let book := mkBook [mkLevel (Num 0.05)] [mkLevel (Num 0.06)] in
  let held := inr (mkBalance (Num 100)) in
  let failing := Scripted.mkWorld [] [] 0 [] [inr []; inr []] [] [inr book; inr book]
                   [inl Scripted.down; held] in
  let answering := Scripted.mkWorld [] [] 0 [] [inr []; inr []] [] [inr book; inr book]
                     [held; held] in
  monitor_and_close Scripted.world Scripted.client 5 tok cost failing =
    (Returned tt,
     Scripted.mkWorld [] [] 0 [] [inr []] [] [inr book; inr book] [held],
     [EvMonitorStart tok cost; EvGetBalance tok; EvGetOrders tok])
  /\ liquidations
       (events (monitor_and_close Scripted.world Scripted.client 5 tok cost failing))
     = []
  /\ monitor_iteration Scripted.world Scripted.client tok cost answering =
       (Returned Next,
        Scripted.mkWorld [] [] 0 [] [inr []; inr []] [] [inr book] [held],
        [EvGetBalance tok; EvGetOrderBook tok]).
Proof.
  intros tok cost book held failing answering.
  pose proof (C2_balance_error_stops_the_monitor Scripted.world Scripted.client tok cost
                failing
                (Scripted.mkWorld [] [] 0 [] [inr []; inr []] [] [inr book; inr book]
                   [held])
                (Scripted.mkWorld [] [] 0 [] [inr []] [] [inr book; inr book] [held])
                Scripted.down 4 eq_refl eq_refl) as [_ [_ [Hr [Hl _]]]].
  split; [exact Hr | ]. split; [exact Hl | reflexivity].
Defined.

(** ** C6: the time gate *)

Section TimeGate.

Variable W : Type.
Variable client : Client W.
Variable fromisoformat : string -> exn + datetime.

(** The gate, case by case on the market's fields and on the parser. *)
Lemma check_time_remaining_body_run md thr w :
  check_time_remaining_body W client fromisoformat md thr w =
  match py_or (endDate md) (end_date_iso md) with
  | Some s =>
      if truthy (Some s) then
        match fromisoformat (replace_Z s) with
        | inl e => (Raised e, w, [])
        | inr (Naive _) => (Raised TypeError, snd (now client w), [EvNow])
        | inr (Aware close_us) =>
            (Returned (Z2float thr
                        <? total_seconds (close_us - fst (now client w)) / 60)%float,
             snd (now client w), [EvNow])
        end
      else (Returned false, w, [])
  | None => (Returned false, w, [])
  end.
Proof.
  unfold check_time_remaining_body.
  destruct (py_or (endDate md) (end_date_iso md)) as [s | ]; [ | reflexivity].
  destruct (truthy (Some s)); [ | reflexivity]. cbn [negb].
  unfold bind at 1, lift.
  destruct (fromisoformat (replace_Z s)) as [e | [us | us]]; cbn [raise ret];
    try reflexivity;
    unfold bind, utc_now; destruct (now client w) as [t w1]; reflexivity.
Qed.

(** The mark is the last event of the gate and carries its verdict; before
    it the gate reads the clock at most. *)
Lemma check_time_remaining_events md thr w :
  let r := check_time_remaining W client fromisoformat md thr w in
  exists t, events r = t ++ [EvGate (result r)] /\ Forall (eq EvNow) t.
Proof.
  unfold check_time_remaining. rewrite check_time_remaining_body_run.
  destruct (py_or (endDate md) (end_date_iso md)) as [s | ];
    [ | exists []; split; [reflexivity | constructor]].
  destruct (truthy (Some s)); [ | exists []; split; [reflexivity | constructor]].
  destruct (fromisoformat (replace_Z s)) as [e | [us | us]].
  - exists []. split; [reflexivity | constructor].
  - exists [EvNow]. split; [reflexivity | repeat constructor].
  - exists [EvNow]. split; [reflexivity | repeat constructor].
Qed.

End TimeGate.

(** C6. The close time is taken from ['endDate'] when the market has it
    (and it is not empty) and from ['end_date_iso'] otherwise.  With
    neither, the gate returns false.  With a close time that parses to an
    instant no further than [2^53] microseconds from the clock's reading,
    it returns whether the minutes that remain to that instant exceed the
    threshold, so it returns true if and only if they do; and it returns
    true with such a close time only.  (Within that distance the
    difference is a float, and its division is the one Python makes; the
    minutes are then far below [2^53], so that the conversion of the
    threshold does not change the comparison, whatever the threshold.) *)
Theorem C6_time_gate :
  forall (W : Type) (client : Client W) (fromisoformat : string -> exn + datetime)
         (md : market) (threshold_minutes : Z) (w : W),
    let r := check_time_remaining W client fromisoformat md threshold_minutes w in
    let close_time_str := py_or (endDate md) (end_date_iso md) in
    let remaining close_us :=
      (total_seconds (close_us - fst (now client w)) / 60)%float in
    (truthy (endDate md) = true -> close_time_str = endDate md)
    /\ (truthy (endDate md) = false -> close_time_str = end_date_iso md)
    /\ (truthy close_time_str = false -> result r = Returned false)
    /\ (forall s close_us,
          close_time_str = Some s ->
          truthy (Some s) = true ->
          fromisoformat (replace_Z s) = inr (Aware close_us) ->
          (Z.abs (close_us - fst (now client w)) <= 2 ^ 53)%Z ->
          result r = Returned (Z2float threshold_minutes <? remaining close_us)%float
          /\ (result r = Returned true <->
              (Z2float threshold_minutes <? remaining close_us)%float = true))
    /\ (result r = Returned true ->
        exists s close_us,
          close_time_str = Some s
          /\ truthy (Some s) = true
          /\ fromisoformat (replace_Z s) = inr (Aware close_us)).
Proof.
  intros W client fromisoformat md thr w r close_time_str remaining.
  assert (Hr : result r =
               match close_time_str with
               | Some s =>
                   if truthy (Some s) then
                     match fromisoformat (replace_Z s) with
                     | inl e => Raised e
                     | inr (Naive _) => Raised TypeError
                     | inr (Aware close_us) =>
                         Returned (Z2float thr <? remaining close_us)%float
                     end
                   else Returned false
               | None => Returned false
               end).
  { unfold r, check_time_remaining. rewrite check_time_remaining_body_run.
    fold close_time_str.
    destruct close_time_str as [s | ]; [ | reflexivity].
    destruct (truthy (Some s)); [ | reflexivity].
    destruct (fromisoformat (replace_Z s)) as [e | [us | us]]; reflexivity. }
  split; [ | split; [ | split; [ | split]]].
  - intros H. unfold close_time_str, py_or. now rewrite H.
  - intros H. unfold close_time_str, py_or. now rewrite H.
  - intros H. rewrite Hr. destruct close_time_str as [s | ]; [ | reflexivity].
    now rewrite H.
  - intros s close_us Hs Ht Hp _. rewrite Hr, Hs, Ht, Hp.
    split; [reflexivity | ]. split; congruence.
  - rewrite Hr. intros H. destruct close_time_str as [s | ]; [ | discriminate].
    destruct (truthy (Some s)) eqn:Ht; [ | discriminate].
    destruct (fromisoformat (replace_Z s)) as [e | [us | us]] eqn:Hp;
      try discriminate.
    exists s, us. repeat split; assumption.
Qed.

(** C6 at the inputs of the specification's test, the clock standing at
    midnight: a close 20 minutes later passes a threshold of 13 minutes, a
    close 10 minutes later does not (here it is found under the coarser
    field), and a market with no close time does not. *)
Lemma C6_time_gate_witness :
  let gate md := result (check_time_remaining Scripted.world Scripted.client
                           Scripted.fromisoformat md 13 Scripted.silent) in
  gate (mkMarket None None (Some "2025-01-01T00:20:00Z"%string) None None false)
    = Returned true
  /\ gate (mkMarket None None None (Some "2025-01-01T00:10:00Z"%string) None false)
     = Returned false
  /\ gate (mkMarket None None None None None true) = Returned false.
Proof.
  intros gate. split; [ | split].
  - apply (proj2 (proj1 (proj2 (proj2 (proj2
      (C6_time_gate Scripted.world Scripted.client Scripted.fromisoformat
         (mkMarket None None (Some "2025-01-01T00:20:00Z"%string) None None false)
         13 Scripted.silent))))
      "2025-01-01T00:20:00Z"%string 1200000000%Z
      eq_refl eq_refl eq_refl ltac:(cbn; lia))).
    reflexivity.
  - apply (proj1 (proj1 (proj2 (proj2 (proj2
      (C6_time_gate Scripted.world Scripted.client Scripted.fromisoformat
         (mkMarket None None None (Some "2025-01-01T00:10:00Z"%string) None false)
         13 Scripted.silent))))
      "2025-01-01T00:10:00Z"%string 600000000%Z
      eq_refl eq_refl eq_refl ltac:(cbn; lia))).
  - apply (proj1 (proj2 (proj2
      (C6_time_gate Scripted.world Scripted.client Scripted.fromisoformat
         (mkMarket None None None None None true) 13 Scripted.silent)))).
    reflexivity.
Defined.

(** ** The session: [run] *)

Section Run.

Variable W : Type.
Variable client : Client W.
Variable fromisoformat : string -> exn + datetime.
Variable json_loads : string -> exn + list string.

Lemma lift_emits {A} P (r : exn + A) : emits P (lift W r).
Proof.
  destruct r; cbn; auto with bot.
Qed.

Lemma index_emits {A} P (l : list A) i : emits P (@index W A l i).
Proof.
  unfold index. destruct (py_index l i); auto with bot.
Qed.

Lemma get_market_details_emits slug :
  emits resolving (get_market_details W client slug).
Proof.
  unfold get_market_details. apply emits_try; [ | auto with bot].
  apply emits_bind; [apply emits_call; exact I | ]. intros resp.
  assert (Hf : emits resolving
                 (bind (call (EvGetMarket (Some slug)) (get_market client (Some slug)))
                       (fun market => ret (Some market)))).
  { apply emits_bind; [apply emits_call; exact I | auto with bot]. }
  destruct (status_code resp =? 200)%Z; [ | exact Hf].
  apply emits_bind; [apply lift_emits | ]. intros [ | gamma_data rest]; [exact Hf | ].
  apply emits_bind; [apply emits_call; exact I | auto with bot].
Qed.

Lemma select_token_emits P md idx : emits P (select_token W json_loads md idx).
Proof.
  unfold select_token.
  assert (Hc : emits P
    (match clobTokenIds md with
     | Some s =>
         if truthy (clobTokenIds md)
         then bind (lift W (json_loads s))
                (fun ids => bind (index ids idx) (fun id => @ret W _ (Some (Some id))))
         else ret None
     | None => ret None
     end)).
  { destruct (clobTokenIds md) as [s | ]; [ | auto with bot].
    destruct (truthy (Some s)); [ | auto with bot].
    apply emits_bind; [apply lift_emits | ]. intros ids.
    apply emits_bind; [apply index_emits | auto with bot]. }
  destruct (tokens md) as [[ | t ts] | ]; try exact Hc.
  apply emits_bind; [apply index_emits | auto with bot].
Qed.

Lemma liquidation_step_monitoring e : liquidation_step e -> monitoring e.
Proof.
  destruct e; cbn; tauto.
Qed.

Lemma close_all_positions_emits tok amount :
  emits monitoring (close_all_positions W client tok amount).
Proof.
  intros w. destruct (close_all_positions_run W client tok amount w) as [w' [t [-> Ht]]].
  cbn. constructor; [exact I | ].
  eapply Forall_impl; [ | exact Ht]. apply liquidation_step_monitoring.
Qed.

Lemma monitor_iteration_emits tok cost :
  emits monitoring (monitor_iteration W client tok cost).
Proof.
  unfold monitor_iteration. apply emits_try; [ | auto with bot].
  apply emits_bind.
  { intros w. rewrite get_token_balance_run. repeat constructor. }
  intros b. destruct (b <=? 0)%float.
  - apply emits_bind; [apply emits_call; exact I | ].
    intros [ | o os]; [auto with bot | ].
    apply emits_bind; [apply emits_emit; exact I | auto with bot].
  - apply emits_bind; [apply emits_call; exact I | ]. intros ob.
    assert (Hs : emits monitoring (bind (@emit W (EvSleep 10)) (fun _ => ret Continue))).
    { apply emits_bind; [apply emits_emit; exact I | auto with bot]. }
    destruct (asks ob); [exact Hs | ].
    destruct (bids ob) as [ | best bl]; [exact Hs | ].
    apply emits_bind; [destruct (price best); cbn; auto with bot | ]. intros p.
    destruct (_ <=? _)%float; [ | auto with bot].
    apply emits_bind; [apply close_all_positions_emits | auto with bot].
Qed.

Lemma monitor_loop_emits fuel tok cost :
  emits monitoring (monitor_loop W client fuel tok cost).
Proof.
  induction fuel as [ | fuel IH]; cbn [monitor_loop].
  - intros w. constructor.
  - apply emits_bind; [apply monitor_iteration_emits | ].
    intros [ | | ]; [auto with bot | exact IH | ].
    apply emits_bind; [apply emits_emit; exact I | intros _; exact IH].
Qed.

(** The events of a run have one of the three shapes of a session. *)
Lemma run_session fuel slug thr idx w :
  session (events (run W client fromisoformat json_loads fuel slug thr idx w)).
Proof.
  unfold run. rewrite bind_run.
  pose proof (get_market_details_emits slug w) as Hpre.
  destruct (get_market_details W client slug w) as [[[[md | ] | e | ] w1] pre];
    cbn in Hpre; cbn [events snd];
    try (apply session_stopped; cbn; rewrite ?app_nil_r; exact Hpre).
  destruct (dict_empty md);
    [apply session_stopped; cbn; rewrite ?app_nil_r; exact Hpre | ].
  rewrite bind_run.
  pose proof (select_token_emits (fun _ => False) md idx w1) as Hsel.
  destruct (select_token W json_loads md idx w1) as [[[[tok | ] | e | ] w2] t2];
    cbn in Hsel; destruct t2 as [ | x t2]; try (inversion Hsel; tauto);
    cbn [events snd world result fst];
    try (apply session_stopped; cbn; rewrite ?app_nil_r; exact Hpre).
  rewrite bind_run.
  destruct (check_time_remaining_events W client fromisoformat md thr w2)
    as [clock_reads [Hev Hclock]].
  destruct (check_time_remaining W client fromisoformat md thr w2) as [[v w3] t3].
  cbn in Hev. subst t3.
  destruct v as [[ | ] | e | ]; cbn [negb events snd world result fst];
    try (rewrite ?app_nil_r; rewrite app_nil_l;
         apply session_gated; [exact Hpre | exact Hclock | discriminate]).
  rewrite bind_run. unfold place_ladder_orders. rewrite place_loop_run.
  cbn [events snd world result fst]. unfold monitor_and_close.
  rewrite bind_run. cbn [emit events snd world result fst].
  pose proof (monitor_loop_emits fuel tok (total_max_cost prices size_per_step)
                (venue_after W client tok size_per_step prices w3)) as Hmon.
  cbn [app]. rewrite <- app_assoc. cbn [app].
  apply session_traded; assumption.
Qed.

End Run.

(** ** C8: where the time gate stands in a session *)

Lemma well_gated_gates evs : forall n,
  well_gated n evs = true -> gates evs <= 1 - n.
Proof.
  induction evs as [ | e evs IH]; intros n H; [cbn; lia | ].
  destruct e; cbn in H |- *; try (apply IH; exact H);
    apply andb_prop in H; destruct H as [Hn H]; try (apply IH; exact H).
  apply Nat.eqb_eq in Hn. subst n. apply IH in H. lia.
Qed.

Lemma well_gated_split pre e post : forall n,
  well_gated n (pre ++ e :: post) = true ->
  trading e = true ->
  n + gates pre = 1 /\ gates post = 0.
Proof.
  induction pre as [ | x pre IH]; intros n H He; cbn [app] in H.
  - destruct e; try discriminate He; cbn in H; apply andb_prop in H;
      destruct H as [Hn H]; apply Nat.eqb_eq in Hn; subst n;
      apply well_gated_gates in H; cbn; lia.
  - destruct x; cbn in H; cbn [gates]; try (apply (IH n H He));
      apply andb_prop in H; destruct H as [Hn H]; try (apply (IH n H He)).
    apply Nat.eqb_eq in Hn. subst n. destruct (IH 1 H He) as [H1 H2]. lia.
Qed.

Lemma well_gated_resolving pre rest n :
  Forall resolving pre -> well_gated n (pre ++ rest) = well_gated n rest.
Proof.
  induction 1 as [ | e pre He _ IH]; [reflexivity | ].
  destruct e; cbn in He; try tauto; cbn; exact IH.
Qed.

Lemma well_gated_clock reads rest n :
  Forall (eq EvNow) reads -> well_gated n (reads ++ rest) = well_gated n rest.
Proof.
  induction 1 as [ | e reads He _ IH]; [reflexivity | ].
  subst e. cbn. exact IH.
Qed.

Lemma well_gated_posts (l : list OrderArgs) rest :
  well_gated 1 (map EvPost l ++ rest) = well_gated 1 rest.
Proof.
  induction l as [ | a l IH]; [reflexivity | ]. cbn. exact IH.
Qed.

Lemma well_gated_monitoring mon :
  Forall monitoring mon -> well_gated 1 mon = true.
Proof.
  induction 1 as [ | e mon He _ IH]; [reflexivity | ].
  destruct e; cbn in He; try tauto; cbn; exact IH.
Qed.

Lemma session_well_gated evs : session evs -> well_gated 0 evs = true.
Proof.
  intros [pre Hpre | pre reads v Hpre Hreads Hv | pre reads tok mon Hpre Hreads Hmon].
  - rewrite <- (app_nil_r pre). rewrite well_gated_resolving by assumption. reflexivity.
  - rewrite well_gated_resolving, well_gated_clock by assumption. reflexivity.
  - rewrite well_gated_resolving, well_gated_clock by assumption.
    cbn [well_gated Nat.eqb andb].
    rewrite <- (map_map (fun p => mkOrderArgs p size_per_step BUY tok) EvPost).
    rewrite well_gated_posts. cbn. apply well_gated_monitoring. exact Hmon.
Qed.

Lemma resolving_not_trading evs :
  Forall resolving evs -> Forall (fun e => trading e = false) evs.
Proof.
  apply Forall_impl. intros e. destruct e; cbn; tauto.
Qed.

Lemma clock_not_trading evs :
  Forall (eq EvNow) evs -> Forall (fun e => trading e = false) evs.
Proof.
  apply Forall_impl. intros e <-. reflexivity.
Qed.

Lemma posts_none evs : Forall (fun e => trading e = false) evs -> posts evs = [].
Proof.
  induction 1 as [ | e evs He _ IH]; [reflexivity | ].
  destruct e; cbn in *; try discriminate; exact IH.
Qed.

Lemma gates_in evs v : In (EvGate v) evs -> 1 <= gates evs.
Proof.
  induction evs as [ | e evs IH]; intros H; [destruct H | ].
  destruct H as [-> | H]; [cbn; lia | ].
  apply IH in H. destruct e; cbn; lia.
Qed.

(** A session whose gate gave another verdict than [True] has no event of
    trading. *)
Lemma session_refused evs v :
  session evs -> In (EvGate v) evs -> v <> Returned true ->
  Forall (fun e => trading e = false) evs.
Proof.
  intros [pre Hpre | pre reads v' Hpre Hreads Hv' | pre reads tok mon Hpre Hreads Hmon]
         Hin Hv.
  - apply resolving_not_trading. exact Hpre.
  - apply Forall_app. split; [apply resolving_not_trading; exact Hpre | ].
    apply Forall_app. split; [apply clock_not_trading; exact Hreads | ].
    repeat constructor.
  - exfalso. apply in_app_or in Hin. destruct Hin as [Hin | Hin].
    { rewrite Forall_forall in Hpre. apply Hpre in Hin. exact Hin. }
    apply in_app_or in Hin. destruct Hin as [Hin | Hin].
    { rewrite Forall_forall in Hreads. apply Hreads in Hin. discriminate. }
    destruct Hin as [Hin | Hin]; [congruence | ].
    apply in_app_or in Hin. destruct Hin as [Hin | Hin].
    { apply in_map_iff in Hin. destruct Hin as [p [Hp _]]. discriminate. }
    destruct Hin as [Hin | Hin]; [discriminate | ].
    rewrite Forall_forall in Hmon. apply Hmon in Hin. exact Hin.
Qed.

(** C8. A session that has resolved its market and its token evaluates
    the time gate exactly once (one that stops earlier never does, so no
    run evaluates it twice); every event of trading (a submission, the
    start of the monitor and all it does) comes after that one evaluation
    and is followed by none; and when the gate's verdict is not [True], no
    order is submitted, the monitor is not started and no event of trading
    occurs at all. *)
Theorem C8_gate_once_before_trading :
  forall (W : Type) (client : Client W) (fromisoformat : string -> exn + datetime)
         (json_loads : string -> exn + list string) (fuel : nat) (slug : string)
         (time_threshold outcome_index : Z) (w : W),
    let evs := events (run W client fromisoformat json_loads fuel slug
                         time_threshold outcome_index w) in
    gates evs <= 1
    /\ (forall md w1 pre tok w2 t2,
          get_market_details W client slug w = (Returned (Some md), w1, pre) ->
          dict_empty md = false ->
          select_token W json_loads md outcome_index w1 = (Returned (Some tok), w2, t2) ->
          gates evs = 1)
    /\ (forall pre e post,
          evs = pre ++ e :: post -> trading e = true ->
          gates pre = 1 /\ gates post = 0)
    /\ (forall v,
          In (EvGate v) evs -> v <> Returned true ->
          posts evs = []
          /\ (forall tok cost, ~ In (EvMonitorStart tok cost) evs)
          /\ (forall e, In e evs -> trading e = false)).
Proof.
  intros W client fromisoformat json_loads fuel slug thr idx w evs.
  pose proof (run_session W client fromisoformat json_loads fuel slug thr idx w) as Hs.
  fold evs in Hs. pose proof (session_well_gated evs Hs) as Hwg.
  assert (Hle : gates evs <= 1) by (apply well_gated_gates in Hwg; lia).
  split; [exact Hle | split; [ | split]].
  - intros md w1 pre tok w2 t2 Hmd Hd Hsel.
    enough (Hin : exists v, In (EvGate v) evs).
    { destruct Hin as [v Hin]. pose proof (gates_in evs v Hin). lia. }
    unfold evs, run. rewrite bind_run, Hmd, Hd. cbn zeta.
    rewrite bind_run, Hsel. cbn zeta. rewrite bind_run.
    destruct (check_time_remaining_events W client fromisoformat md thr w2)
      as [reads [Hev _]].
    destruct (check_time_remaining W client fromisoformat md thr w2) as [[v w3] t3].
    cbn in Hev. subst t3. exists v.
    destruct v as [enough | e | ]; cbn [events snd];
      rewrite !in_app_iff; cbn [In]; tauto.
  - intros pre e post Hevs He. rewrite Hevs in Hwg.
    destruct (well_gated_split pre e post 0 Hwg He) as [H1 H2]. split; lia.
  - intros v Hin Hv. pose proof (session_refused evs v Hs Hin Hv) as Hno.
    split; [apply posts_none; exact Hno | ]. rewrite Forall_forall in Hno. split.
    + intros tok cost Hm. apply Hno in Hm. discriminate.
    + exact Hno.
Qed.

(** C8 on a scripted venue: a market closing 10 minutes after the clock's
    reading, with a threshold of 13 minutes.  The run resolves the market,
    evaluates the gate once, and does nothing else. *)
Lemma C8_gate_once_before_trading_witness :
  let gamma := mkMarket None None (Some "2025-01-01T00:10:00Z"%string) None
                 (Some "0xabc"%string) true in
  let clob := mkMarket (Some [mkToken (Some "yes"%string); mkToken (Some "no"%string)])
                None None None None true in
  let w := Scripted.mkWorld [inr (mkHttp 200 (inr [gamma]))] [inr clob] 0
             [inr (RespDict true (Some "o1"%string))] [] [] [] [] in
  let evs := events (run Scripted.world Scripted.client Scripted.fromisoformat
                       Scripted.json_loads 3 "btc-updown"%string 13 1 w) in
  evs = [EvRequestsGet "btc-updown"%string; EvGetMarket (Some "0xabc"%string);
         EvNow; EvGate (Returned false)]
  /\ posts evs = []
  /\ gates evs = 1.
Proof.
  intros gamma clob w evs. split; [reflexivity | ].
  pose proof (C8_gate_once_before_trading Scripted.world Scripted.client
                Scripted.fromisoformat Scripted.json_loads 3 "btc-updown"%string
                13%Z 1%Z w) as [_ [H2 [_ H4]]].
  split.
  - apply (H4 (Returned false)); [ | discriminate].
    right. right. right. left. reflexivity.
  - apply (H2 (update clob gamma)
             (Scripted.mkWorld [] [] 0 [inr (RespDict true (Some "o1"%string))] [] [] [] [])
             [EvRequestsGet "btc-updown"%string; EvGetMarket (Some "0xabc"%string)]
             (Some "no"%string)
             (Scripted.mkWorld [] [] 0 [inr (RespDict true (Some "o1"%string))] [] [] [] [])
             []); reflexivity.
Defined.

(** ** C3: the profit target *)

(** The monitor of a session is started with the maximum cost of the
    ladder. *)
Lemma session_monitor_cost evs tok cost :
  session evs -> In (EvMonitorStart tok cost) evs ->
  cost = total_max_cost prices size_per_step.
Proof.
  intros [pre Hpre | pre reads v Hpre Hreads Hv | pre reads tok' mon Hpre Hreads Hmon] Hin.
  - rewrite Forall_forall in Hpre. apply Hpre in Hin. destruct Hin.
  - apply in_app_or in Hin. destruct Hin as [Hin | Hin].
    { rewrite Forall_forall in Hpre. apply Hpre in Hin. destruct Hin. }
    apply in_app_or in Hin. destruct Hin as [Hin | Hin].
    { rewrite Forall_forall in Hreads. apply Hreads in Hin. discriminate. }
    destruct Hin as [Hin | []]. discriminate.
  - apply in_app_or in Hin. destruct Hin as [Hin | Hin].
    { rewrite Forall_forall in Hpre. apply Hpre in Hin. destruct Hin. }
    apply in_app_or in Hin. destruct Hin as [Hin | Hin].
    { rewrite Forall_forall in Hreads. apply Hreads in Hin. discriminate. }
    destruct Hin as [Hin | Hin]; [discriminate | ].
    apply in_app_or in Hin. destruct Hin as [Hin | Hin].
    { apply in_map_iff in Hin. destruct Hin as [p [Hp _]]. discriminate. }
    destruct Hin as [Hin | Hin]; [congruence | ].
    rewrite Forall_forall in Hmon. apply Hmon in Hin. destruct Hin.
Qed.

(** C3. On a turn where the balance read is strictly positive and the
    book has asks and a best bid with a numeric price, the value computed
    is the balance times the best bid, and it is compared with the cost
    handed to the monitor times 1.3.  When it reaches that target, the
    liquidation is invoked exactly once, with the whole balance, and the
    loop ends (whatever fuel is left); otherwise nothing is liquidated and
    the next turn runs with the same cost, hence the same target.  In a
    session that cost is the maximum cost of the ladder, whatever the
    venue accepted or filled. *)
Theorem C3_profit_target :
  forall (W : Type) (client : Client W) (tok : pystr) (cost : float)
         (w w1 w2 : W) (b : float) (t1 : list event) (ob : order_book)
         (a best : level) (al bl : list level) (p : float),
    get_token_balance W client tok w = (Returned b, w1, t1) ->
    (0 <? b)%float = true ->
    get_order_book client tok w1 = (inr ob, w2) ->
    asks ob = a :: al ->
    bids ob = best :: bl ->
    price best = Num p ->
    let v := current_value b p in
    let r := monitor_iteration W client tok cost w in
    v = (b * p)%float
    /\ profit_target cost = (cost * 1.3)%float
    /\ (if (cost * 1.3 <=? v)%float then
         result r = Returned Break
         /\ liquidations (events r) = [(tok, b)]
         /\ forall fuel,
              result (monitor_loop W client (S fuel) tok cost w) = Returned tt
              /\ liquidations (events (monitor_loop W client (S fuel) tok cost w))
                 = [(tok, b)]
       else
         r = (Returned Next, w2, [EvGetBalance tok; EvGetOrderBook tok])
         /\ liquidations (events r) = []
         /\ forall fuel,
              let next := monitor_loop W client fuel tok cost w2 in
              monitor_loop W client (S fuel) tok cost w =
                (result next, world next,
                 [EvGetBalance tok; EvGetOrderBook tok] ++ EvSleep 15 :: events next))
    /\ (forall fromisoformat json_loads fuel slug time_threshold outcome_index w0
               tok' cost',
          In (EvMonitorStart tok' cost')
             (events (run W client fromisoformat json_loads fuel slug
                        time_threshold outcome_index w0)) ->
          cost' = total_max_cost prices size_per_step).
Proof.
  intros W client tok cost w w1 w2 b t1 ob a best al bl p Hb Hpos Hob Ha Hbid Hp v r.
  split; [reflexivity | ]. split; [reflexivity | ].
  split;
    [ | intros fromisoformat json_loads fuel slug thr idx w0 tok' cost' Hin;
        exact (session_monitor_cost _ tok' cost'
                 (run_session W client fromisoformat json_loads fuel slug thr idx w0)
                 Hin)].
  assert (Hr : r = if (cost * 1.3 <=? v)%float
                   then let c := close_all_positions W client tok b w2 in
                        (Returned Break, world c,
                         [EvGetBalance tok; EvGetOrderBook tok] ++ events c)
                   else (Returned Next, w2, [EvGetBalance tok; EvGetOrderBook tok])).
  { unfold r. rewrite monitor_iteration_run.
    rewrite get_token_balance_run in Hb.
    destruct (get_balance_allowance client tok w) as [rb w0]. cbn [fst snd] in Hb.
    injection Hb as Hb Hw _. subst w0. cbn zeta. rewrite Hb.
    rewrite (float_pos_not_le0 b Hpos), Hob, Ha, Hbid, Hp. reflexivity. }
  destruct (cost * 1.3 <=? v)%float.
  - assert (Hl : liquidations (events r) = [(tok, b)]).
    { rewrite Hr. cbn. apply close_all_positions_liquidations. }
    split; [rewrite Hr; reflexivity | ]. split; [exact Hl | ].
    intros fuel.
    rewrite (monitor_loop_step W client fuel tok cost w Break _ _ Hr).
    split; [reflexivity | ]. cbn. apply close_all_positions_liquidations.
  - split; [exact Hr | ]. split; [rewrite Hr; reflexivity | ].
    intros fuel. rewrite (monitor_loop_step W client fuel tok cost w Next _ _ Hr).
    reflexivity.
Qed.

(** C3 at the input of the specification's test: a balance of 100, a best
    bid of 0.45 and the cost of the session's ladder; the value 45 reaches
    the target and the 100 shares are liquidated, once. *)
Lemma C3_profit_target_witness :
  let tok := Some "tok"%string in
  let cost := total_max_cost prices size_per_step in
  let book := mkBook [mkLevel (Num 0.45)] [mkLevel (Num 0.5)] in
  let w := Scripted.mkWorld [] [] 0 [] [inr []] [] [inr book]
             [inr (mkBalance (Num 100))] in
  let r := monitor_iteration Scripted.world Scripted.client tok cost w in
  current_value 100 0.45 = 45%float
  /\ result r = Returned Break
  /\ liquidations (events r) = [(tok, 100%float)]
  /\ forall fuel,
       result (monitor_loop Scripted.world Scripted.client (S fuel) tok cost w)
       = Returned tt
       /\ liquidations
            (events (monitor_loop Scripted.world Scripted.client (S fuel) tok cost w))
          = [(tok, 100%float)].
Proof.
  intros tok cost book w r. split; [reflexivity | ].
  exact (proj1 (proj2 (proj2
    (C3_profit_target Scripted.world Scripted.client tok cost w
       (Scripted.mkWorld [] [] 0 [] [inr []] [] [inr book] [])
       (Scripted.mkWorld [] [] 0 [] [inr []] [] [] [])
       100%float [EvGetBalance tok] book
       (mkLevel (Num 0.5)) (mkLevel (Num 0.45)) [] [] 0.45%float
       eq_refl eq_refl eq_refl eq_refl eq_refl eq_refl)))).
Defined.

(** ** C10: the choice of the token *)

Lemma py_index_out_of_range {A} (l : list A) (i : Z) :
  (Z.of_nat (length l) <= i)%Z -> py_index l i = None.
Proof.
  intros H. unfold py_index.
  destruct (Z.leb_spec 0 i) as [H0 | H0]; [ | lia].
  apply nth_error_None. lia.
Qed.

(** C10. When the resolved market has a non-empty token list with at most
    [outcome_index] entries, [run] raises [IndexError] at the choice of
    the token: nothing guards it, and by then the run has only resolved
    the market, with no evaluation of the gate and no submission. *)
Theorem C10_token_index_unguarded :
  forall (W : Type) (client : Client W) (fromisoformat : string -> exn + datetime)
         (json_loads : string -> exn + list string) (fuel : nat) (slug : string)
         (time_threshold outcome_index : Z) (w w1 : W) (pre : list event)
         (md : market) (ts : list token),
    get_market_details W client slug w = (Returned (Some md), w1, pre) ->
    tokens md = Some ts ->
    ts <> [] ->
    (Z.of_nat (length ts) <= outcome_index)%Z ->
    run W client fromisoformat json_loads fuel slug time_threshold outcome_index w
      = (Raised IndexError, w1, pre)
    /\ gates pre = 0
    /\ posts pre = []
    /\ Forall resolving pre.
Proof.
  intros W client fromisoformat json_loads fuel slug thr idx w w1 pre md ts
         Hmd Hts Hne Hlen.
  assert (Hpre : Forall resolving pre).
  { pose proof (get_market_details_emits W client slug w) as H.
    rewrite Hmd in H. exact H. }
  split; [ | split; [ | split; [ | exact Hpre]]].
  - unfold run. rewrite bind_run, Hmd.
    assert (Hd : dict_empty md = false).
    { unfold dict_empty, all_keys, has_key, reads_none. cbn [forallb]. now rewrite Hts. }
    rewrite Hd. cbn zeta. rewrite bind_run. unfold select_token. rewrite Hts.
    destruct ts as [ | t ts']; [congruence | ].
    rewrite bind_run. unfold index. rewrite (py_index_out_of_range _ _ Hlen).
    cbn. rewrite !app_nil_r. reflexivity.
  - clear - Hpre. induction Hpre as [ | e pre He _ IH]; [reflexivity | ].
    destruct e; cbn in *; tauto.
  - apply posts_none, resolving_not_trading, Hpre.
Qed.

(** C10 on a scripted venue: a market with a single token and the default
    outcome index 1. *)
Lemma C10_token_index_unguarded_witness :
  let gamma := mkMarket None None (Some "2025-01-01T00:20:00Z"%string) None
                 (Some "0xabc"%string) true in
  let clob := mkMarket (Some [mkToken (Some "yes"%string)]) None None None None true in
  let w := Scripted.mkWorld [inr (mkHttp 200 (inr [gamma]))] [inr clob] 0
             [inr (RespDict true (Some "o1"%string))] [] [] [] [] in
  run Scripted.world Scripted.client Scripted.fromisoformat Scripted.json_loads
      3 "btc-updown"%string 13 1 w
  = (Raised IndexError,
     Scripted.mkWorld [] [] 0 [inr (RespDict true (Some "o1"%string))] [] [] [] [],
     [EvRequestsGet "btc-updown"%string; EvGetMarket (Some "0xabc"%string)]).
Proof.
  intros gamma clob w.
  apply (C10_token_index_unguarded Scripted.world Scripted.client
           Scripted.fromisoformat Scripted.json_loads 3 "btc-updown"%string 13%Z 1%Z w
           (Scripted.mkWorld [] [] 0 [inr (RespDict true (Some "o1"%string))] [] [] [] [])
           [EvRequestsGet "btc-updown"%string; EvGetMarket (Some "0xabc"%string)]
           (update clob gamma) [mkToken (Some "yes"%string)]);
    [reflexivity | reflexivity | discriminate | cbn; lia].
Defined.

(** A whole session on a scripted venue: the gate passes, the ladder is
    submitted (the venue refuses the second order), nothing is held and
    nothing stays open, so the monitor ends on its first turn. *)
Example run_session_example :
  let gamma := mkMarket None None (Some "2025-01-01T00:20:00Z"%string) None
                 (Some "0xabc"%string) true in
  let clob := mkMarket (Some [mkToken (Some "yes"%string); mkToken (Some "no"%string)])
                None None None None true in
  let w := Scripted.mkWorld [inr (mkHttp 200 (inr [gamma]))] [inr clob] 0
             [inr (RespDict true (Some "o1"%string)); inl Scripted.down;
              inr (RespDict true (Some "o3"%string))]
             [inr []] [] [] [inr (mkBalance (Num 0))] in
  let r := run Scripted.world Scripted.client Scripted.fromisoformat
             Scripted.json_loads 3 "btc-updown"%string 13 1 w in
  let no := Some "no"%string in
  result r = Returned tt
  /\ events r =
       [EvRequestsGet "btc-updown"%string; EvGetMarket (Some "0xabc"%string);
        EvNow; EvGate (Returned true);
        EvPost (mkOrderArgs 0.10 10 BUY no); EvPost (mkOrderArgs 0.20 10 BUY no);
        EvPost (mkOrderArgs 0.30 10 BUY no);
        EvMonitorStart no (total_max_cost prices size_per_step);
        EvGetBalance no; EvGetOrders no].
Proof.
  split; reflexivity.
Qed.

(** * Further properties of the code *)

(** ** [parse_url] *)

Lemma split_not_nil sep s : split sep s <> [].
Proof.
  destruct s as [ | c rest]; cbn; [discriminate | ].
  destruct (Ascii.eqb c sep); [discriminate | ].
  destruct (split sep rest); discriminate.
Qed.

Lemma split_pieces_clean sep s :
  Forall (fun piece => has_char sep piece = false) (split sep s).
Proof.
  induction s as [ | c rest IH]; cbn.
  - repeat constructor.
  - destruct (Ascii.eqb c sep) eqn:Hc.
    + constructor; [reflexivity | exact IH].
    + destruct (split sep rest) as [ | piece pieces]; [repeat constructor; cbn; now rewrite Hc | ].
      inversion IH as [ | ? ? Hp Hps]; subst.
      constructor; [cbn; now rewrite Hc, Hp | exact Hps].
Qed.

(** A piece holds no character the string does not hold. *)
Lemma split_pieces_within sep c s :
  has_char c s = false ->
  Forall (fun piece => has_char c piece = false) (split sep s).
Proof.
  induction s as [ | x rest IH]; cbn; intros H.
  - repeat constructor.
  - apply orb_false_iff in H. destruct H as [Hx Hrest]. specialize (IH Hrest).
    destruct (Ascii.eqb x sep).
    + constructor; [reflexivity | exact IH].
    + destruct (split sep rest) as [ | piece pieces]; [repeat constructor; cbn; now rewrite Hx | ].
      inversion IH as [ | ? ? Hp Hps]; subst.
      constructor; [cbn; now rewrite Hx, Hp | exact Hps].
Qed.

Lemma split_without sep s : has_char sep s = false -> split sep s = [s].
Proof.
  induction s as [ | c rest IH]; cbn; intros H; [reflexivity | ].
  apply orb_false_iff in H. destruct H as [Hc Hrest].
  rewrite Hc, (IH Hrest). reflexivity.
Qed.

Lemma py_index_first {A} (l : list A) : py_index l 0 = hd_error l.
Proof.
  destruct l; reflexivity.
Qed.

Lemma py_index_last {A} (l : list A) (d : A) :
  l <> [] -> py_index l (-1) = Some (last l d).
Proof.
  intros Hl. unfold py_index.
  destruct (Z.leb_spec 0 (-1)) as [H | _]; [lia | ].
  destruct (Z.leb_spec (- Z.of_nat (length l)) (-1)) as [_ | H];
    [ | destruct l; [congruence | cbn [length] in H; lia]].
  replace (Z.to_nat (Z.of_nat (length l) + -1)) with (length l - 1) by lia.
  induction l as [ | a [ | b l'] IH]; [congruence | reflexivity | ].
  replace (length (a :: b :: l') - 1) with (S (length (b :: l') - 1))
    by (cbn [length]; lia).
  cbn [nth_error]. rewrite IH by discriminate. reflexivity.
Qed.

Lemma split_head_app sep a b :
  has_char sep a = false ->
  hd_error (split sep (a ++ String sep b)) = Some a.
Proof.
  induction a as [ | c rest IH]; cbn; intros H.
  - now rewrite Ascii.eqb_refl.
  - apply orb_false_iff in H. destruct H as [Hc Hrest]. rewrite Hc.
    specialize (IH Hrest).
    destruct (split sep (rest ++ String sep b)) as [ | piece pieces];
      [discriminate | ].
    cbn in *. congruence.
Qed.

Lemma split_app_length sep a b : 2 <= length (split sep (a ++ String sep b)).
Proof.
  induction a as [ | x r IH]; cbn.
  - rewrite Ascii.eqb_refl. pose proof (split_not_nil sep b).
    destruct (split sep b); [congruence | cbn; lia].
  - destruct (Ascii.eqb x sep).
    + cbn. lia.
    + destruct (split sep (r ++ String sep b)); cbn in *; lia.
Qed.

Lemma split_last_app sep a b d :
  last (split sep (a ++ String sep b)) d = last (split sep b) d.
Proof.
  induction a as [ | c rest IH]; cbn.
  - rewrite Ascii.eqb_refl.
    pose proof (split_not_nil sep b). destruct (split sep b); [congruence | reflexivity].
  - pose proof (split_app_length sep rest b) as Hlen.
    destruct (split sep (rest ++ String sep b)) as [ | piece [ | p2 pieces]];
      cbn [length] in Hlen; try lia.
    destruct (Ascii.eqb c sep); exact IH.
Qed.

Lemma parse_url_segment_of (url : string) :
  exists slug,
    parse_url url = Some slug
    /\ has_char "/"%char slug = false
    /\ has_char "?"%char slug = false.
Proof.
  unfold parse_url. rewrite py_index_first.
  pose proof (split_not_nil "?"%char url) as Hq.
  pose proof (split_pieces_clean "?"%char url) as Hclean.
  destruct (split "?"%char url) as [ | path rest]; [congruence | ]. cbn [hd_error].
  inversion Hclean as [ | ? ? Hpath _]; subst.
  rewrite (py_index_last _ EmptyString (split_not_nil "/"%char path)).
  exists (last (split "/"%char path) EmptyString). split; [reflexivity | ].
  pose proof (split_pieces_clean "/"%char path) as H1.
  pose proof (split_pieces_within "/"%char "?"%char path Hpath) as H2.
  pose proof (split_not_nil "/"%char path) as Hn.
  rewrite Forall_forall in H1, H2.
  assert (Hin : In (last (split "/"%char path) EmptyString) (split "/"%char path)).
  { destruct (exists_last Hn) as [l [x ->]]. rewrite last_last.
    apply in_or_app. right. left. reflexivity. }
  split; [apply H1 | apply H2]; exact Hin.
Qed.

(** X1. [parse_url] always gives a slug, never [None], and the slug holds
    neither a ['/'] nor a ['?']: it is one segment of the path. *)
Theorem X1_parse_url_segment :
  forall url : string,
    exists slug,
      parse_url url = Some slug
      /\ has_char "/"%char slug = false
      /\ has_char "?"%char slug = false.
Proof.
  exact parse_url_segment_of.
Qed.

(** X2. A URL made of a base, a ['/'], a slug and possibly a ['?'] with a
    query parses back to the slug, provided the base holds no ['?'] and
    the slug neither ['/'] nor ['?'].  The slug may be empty: a URL that
    ends in ['/'] parses to the empty slug. *)
Theorem X2_parse_url_round_trip :
  forall base slug query : string,
    has_char "?"%char base = false ->
    has_char "/"%char slug = false ->
    has_char "?"%char slug = false ->
    parse_url (base ++ String "/"%char (slug ++ String "?"%char query)) = Some slug
    /\ parse_url (base ++ String "/"%char slug) = Some slug.
Proof.
  intros base slug query Hbase Hs1 Hs2.
  assert (Hpath : has_char "?"%char (base ++ String "/"%char slug) = false).
  { clear - Hbase Hs2. induction base as [ | c b IH]; cbn in *.
    - exact Hs2.
    - apply orb_false_iff in Hbase. destruct Hbase as [Hc Hb].
      rewrite Hc. exact (IH Hb). }
  assert (Hlast : py_index (split "/"%char (base ++ String "/"%char slug)) (-1)
                  = Some slug).
  { rewrite (py_index_last _ EmptyString (split_not_nil _ _)).
    rewrite split_last_app, (split_without _ _ Hs1). reflexivity. }
  split.
  - unfold parse_url. rewrite py_index_first.
    replace (base ++ String "/"%char (slug ++ String "?"%char query))%string
      with ((base ++ String "/"%char slug) ++ String "?"%char query)%string.
    + rewrite (split_head_app _ _ _ Hpath). now rewrite Hlast.
    + clear. induction base as [ | c b IH]; cbn; [ | now rewrite IH].
      reflexivity.
  - unfold parse_url. rewrite py_index_first, (split_without _ _ Hpath).
    cbn [hd_error]. now rewrite Hlast.
Qed.

(** X2 at the URL of the method's own comment. *)
Lemma X2_parse_url_round_trip_witness :
  parse_url "https://polymarket.com/event/btc-updown-15m-1766699100?tid=1766699194314"
  = Some "btc-updown-15m-1766699100"%string.
Proof.
  apply (proj1 (X2_parse_url_round_trip "https://polymarket.com/event"
                  "btc-updown-15m-1766699100" "tid=1766699194314"
                  eq_refl eq_refl eq_refl)).
Defined.

(** X3. A bare slug is accepted in place of a URL: a string with neither
    ['/'] nor ['?'] parses to itself.  Hence parsing twice is parsing
    once. *)
Theorem X3_parse_url_bare_slug :
  forall url : string,
    (has_char "/"%char url = false -> has_char "?"%char url = false ->
     parse_url url = Some url)
    /\ (forall slug, parse_url url = Some slug -> parse_url slug = Some slug).
Proof.
  assert (Hbare : forall s, has_char "/"%char s = false -> has_char "?"%char s = false ->
                            parse_url s = Some s).
  { intros s H1 H2. unfold parse_url.
    rewrite py_index_first, (split_without _ _ H2). cbn [hd_error].
    rewrite (py_index_last _ EmptyString (split_not_nil _ _)).
    rewrite (split_without _ _ H1). reflexivity. }
  intros url. split; [apply Hbare | ].
  intros slug Hs.
  destruct (parse_url_segment_of url) as [slug' [Hs' [H1 H2]]].
  rewrite Hs in Hs'. injection Hs' as <-. apply Hbare; assumption.
Qed.

(** X3 on a slug. *)
Lemma X3_parse_url_bare_slug_witness :
  parse_url "btc-updown-15m-1766699100" = Some "btc-updown-15m-1766699100"%string.
Proof.
  apply (proj1 (X3_parse_url_bare_slug "btc-updown-15m-1766699100")); reflexivity.
Defined.

(** ** The lookups: [resolve_slug_to_condition_id], [get_market_details],
    [get_position_value] *)

Section LookupFacts.

Variable W : Type.
Variable client : Client W.

(** The resolver, case by case on what the Gamma endpoint answers. *)
Lemma resolve_slug_run slug w :
  resolve_slug_to_condition_id W client slug w =
  (Returned
     match fst (requests_get client slug w) with
     | inr resp =>
         if (status_code resp =? 200)%Z then
           match json resp with
           | inr (first :: _) => conditionId first
           | _ => None
           end
         else None
     | inl _ => None
     end,
   snd (requests_get client slug w),
   [EvRequestsGet slug]).
Proof.
  unfold resolve_slug_to_condition_id, try_except, bind, call.
  destruct (requests_get client slug w) as [[e | resp] w1]; [reflexivity | ].
  cbn [fst snd]. destruct (status_code resp =? 200)%Z; [ | reflexivity].
  destruct (json resp) as [e | [ | first rest]]; reflexivity.
Qed.

(** [get_market_details], case by case on what the two services answer. *)
Lemma get_market_details_run slug w :
  get_market_details W client slug w =
  match requests_get client slug w with
  | (inl _, w1) => (Returned None, w1, [EvRequestsGet slug])
  | (inr resp, w1) =>
      let lookup id (merge : market -> market) :=
        match get_market client id w1 with
        | (inr m, w2) =>
            (Returned (Some (merge m)), w2, [EvRequestsGet slug; EvGetMarket id])
        | (inl _, w2) => (Returned None, w2, [EvRequestsGet slug; EvGetMarket id])
        end in
      if (status_code resp =? 200)%Z then
        match json resp with
        | inl _ => (Returned None, w1, [EvRequestsGet slug])
        | inr (gamma :: _) => lookup (conditionId gamma) (fun m => update m gamma)
        | inr [] => lookup (Some slug) (fun m => m)
        end
      else lookup (Some slug) (fun m => m)
  end.
Proof.
  unfold get_market_details, try_except, bind at 1, call at 1.
  destruct (requests_get client slug w) as [[e | resp] w1]; [reflexivity | ].
  assert (Hf : forall id (merge : market -> market),
             bind (call (EvGetMarket id) (get_market client id))
                  (fun m => ret (Some (merge m))) w1 =
             match get_market client id w1 with
             | (inr m, w2) => (Returned (Some (merge m)), w2, [EvGetMarket id])
             | (inl x, w2) => (Raised x, w2, [EvGetMarket id])
             end).
  { intros id merge. unfold bind, call.
    destruct (get_market client id w1) as [[x | m] w2]; reflexivity. }
  cbn zeta. destruct (status_code resp =? 200)%Z.
  - unfold bind at 1, lift. destruct (json resp) as [e | [ | gamma rest]]; cbn [raise ret].
    + reflexivity.
    + rewrite (Hf (Some slug) (fun m => m)).
      destruct (get_market client (Some slug) w1) as [[x | m] w2]; reflexivity.
    + rewrite (Hf (conditionId gamma) (fun m => update m gamma)).
      destruct (get_market client (conditionId gamma) w1) as [[x | m] w2]; reflexivity.
  - rewrite (Hf (Some slug) (fun m => m)).
    destruct (get_market client (Some slug) w1) as [[x | m] w2]; reflexivity.
Qed.

End LookupFacts.

(** X4. [resolve_slug_to_condition_id] never raises and makes one request
    only: it returns the condition id of the first entry when the
    endpoint answers 200 with a non-empty list, and [None] for any other
    status, an empty list, a body that is no JSON, or a failed request. *)
Theorem X4_resolve_slug :
  forall (W : Type) (client : Client W) (slug : string) (w : W),
    let r := resolve_slug_to_condition_id W client slug w in
    events r = [EvRequestsGet slug]
    /\ (exists id, result r = Returned id)
    /\ (forall resp w1 first rest,
          requests_get client slug w = (inr resp, w1) ->
          status_code resp = 200%Z ->
          json resp = inr (first :: rest) ->
          result r = Returned (conditionId first))
    /\ (forall resp w1,
          requests_get client slug w = (inr resp, w1) ->
          status_code resp <> 200%Z \/ json resp = inr [] \/ (exists e, json resp = inl e) ->
          result r = Returned None)
    /\ (forall e w1,
          requests_get client slug w = (inl e, w1) -> result r = Returned None).
Proof.
  intros W client slug w r. unfold r. rewrite resolve_slug_run.
  split; [reflexivity | ]. split; [eexists; reflexivity | ].
  split; [ | split].
  - intros resp w1 first rest Hr Hs Hj. cbn. rewrite Hr. cbn. rewrite Hs, Hj. reflexivity.
  - intros resp w1 Hr H. cbn. rewrite Hr. cbn.
    destruct (Z.eqb_spec (status_code resp) 200) as [Hs | Hs]; [ | reflexivity].
    destruct H as [H | [H | [e H]]]; [congruence | | ]; rewrite H; reflexivity.
  - intros e w1 Hr. cbn. rewrite Hr. reflexivity.
Qed.

(** X4 on a scripted endpoint that answers 404. *)
Lemma X4_resolve_slug_witness :
  let w := Scripted.mkWorld [inr (mkHttp 404 (inr []))] [] 0 [] [] [] [] [] in
  result (resolve_slug_to_condition_id Scripted.world Scripted.client
            "btc-updown"%string w) = Returned None.
Proof.
  intros w.
  apply (proj1 (proj2 (proj2 (proj2
           (X4_resolve_slug Scripted.world Scripted.client "btc-updown"%string w))))
           (mkHttp 404 (inr [])) Scripted.silent); [reflexivity | ].
  left. discriminate.
Defined.

(** X5. [get_market_details] never raises, and its calls are the request
    to the Gamma endpoint followed by at most one lookup at the exchange.
    It returns [None] exactly when one of the two calls, or the decoding
    of the body, fails. *)
Theorem X5_get_market_details_total :
  forall (W : Type) (client : Client W) (slug : string) (w : W),
    let r := get_market_details W client slug w in
    (exists found, result r = Returned found)
    /\ (exists lookups,
          events r = EvRequestsGet slug :: map EvGetMarket lookups
          /\ length lookups <= 1)
    /\ (result r = Returned None <->
        (exists e, fst (requests_get client slug w) = inl e)
        \/ (exists resp e,
              fst (requests_get client slug w) = inr resp
              /\ status_code resp = 200%Z /\ json resp = inl e)
        \/ (exists id e,
              In (EvGetMarket id) (events r)
              /\ fst (get_market client id (snd (requests_get client slug w))) = inl e)).
Proof.
  intros W client slug w r. unfold r. rewrite get_market_details_run.
  destruct (requests_get client slug w) as [[e | resp] w1]; cbn [fst snd].
  { split; [eexists; reflexivity | ]. split; [exists []; split; [reflexivity | cbn; lia] | ].
    split; [intros _; left; eexists; reflexivity | reflexivity]. }
  cbn zeta.
  assert (Hlookup : forall id (merge : market -> market),
    let r := match get_market client id w1 with
             | (inr m, w2) =>
                 (Returned (Some (merge m)), w2, [EvRequestsGet slug; EvGetMarket id])
             | (inl _, w2) => (@Returned (option market) None, w2,
                               [EvRequestsGet slug; EvGetMarket id])
             end in
    (exists found, result r = Returned found)
    /\ (exists lookups,
          events r = EvRequestsGet slug :: map EvGetMarket lookups
          /\ length lookups <= 1)
    /\ (result r = Returned None <->
        exists id' e, In (EvGetMarket id') (events r)
                      /\ fst (get_market client id' w1) = inl e)).
  { intros id merge.
    destruct (get_market client id w1) as [[x | m] w2] eqn:Hg; cbn zeta.
    - split; [eexists; reflexivity | ].
      split; [exists [id]; split; [reflexivity | cbn; lia] | ].
      split; [ | reflexivity]. intros _. exists id, x. split; [cbn; tauto | ].
      now rewrite Hg.
    - split; [eexists; reflexivity | ].
      split; [exists [id]; split; [reflexivity | cbn; lia] | ].
      split; [discriminate | ]. intros [id' [e [Hin He]]].
      cbn in Hin. destruct Hin as [Hin | [Hin | []]]; [discriminate | ].
      injection Hin as <-. rewrite Hg in He. discriminate. }
  assert (Hwrap : forall r0 : outcome (option market) * W * list event,
    (exists found, result r0 = Returned found)
    /\ (exists lookups,
          events r0 = EvRequestsGet slug :: map EvGetMarket lookups
          /\ length lookups <= 1)
    /\ (result r0 = Returned None <->
        exists id' e, In (EvGetMarket id') (events r0)
                      /\ fst (get_market client id' w1) = inl e) ->
    ~ (status_code resp = 200%Z /\ exists e, json resp = inl e) ->
    (exists found, result r0 = Returned found)
    /\ (exists lookups,
          events r0 = EvRequestsGet slug :: map EvGetMarket lookups
          /\ length lookups <= 1)
    /\ (result r0 = Returned None <->
        (exists e, @inr exn http_resp resp = inl e)
        \/ (exists resp0 e,
              inr resp = @inr exn http_resp resp0
              /\ status_code resp0 = 200%Z /\ json resp0 = inl e)
        \/ (exists id e,
              In (EvGetMarket id) (events r0)
              /\ fst (get_market client id w1) = inl e))).
  { intros r0 [H1 [H2 H3]] Hno. split; [exact H1 | ]. split; [exact H2 | ].
    rewrite H3. split.
    - intros H. right. right. exact H.
    - intros [[e He] | [[resp0 [e [Hr [Hs Hj]]]] | H]]; [discriminate | | exact H].
      injection Hr as <-. exfalso. apply Hno. split; [exact Hs | ]. exists e. exact Hj. }
  destruct (Z.eqb_spec (status_code resp) 200) as [Hs | Hs].
  - destruct (json resp) as [e | [ | gamma rest]] eqn:Hj.
    + split; [eexists; reflexivity | ].
      split; [exists []; split; [reflexivity | cbn; lia] | ].
      split; [ | reflexivity]. intros _. right. left. exists resp, e. auto.
    + apply Hwrap; [apply Hlookup | ]. intros [_ [e He]]. discriminate.
    + apply Hwrap; [apply Hlookup | ]. intros [_ [e He]]. discriminate.
  - apply Hwrap; [apply Hlookup | ]. intros [H _]. contradiction.
Qed.

(** X6. When the Gamma endpoint answers another status than 200, or 200
    with an empty list, [get_market_details] looks the slug itself up at
    the exchange and returns that market as it is. *)
Theorem X6_get_market_details_fallback :
  forall (W : Type) (client : Client W) (slug : string) (w w1 : W) (resp : http_resp),
    requests_get client slug w = (inr resp, w1) ->
    status_code resp <> 200%Z \/ json resp = inr [] ->
    let r := get_market_details W client slug w in
    events r = [EvRequestsGet slug; EvGetMarket (Some slug)]
    /\ (forall m w2,
          get_market client (Some slug) w1 = (inr m, w2) ->
          r = (Returned (Some m), w2, [EvRequestsGet slug; EvGetMarket (Some slug)])).
Proof.
  intros W client slug w w1 resp Hr Hwhy r. unfold r.
  rewrite get_market_details_run, Hr. cbn zeta.
  assert (Hfall :
    let r0 := match get_market client (Some slug) w1 with
              | (inr m, w2) =>
                  (@Returned (option market) (Some m), w2,
                   [EvRequestsGet slug; EvGetMarket (Some slug)])
              | (inl _, w2) =>
                  (Returned None, w2, [EvRequestsGet slug; EvGetMarket (Some slug)])
              end in
    events r0 = [EvRequestsGet slug; EvGetMarket (Some slug)]
    /\ (forall m w2,
          get_market client (Some slug) w1 = (inr m, w2) ->
          r0 = (Returned (Some m), w2, [EvRequestsGet slug; EvGetMarket (Some slug)]))).
  { cbn zeta. split.
    - destruct (get_market client (Some slug) w1) as [[x | m] w2]; reflexivity.
    - intros m w2 Hm. rewrite Hm. reflexivity. }
  destruct (Z.eqb_spec (status_code resp) 200) as [Hs | Hs]; [ | exact Hfall].
  destruct Hwhy as [H | H]; [contradiction | ]. rewrite H. exact Hfall.
Qed.

(** X6 on a scripted venue whose Gamma endpoint knows no such slug. *)
Lemma X6_get_market_details_fallback_witness :
  let clob := mkMarket (Some [mkToken (Some "yes"%string)]) None None
                (Some "2025-01-01T00:20:00Z"%string) None true in
  let w := Scripted.mkWorld [inr (mkHttp 200 (inr []))] [inr clob] 0 [] [] [] [] [] in
  get_market_details Scripted.world Scripted.client "btc-updown"%string w
  = (Returned (Some clob), Scripted.silent,
     [EvRequestsGet "btc-updown"%string; EvGetMarket (Some "btc-updown"%string)]).
Proof.
  intros clob w.
  apply (proj2 (X6_get_market_details_fallback Scripted.world Scripted.client
                  "btc-updown"%string w
                  (Scripted.mkWorld [] [inr clob] 0 [] [] [] [] [])
                  (mkHttp 200 (inr [])) eq_refl (or_intror eq_refl))).
  reflexivity.
Defined.

Lemma market_key_eqb_eq a b : market_key_eqb a b = true <-> a = b.
Proof.
  destruct a, b; cbn; split; congruence.
Qed.

Lemma existsb_market_key k l : existsb (market_key_eqb k) l = true <-> In k l.
Proof.
  rewrite existsb_exists. split.
  - intros [x [Hin Hx]]. apply market_key_eqb_eq in Hx. now subst x.
  - intros Hin. exists k. split; [exact Hin | now apply market_key_eqb_eq].
Qed.

Lemma updated_reads {A} (g : market) (k : market_key) (in_g in_m : option A) :
  reads_none g k = is_none in_g ->
  merged_reads g k in_g in_m (updated g k in_g in_m).
Proof.
  intros Hread. unfold merged_reads, updated, has_key, null_in. rewrite Hread.
  destruct in_g as [v | ]; cbn.
  - repeat split; congruence.
  - destruct (existsb (market_key_eqb k) (null_keys g)) eqn:He.
    + apply existsb_market_key in He. repeat split; try congruence; tauto.
    + assert (Hn : ~ In k (null_keys g)).
      { intros Hin. apply existsb_market_key in Hin. congruence. }
      repeat split; try congruence; tauto.
Qed.

(** X7. When the Gamma endpoint answers 200 with a non-empty list,
    [get_market_details] looks up at the exchange the condition id of the
    first entry, which is the id [resolve_slug_to_condition_id] returns
    from the same world; the slug itself is not looked up, even when the
    entry has no condition id.  The market returned is the exchange's,
    updated with the entry: each of the five keys reads as in the entry
    when the entry has it (with its value, or with [None] when it holds
    [None]) and as at the exchange when the entry has it not.  So the time
    gate reads Gamma's ['endDate'] when there is one. *)
Theorem X7_get_market_details_gamma :
  forall (W : Type) (client : Client W) (slug : string) (w w1 : W) (resp : http_resp)
         (gamma : market) (rest : list market),
    requests_get client slug w = (inr resp, w1) ->
    status_code resp = 200%Z ->
    json resp = inr (gamma :: rest) ->
    let r := get_market_details W client slug w in
    events r = [EvRequestsGet slug; EvGetMarket (conditionId gamma)]
    /\ result (resolve_slug_to_condition_id W client slug w)
       = Returned (conditionId gamma)
    /\ (forall m w2,
          get_market client (conditionId gamma) w1 = (inr m, w2) ->
          exists merged,
            r = (Returned (Some merged), w2,
                 [EvRequestsGet slug; EvGetMarket (conditionId gamma)])
            /\ merged_reads gamma KeyTokens (tokens gamma) (tokens m) (tokens merged)
            /\ merged_reads gamma KeyClobTokenIds
                 (clobTokenIds gamma) (clobTokenIds m) (clobTokenIds merged)
            /\ merged_reads gamma KeyEndDate (endDate gamma) (endDate m) (endDate merged)
            /\ merged_reads gamma KeyEndDateIso
                 (end_date_iso gamma) (end_date_iso m) (end_date_iso merged)
            /\ merged_reads gamma KeyConditionId
                 (conditionId gamma) (conditionId m) (conditionId merged)
            /\ (truthy (endDate gamma) = true ->
                py_or (endDate merged) (end_date_iso merged) = endDate gamma)).
Proof.
  intros W client slug w w1 resp gamma rest Hr Hs Hj r. unfold r.
  rewrite get_market_details_run, resolve_slug_run, Hr. cbn [fst snd]. cbn zeta.
  rewrite Hs, Hj. cbn [Z.eqb Pos.eqb].
  split; [destruct (get_market client (conditionId gamma) w1) as [[x | m] w2];
          reflexivity | ].
  split; [reflexivity | ].
  intros m w2 Hm. rewrite Hm. exists (update m gamma).
  split; [reflexivity | ]. unfold update. cbn [tokens clobTokenIds endDate end_date_iso
                                                conditionId].
  repeat (split; [apply updated_reads; reflexivity | ]).
  intros H. destruct (endDate gamma) as [s | ] eqn:He; [ | discriminate].
  unfold updated, has_key, reads_none. rewrite He. cbn. unfold py_or. now rewrite H.
Qed.

(** X7 on a scripted venue whose Gamma entry has the condition id and a
    close time that is [None]: the market returned has the exchange's
    tokens, and no ['endDate'] although the exchange had one. *)
Lemma X7_get_market_details_gamma_witness :
  let gamma := mkMarketWith None None None None (Some "0xabc"%string) true [KeyEndDate] in
  let clob := mkMarket (Some [mkToken (Some "yes"%string); mkToken (Some "no"%string)])
                None (Some "2025-01-01T00:20:00Z"%string) (Some "2025-01-01"%string)
                None true in
  let w := Scripted.mkWorld [inr (mkHttp 200 (inr [gamma]))] [inr clob] 0 [] [] [] [] [] in
  events (get_market_details Scripted.world Scripted.client "btc-updown"%string w)
  = [EvRequestsGet "btc-updown"%string; EvGetMarket (Some "0xabc"%string)]
  /\ result (resolve_slug_to_condition_id Scripted.world Scripted.client
               "btc-updown"%string w) = Returned (Some "0xabc"%string)
  /\ exists merged,
       result (get_market_details Scripted.world Scripted.client "btc-updown"%string w)
       = Returned (Some merged)
       /\ endDate merged = None
       /\ end_date_iso merged = Some "2025-01-01"%string
       /\ tokens merged = tokens clob.
Proof.
  intros gamma clob w.
  pose proof (X7_get_market_details_gamma Scripted.world Scripted.client
                "btc-updown"%string w
                (Scripted.mkWorld [] [inr clob] 0 [] [] [] [] [])
                (mkHttp 200 (inr [gamma])) gamma [] eq_refl eq_refl eq_refl)
    as [H1 [H2 H3]].
  split; [exact H1 | ]. split; [exact H2 | ].
  destruct (H3 clob Scripted.silent eq_refl)
    as [merged [Hr [Htok [_ [Hend [Hiso _]]]]]].
  exists merged. split; [rewrite Hr; reflexivity | ].
  split; [apply (proj1 (proj2 Hend)); [reflexivity | left; reflexivity] | ].
  split.
  - apply (proj2 (proj2 Hiso)); [reflexivity | ]. intros [H | []]. discriminate.
  - apply (proj2 (proj2 Htok)); [reflexivity | ]. intros [H | []]. discriminate.
Defined.

(** X8. [get_position_value] never raises and asks for the order book
    once.  It values the amount at the middle of the best bid and the best
    ask when the book has both sides with numeric prices, and returns 0
    when the call fails, when a side is empty, or when one of the two
    prices is missing or is no number. *)
Theorem X8_get_position_value :
  forall (W : Type) (client : Client W) (tok : pystr) (amount : float) (w : W),
    let r := get_position_value W client tok amount w in
    events r = [EvGetOrderBook tok]
    /\ world r = snd (get_order_book client tok w)
    /\ result r =
       Returned
         match fst (get_order_book client tok w) with
         | inr ob =>
             match bids ob, asks ob with
             | b :: _, a :: _ =>
                 match price b, price a with
                 | Num best_bid, Num best_ask =>
                     (amount * ((best_bid + best_ask) / 2))%float
                 | _, _ => 0%float
                 end
             | _, _ => 0%float
             end
         | inl _ => 0%float
         end.
Proof.
  intros W client tok amount w r.
  unfold r, get_position_value, try_except, bind, call.
  destruct (get_order_book client tok w) as [[e | ob] w1]; cbn [fst snd];
    [repeat split | ].
  destruct (bids ob) as [ | b bl]; [repeat split | ].
  destruct (asks ob) as [ | a al]; [repeat split | ].
  destruct (price b) as [ | | x]; cbn; [repeat split | repeat split | ].
  destruct (price a) as [ | | y]; cbn; repeat split.
Qed.

(** ** More on the liquidation *)

Section LiquidationFacts.

Variable W : Type.
Variable client : Client W.

Lemma cancel_loop_events open_orders : forall w,
  events (cancel_loop W client open_orders w) =
  map EvCancel (firstn (cancel_tried client open_orders w) (map orderID open_orders)).
Proof.
  induction open_orders as [ | o rest IH]; intros w; cbn [cancel_loop cancel_tried].
  - reflexivity.
  - rewrite bind_run. unfold call.
    destruct (cancel client (orderID o) w) as [[e | []] w1]; [reflexivity | ].
    cbn. rewrite IH. reflexivity.
Qed.

Lemma cancel_tried_le open_orders : forall w,
  cancel_tried client open_orders w <= length open_orders.
Proof.
  induction open_orders as [ | o rest IH]; intros w; cbn; [lia | ].
  destruct (cancel client (orderID o) w) as [[e | u] w1]; [lia | ].
  specialize (IH w1). lia.
Qed.

Lemma cancel_all_ok_tried open_orders : forall w,
  cancel_all_ok client open_orders w = true ->
  cancel_tried client open_orders w = length open_orders.
Proof.
  induction open_orders as [ | o rest IH]; intros w; cbn; [reflexivity | ].
  destruct (cancel client (orderID o) w) as [[e | u] w1]; [discriminate | ].
  intros H. now rewrite (IH w1 H).
Qed.

Lemma cancels_map_EvCancel ids : cancels (map EvCancel ids) = ids.
Proof.
  induction ids as [ | id ids IH]; cbn; congruence.
Qed.

Lemma posts_app t1 t2 : posts (t1 ++ t2) = posts t1 ++ posts t2.
Proof.
  induction t1 as [ | e t1 IH]; [reflexivity | ].
  destruct e; cbn; rewrite ?IH; reflexivity.
Qed.

Lemma cancels_app t1 t2 : cancels (t1 ++ t2) = cancels t1 ++ cancels t2.
Proof.
  induction t1 as [ | e t1 IH]; [reflexivity | ].
  destruct e; cbn; rewrite ?IH; reflexivity.
Qed.

Lemma posts_map_EvCancel ids : posts (map EvCancel ids) = [].
Proof.
  induction ids as [ | id ids IH]; cbn; congruence.
Qed.

(** The first phase of the liquidation: it returns, and its events are the
    listing followed by the cancellations tried. *)
Lemma cancel_phase_run tok w :
  let phase :=
    try_except
      (bind (call (EvGetOrders tok) (get_orders client tok))
            (fun open_orders => cancel_loop W client open_orders))
      (fun _ => ret tt) in
  exists w1,
    phase w =
    (Returned tt, w1,
     EvGetOrders tok ::
       match get_orders client tok w with
       | (inr open_orders, w0) =>
           map EvCancel (firstn (cancel_tried client open_orders w0)
                           (map orderID open_orders))
       | (inl _, _) => []
       end).
Proof.
  cbn zeta. unfold try_except. rewrite bind_run. unfold call.
  destruct (get_orders client tok w) as [[e | open_orders] w0].
  - exists w0. reflexivity.
  - cbn zeta. pose proof (cancel_loop_events open_orders w0) as Hev.
    pose proof (cancel_loop_halts W client open_orders w0) as Hh.
    destruct (cancel_loop W client open_orders w0) as [[[[] | e | ] w1] t1];
      cbn in Hev, Hh; subst t1; [ | | congruence].
    + exists w1. reflexivity.
    + exists w1. cbn. rewrite app_nil_r. reflexivity.
Qed.

(** The second phase: one sale when the amount is positive, nothing
    otherwise, and it returns in both cases. *)
Lemma sale_phase_run tok amount w :
  let phase :=
    try_except
      (if (0 <? amount)%float
       then bind (call (EvPost (mkOrderArgs 0.01 amount SELL tok))
                       (create_and_post_order client (mkOrderArgs 0.01 amount SELL tok)))
                 (fun _ => ret tt)
       else ret tt)
      (fun _ => ret tt) in
  exists w1,
    phase w =
    (Returned tt, w1,
     if (0 <? amount)%float then [EvPost (mkOrderArgs 0.01 amount SELL tok)] else []).
Proof.
  cbn zeta. unfold try_except.
  destruct (0 <? amount)%float; [ | exists w; reflexivity].
  unfold bind, call.
  destruct (create_and_post_order client _ w) as [[e | a] w1]; exists w1; reflexivity.
Qed.

(** The whole liquidation, event by event. *)
Lemma close_all_positions_events tok amount w :
  exists w',
    close_all_positions W client tok amount w =
    (Returned tt, w',
     EvLiquidate tok amount :: EvGetOrders tok ::
       match get_orders client tok w with
       | (inr open_orders, w0) =>
           map EvCancel (firstn (cancel_tried client open_orders w0)
                           (map orderID open_orders))
       | (inl _, _) => []
       end
       ++ (if (0 <? amount)%float
           then [EvPost (mkOrderArgs 0.01 amount SELL tok)] else [])).
Proof.
  unfold close_all_positions. rewrite bind_run. cbn [emit]. cbn zeta.
  rewrite bind_run.
  destruct (cancel_phase_run tok w) as [w1 H1]. cbn zeta in H1. rewrite H1. cbn zeta.
  destruct (sale_phase_run tok amount w1) as [w2 H2]. cbn zeta in H2. rewrite H2.
  exists w2. reflexivity.
Qed.

Lemma close_all_positions_posts tok amount w :
  posts (events (close_all_positions W client tok amount w)) =
  if (0 <? amount)%float then [mkOrderArgs 0.01 amount SELL tok] else [].
Proof.
  destruct (close_all_positions_events tok amount w) as [w' ->].
  cbn [events snd posts]. rewrite posts_app.
  destruct (get_orders client tok w) as [[e | open_orders] w0];
    rewrite ?posts_map_EvCancel; destruct (0 <? amount)%float; reflexivity.
Qed.

End LiquidationFacts.

(** X9. The liquidation never raises, whatever the venue does, and the
    sale does not depend on the cancellations: it submits exactly one
    order, a SELL of the whole amount at 0.01, when the amount is strictly
    positive, and no order at all otherwise (an amount of 0, a negative
    one, a NaN). *)
Theorem X9_liquidation_sale :
  forall (W : Type) (client : Client W) (tok : pystr) (amount : float) (w : W),
    let r := close_all_positions W client tok amount w in
    result r = Returned tt
    /\ posts (events r) =
       (if (0 <? amount)%float then [mkOrderArgs 0.01 amount SELL tok] else [])
    /\ liquidations (events r) = [(tok, amount)].
Proof.
  intros W client tok amount w r. unfold r. split; [ | split].
  - destruct (close_all_positions_events W client tok amount w) as [w' ->]. reflexivity.
  - apply close_all_positions_posts.
  - apply close_all_positions_liquidations.
Qed.

(** X10. The liquidation lists the open orders once and cancels them in
    the order of the listing, without skipping any, up to and including
    the first whose cancellation raises: the cancellations tried are a
    prefix of the orders listed.  When the listing itself fails, nothing
    is cancelled. *)
Theorem X10_liquidation_cancels_prefix :
  forall (W : Type) (client : Client W) (tok : pystr) (amount : float) (w : W),
    let r := close_all_positions W client tok amount w in
    (forall open_orders w1,
       get_orders client tok w = (inr open_orders, w1) ->
       cancels (events r)
       = firstn (cancel_tried client open_orders w1) (map orderID open_orders)
       /\ cancel_tried client open_orders w1 <= length open_orders)
    /\ (forall e w1,
          get_orders client tok w = (inl e, w1) -> cancels (events r) = []).
Proof.
  intros W client tok amount w r. unfold r.
  destruct (close_all_positions_events W client tok amount w) as [w' ->].
  cbn [events snd cancels]. rewrite cancels_app.
  assert (Hsale : cancels (if (0 <? amount)%float
                           then [EvPost (mkOrderArgs 0.01 amount SELL tok)] else []) = []).
  { destruct (0 <? amount)%float; reflexivity. }
  rewrite Hsale, app_nil_r. split.
  - intros open_orders w1 Ho. rewrite Ho. split;
      [apply cancels_map_EvCancel | apply cancel_tried_le].
  - intros e w1 Ho. rewrite Ho. reflexivity.
Qed.

(** X10 on a scripted venue listing three orders, where the second
    cancellation raises: the first two are tried, the third is not. *)
Lemma X10_liquidation_cancels_prefix_witness :
  let tok := Some "tok"%string in
  let orders := [mkOrder (Some "A"%string); mkOrder (Some "B"%string);
                 mkOrder (Some "C"%string)] in
  let w := Scripted.mkWorld [] [] 0 [] [inr orders]
             [inr tt; inl Scripted.down; inr tt] [] [] in
  cancels (events (close_all_positions Scripted.world Scripted.client tok 5 w))
  = [Some "A"%string; Some "B"%string].
Proof.
  intros tok orders w.
  apply (proj1 (X10_liquidation_cancels_prefix Scripted.world Scripted.client tok
                  5%float w) orders
           (Scripted.mkWorld [] [] 0 [] [] [inr tt; inl Scripted.down; inr tt] [] [])
           eq_refl).
Defined.

(** X11. When the venue lists the open orders and lets every cancellation
    through, the liquidation cancels each of them, in order, and then
    sells if the amount is positive: its events are its mark, the
    listing, one cancellation per order, and the sale. *)
Theorem X11_liquidation_complete :
  forall (W : Type) (client : Client W) (tok : pystr) (amount : float) (w w1 : W)
         (open_orders : list order),
    get_orders client tok w = (inr open_orders, w1) ->
    cancel_all_ok client open_orders w1 = true ->
    events (close_all_positions W client tok amount w) =
      EvLiquidate tok amount :: EvGetOrders tok
        :: map (fun o => EvCancel (orderID o)) open_orders
        ++ (if (0 <? amount)%float
            then [EvPost (mkOrderArgs 0.01 amount SELL tok)] else []).
Proof.
  intros W client tok amount w w1 open_orders Ho Hok.
  destruct (close_all_positions_events W client tok amount w) as [w' ->].
  cbn [events snd]. rewrite Ho, (cancel_all_ok_tried W client _ _ Hok).
  rewrite <- (length_map orderID), firstn_all, map_map. reflexivity.
Qed.

(** X11 on a scripted venue with two open orders. *)
Lemma X11_liquidation_complete_witness :
  let tok := Some "tok"%string in
  let w := Scripted.mkWorld [] [] 0 [inr (RespDict true None)]
             [inr [mkOrder (Some "A"%string); mkOrder (Some "B"%string)]]
             [inr tt; inr tt] [] [] in
  events (close_all_positions Scripted.world Scripted.client tok 5 w) =
    [EvLiquidate tok 5; EvGetOrders tok; EvCancel (Some "A"%string);
     EvCancel (Some "B"%string); EvPost (mkOrderArgs 0.01 5 SELL tok)].
Proof.
  intros tok w.
  apply (X11_liquidation_complete Scripted.world Scripted.client tok 5%float w
           (Scripted.mkWorld [] [] 0 [inr (RespDict true None)] [] [inr tt; inr tt] [] [])
           [mkOrder (Some "A"%string); mkOrder (Some "B"%string)]); reflexivity.
Defined.

(** ** More on the monitor *)

Section MonitorFacts.

Variable W : Type.
Variable client : Client W.

Lemma liquidations_app t1 t2 :
  liquidations (t1 ++ t2) = liquidations t1 ++ liquidations t2.
Proof.
  induction t1 as [ | e t1 IH]; [reflexivity | ].
  destruct e; cbn; rewrite ?IH; reflexivity.
Qed.

Lemma sleeps_app t1 t2 : sleeps (t1 ++ t2) = sleeps t1 ++ sleeps t2.
Proof.
  induction t1 as [ | e t1 IH]; [reflexivity | ].
  destruct e; cbn; rewrite ?IH; reflexivity.
Qed.

(** A turn either trades nothing, or liquidates the balance it read and
    ends the loop. *)
Lemma monitor_iteration_trades tok cost w :
  let r := monitor_iteration W client tok cost w in
  (liquidations (events r) = [] /\ posts (events r) = [])
  \/ (result r = Returned Break
      /\ exists b,
           liquidations (events r) = [(tok, b)]
           /\ posts (events r) =
              if (0 <? b)%float then [mkOrderArgs 0.01 b SELL tok] else []).
Proof.
  cbn zeta. rewrite monitor_iteration_run.
  destruct (get_balance_allowance client tok w) as [rb w1]. cbn zeta.
  destruct (balance_read rb <=? 0)%float.
  - left. destruct (get_orders client tok w1) as [[e | [ | o os]] w2]; split; reflexivity.
  - destruct (get_order_book client tok w1) as [[e | ob] w2]; [left; split; reflexivity | ].
    destruct (asks ob); [left; split; reflexivity | ].
    destruct (bids ob) as [ | best bl]; [left; split; reflexivity | ].
    destruct (price best) as [ | | p]; try (left; split; reflexivity).
    destruct (_ <=? _)%float; [ | left; split; reflexivity].
    right. split; [reflexivity | ]. exists (balance_read rb). cbn [events snd app].
    split.
    + cbn. apply close_all_positions_liquidations.
    + cbn. apply close_all_positions_posts.
Qed.

(** The loop does not raise, liquidates at most once and, when it does,
    sells at most once and returns. *)
Lemma monitor_loop_trades fuel tok cost : forall w,
  let r := monitor_loop W client fuel tok cost w in
  (result r = Returned tt \/ result r = OutOfFuel)
  /\ ((liquidations (events r) = [] /\ posts (events r) = [])
      \/ (result r = Returned tt
          /\ exists b,
               liquidations (events r) = [(tok, b)]
               /\ posts (events r) =
                  if (0 <? b)%float then [mkOrderArgs 0.01 b SELL tok] else [])).
Proof.
  induction fuel as [ | fuel IH]; intros w; cbn zeta.
  - cbn. split; [right; reflexivity | left; split; reflexivity].
  - destruct (monitor_iteration_returns W client tok cost w) as [f Hf].
    pose proof (monitor_iteration_trades tok cost w) as Ht. cbn zeta in Ht.
    destruct (monitor_iteration W client tok cost w) as [[r0 w1] t1] eqn:Hit.
    cbn in Hf. subst r0. cbn [events snd result fst] in Ht.
    rewrite (monitor_loop_step W client fuel tok cost w f w1 t1 Hit).
    destruct f.
    + split; [left; reflexivity | ].
      destruct Ht as [Ht | [_ Ht]]; [left; exact Ht | right; split; [reflexivity | exact Ht]].
    + destruct Ht as [[Hl Hp] | [Hb _]]; [ | discriminate].
      specialize (IH w1). cbn zeta in IH. destruct IH as [IH1 IH2].
      cbn zeta. cbn [result world events fst snd].
      rewrite liquidations_app, posts_app, Hl, Hp. cbn [app].
      split; assumption.
    + destruct Ht as [[Hl Hp] | [Hb _]]; [ | discriminate].
      specialize (IH w1). cbn zeta in IH. destruct IH as [IH1 IH2].
      cbn zeta. cbn [result world events fst snd].
      rewrite liquidations_app, posts_app, Hl, Hp. cbn [app liquidations posts].
      split; assumption.
Qed.

End MonitorFacts.

(** X12. On a turn where the balance read is not [<= 0] and the book
    lacks a side (no ask, or no bid), the monitor cannot price the
    position: it liquidates nothing, sleeps 10 seconds and goes on with
    its next turn, without the 15 seconds' sleep. *)
Theorem X12_monitor_missing_book_side :
  forall (W : Type) (client : Client W) (tok : pystr) (cost : float)
         (w w1 w2 : W) (b : float) (t1 : list event) (ob : order_book),
    get_token_balance W client tok w = (Returned b, w1, t1) ->
    (b <=? 0)%float = false ->
    get_order_book client tok w1 = (inr ob, w2) ->
    asks ob = [] \/ bids ob = [] ->
    monitor_iteration W client tok cost w =
      (Returned Continue, w2, [EvGetBalance tok; EvGetOrderBook tok; EvSleep 10])
    /\ forall fuel,
         let next := monitor_loop W client fuel tok cost w2 in
         monitor_loop W client (S fuel) tok cost w =
           (result next, world next,
            [EvGetBalance tok; EvGetOrderBook tok; EvSleep 10] ++ events next).
Proof.
  intros W client tok cost w w1 w2 b t1 ob Hb Hle Hob Hside.
  assert (Hit : monitor_iteration W client tok cost w =
                (Returned Continue, w2,
                 [EvGetBalance tok; EvGetOrderBook tok; EvSleep 10])).
  { rewrite monitor_iteration_run. rewrite get_token_balance_run in Hb.
    destruct (get_balance_allowance client tok w) as [rb w0]. cbn [fst snd] in Hb.
    injection Hb as Hb Hw _. subst w0. cbn zeta. rewrite Hb, Hle, Hob.
    destruct Hside as [H | H]; rewrite H; [reflexivity | ].
    destruct (asks ob); reflexivity. }
  split; [exact Hit | ]. intros fuel.
  rewrite (monitor_loop_step W client fuel tok cost w Continue _ _ Hit). reflexivity.
Qed.

(** X12 on a scripted venue whose book has asks but no bid. *)
Lemma X12_monitor_missing_book_side_witness :
  let tok := Some "tok"%string in
  let book := mkBook [] [mkLevel (Num 0.5)] in
  let w := Scripted.mkWorld [] [] 0 [] [] [] [inr book] [inr (mkBalance (Num 100))] in
  monitor_iteration Scripted.world Scripted.client tok 6 w =
    (Returned Continue, Scripted.silent,
     [EvGetBalance tok; EvGetOrderBook tok; EvSleep 10]).
Proof.
  intros tok book w.
  apply (proj1 (X12_monitor_missing_book_side Scripted.world Scripted.client tok 6%float w
                  (Scripted.mkWorld [] [] 0 [] [] [] [inr book] []) Scripted.silent
                  100%float [EvGetBalance tok] book eq_refl eq_refl eq_refl
                  (or_intror eq_refl))).
Defined.

(** X13. On a turn where the book has both sides but the price of the
    best bid is missing or is no number, the conversion raises inside the
    turn: the exception is caught, nothing is liquidated, and the loop
    goes on after the 15 seconds' sleep.  The price of the best ask is
    never read. *)
Theorem X13_monitor_unusable_bid :
  forall (W : Type) (client : Client W) (tok : pystr) (cost : float)
         (w w1 w2 : W) (b : float) (t1 : list event) (ob : order_book)
         (a best : level) (al bl : list level),
    get_token_balance W client tok w = (Returned b, w1, t1) ->
    (b <=? 0)%float = false ->
    get_order_book client tok w1 = (inr ob, w2) ->
    asks ob = a :: al ->
    bids ob = best :: bl ->
    price best = Missing \/ price best = Unparsable ->
    monitor_iteration W client tok cost w =
      (Returned Next, w2, [EvGetBalance tok; EvGetOrderBook tok])
    /\ forall fuel,
         let next := monitor_loop W client fuel tok cost w2 in
         monitor_loop W client (S fuel) tok cost w =
           (result next, world next,
            [EvGetBalance tok; EvGetOrderBook tok] ++ EvSleep 15 :: events next).
Proof.
  intros W client tok cost w w1 w2 b t1 ob a best al bl Hb Hle Hob Ha Hbid Hp.
  assert (Hit : monitor_iteration W client tok cost w =
                (Returned Next, w2, [EvGetBalance tok; EvGetOrderBook tok])).
  { rewrite monitor_iteration_run. rewrite get_token_balance_run in Hb.
    destruct (get_balance_allowance client tok w) as [rb w0]. cbn [fst snd] in Hb.
    injection Hb as Hb Hw _. subst w0. cbn zeta. rewrite Hb, Hle, Hob, Ha, Hbid.
    destruct Hp as [H | H]; rewrite H; reflexivity. }
  split; [exact Hit | ]. intros fuel.
  rewrite (monitor_loop_step W client fuel tok cost w Next _ _ Hit). reflexivity.
Qed.

(** X13 on a scripted venue whose best bid has no price and whose best ask
    has a price that is no number. *)
Lemma X13_monitor_unusable_bid_witness :
  let tok := Some "tok"%string in
  let book := mkBook [mkLevel Missing] [mkLevel Unparsable] in
  let w := Scripted.mkWorld [] [] 0 [] [] [] [inr book] [inr (mkBalance (Num 100))] in
  monitor_iteration Scripted.world Scripted.client tok 6 w =
    (Returned Next, Scripted.silent, [EvGetBalance tok; EvGetOrderBook tok]).
Proof.
  intros tok book w.
  apply (proj1 (X13_monitor_unusable_bid Scripted.world Scripted.client tok 6%float w
                  (Scripted.mkWorld [] [] 0 [] [] [] [inr book] []) Scripted.silent
                  100%float [EvGetBalance tok] book (mkLevel Unparsable) (mkLevel Missing)
                  [] [] eq_refl eq_refl eq_refl eq_refl eq_refl (or_introl eq_refl))).
Defined.

(** X14. [monitor_and_close] never raises, whatever the venue does: with
    any fuel it returns or is still running.  It never buys: over the
    whole loop it invokes the liquidation at most once, for the token it
    monitors, submits at most one order, which is the liquidation's sale
    at 0.01, and once it has liquidated it returns. *)
Theorem X14_monitor_trades_once :
  forall (W : Type) (client : Client W) (fuel : nat) (tok : pystr) (cost : float) (w : W),
    let r := monitor_and_close W client fuel tok cost w in
    (result r = Returned tt \/ result r = OutOfFuel)
    /\ length (liquidations (events r)) <= 1
    /\ length (posts (events r)) <= 1
    /\ Forall (is_sale_of tok) (posts (events r))
    /\ (forall t amount,
          In (t, amount) (liquidations (events r)) ->
          t = tok /\ result r = Returned tt).
Proof.
  intros W client fuel tok cost w r. unfold r, monitor_and_close.
  rewrite bind_run. cbn [emit]. cbn zeta.
  pose proof (monitor_loop_trades W client fuel tok cost w) as [Hres Htr].
  cbn zeta in Hres, Htr.
  destruct (monitor_loop W client fuel tok cost w) as [[r0 w1] t] eqn:Hl.
  cbn [result world events fst snd] in *. cbn [app liquidations posts].
  split; [exact Hres | ].
  destruct Htr as [[Hliq Hp] | [Hr [b [Hliq Hp]]]]; rewrite Hliq, Hp.
  - split; [cbn; lia | ]. split; [cbn; lia | ]. split; [constructor | ].
    intros t0 amount Hin. destruct Hin.
  - split; [cbn; lia | ].
    split; [destruct (0 <? b)%float; cbn; lia | ].
    split; [destruct (0 <? b)%float; repeat constructor | ].
    intros t0 amount [H | []]. injection H as <- _. split; [reflexivity | exact Hr].
Qed.

(** X15. The monitor has no bound of its own.  On a venue that stays in
    a state where the balance query and the open-orders query both raise,
    every turn reads a balance of 0, has its exception caught and sleeps
    15 seconds: whatever the fuel, the loop has not returned when the fuel
    is spent, it has slept as many times as it took turns, and it has
    liquidated nothing. *)
Theorem X15_monitor_persistent_failure :
  forall (W : Type) (client : Client W) (tok : pystr) (cost : float)
         (stuck : W -> Prop),
    (forall w, stuck w ->
       exists e w1,
         get_balance_allowance client tok w = (inl e, w1) /\ stuck w1) ->
    (forall w, stuck w ->
       exists e w1, get_orders client tok w = (inl e, w1) /\ stuck w1) ->
    forall (fuel : nat) (w : W),
      stuck w ->
      let r := monitor_loop W client fuel tok cost w in
      result r = OutOfFuel
      /\ stuck (world r)
      /\ sleeps (events r) = repeat 15 fuel
      /\ liquidations (events r) = []
      /\ posts (events r) = [].
Proof.
  intros W client tok cost stuck Hbal Hord fuel.
  induction fuel as [ | fuel IH]; intros w Hw; cbn zeta.
  - cbn. repeat split. exact Hw.
  - destruct (Hbal w Hw) as [e [w1 [Hb Hw1]]].
    destruct (Hord w1 Hw1) as [e' [w2 [Ho Hw2]]].
    assert (Hit : monitor_iteration W client tok cost w =
                  (Returned Next, w2, [EvGetBalance tok; EvGetOrders tok])).
    { rewrite monitor_iteration_run, Hb. cbn. rewrite Ho. reflexivity. }
    rewrite (monitor_loop_step W client fuel tok cost w Next _ _ Hit).
    specialize (IH w2 Hw2). cbn zeta in IH. destruct IH as [H1 [H2 [H3 [H4 H5]]]].
    cbn zeta. cbn [result world events fst snd app sleeps liquidations posts].
    rewrite H3, H4, H5. repeat split; assumption.
Qed.

(** X15 on the scripted venue with nothing to say, where every call
    raises: five turns, five sleeps, no end. *)
Lemma X15_monitor_persistent_failure_witness :
  let r := monitor_loop Scripted.world Scripted.client 5 (Some "tok"%string) 6
             Scripted.silent in
  result r = OutOfFuel /\ sleeps (events r) = [15; 15; 15; 15; 15].
Proof.
  intros r.
  pose proof (X15_monitor_persistent_failure Scripted.world Scripted.client
                (Some "tok"%string) 6%float (fun w => w = Scripted.silent)) as H.
  assert (H1 : forall w, w = Scripted.silent ->
               exists e w1,
                 get_balance_allowance Scripted.client (Some "tok"%string) w = (inl e, w1)
                 /\ w1 = Scripted.silent).
  { intros w ->. eexists. eexists. split; reflexivity. }
  assert (H2 : forall w, w = Scripted.silent ->
               exists e w1,
                 get_orders Scripted.client (Some "tok"%string) w = (inl e, w1)
                 /\ w1 = Scripted.silent).
  { intros w ->. eexists. eexists. split; reflexivity. }
  destruct (H H1 H2 5 Scripted.silent eq_refl) as [Hr [_ [Hs _]]].
  split; [exact Hr | exact Hs].
Defined.

(** ** More on the session *)

Section RunFacts.

Variable W : Type.
Variable client : Client W.
Variable fromisoformat : string -> exn + datetime.
Variable json_loads : string -> exn + list string.

(** A run that has its market and its token is the gate, followed by the
    ladder and the monitor when the verdict is [True]. *)
Lemma run_from_gate fuel slug thr idx w md w1 pre tok w2 t2 :
  get_market_details W client slug w = (Returned (Some md), w1, pre) ->
  dict_empty md = false ->
  select_token W json_loads md idx w1 = (Returned (Some tok), w2, t2) ->
  run W client fromisoformat json_loads fuel slug thr idx w =
  match check_time_remaining W client fromisoformat md thr w2 with
  | (Returned true, w3, t3) =>
      let cost := total_max_cost prices size_per_step in
      let w4 := venue_after W client tok size_per_step prices w3 in
      let mon := monitor_loop W client fuel tok cost w4 in
      (result mon, world mon,
       pre ++ t3
         ++ map (fun p => EvPost (mkOrderArgs p size_per_step BUY tok)) prices
         ++ EvMonitorStart tok cost :: events mon)
  | (Returned false, w3, t3) => (Returned tt, w3, pre ++ t3)
  | (Raised e, w3, t3) => (Raised e, w3, pre ++ t3)
  | (OutOfFuel, w3, t3) => (OutOfFuel, w3, pre ++ t3)
  end.
Proof.
  intros Hmd Hd Hsel.
  assert (Ht2 : t2 = []).
  { pose proof (select_token_emits W json_loads (fun _ => False) md idx w1) as H.
    rewrite Hsel in H. cbn in H. destruct t2; [reflexivity | inversion H; tauto]. }
  subst t2.
  unfold run. rewrite bind_run, Hmd, Hd. cbn zeta. rewrite bind_run, Hsel. cbn zeta.
  rewrite bind_run.
  destruct (check_time_remaining W client fromisoformat md thr w2)
    as [[[[ | ] | e | ] w3] t3]; cbn [negb]; try (cbn; rewrite ?app_nil_r; reflexivity).
  cbn zeta. rewrite bind_run. unfold place_ladder_orders. rewrite place_loop_run.
  cbn zeta. cbn [result world events fst snd]. unfold monitor_and_close.
  rewrite bind_run. cbn [emit]. cbn zeta. cbn [result world events fst snd app].
  reflexivity.
Qed.

End RunFacts.

(** X16. [run] returns quietly, having only resolved the market (no
    evaluation of the gate, no order), when the market is not found, when
    its dictionary is empty, or when it has no token list and no
    ['clobTokenIds'] string to fall back on. *)
Theorem X16_run_without_market_or_token :
  forall (W : Type) (client : Client W) (fromisoformat : string -> exn + datetime)
         (json_loads : string -> exn + list string) (fuel : nat) (slug : string)
         (time_threshold outcome_index : Z) (w w1 : W) (pre : list event)
         (found : option market),
    get_market_details W client slug w = (Returned found, w1, pre) ->
    match found with
    | None => True
    | Some md =>
        dict_empty md = true
        \/ ((tokens md = None \/ tokens md = Some [])
            /\ truthy (clobTokenIds md) = false)
    end ->
    run W client fromisoformat json_loads fuel slug time_threshold outcome_index w
      = (Returned tt, w1, pre)
    /\ gates pre = 0
    /\ posts pre = [].
Proof.
  intros W client fromisoformat json_loads fuel slug thr idx w w1 pre found Hmd Hwhy.
  assert (Hpre : Forall resolving pre).
  { pose proof (get_market_details_emits W client slug w) as H.
    rewrite Hmd in H. exact H. }
  split; [ | split].
  - unfold run. rewrite bind_run, Hmd. cbn zeta.
    destruct found as [md | ]; [ | cbn; rewrite app_nil_r; reflexivity].
    destruct (dict_empty md) eqn:Hd; [cbn; rewrite app_nil_r; reflexivity | ].
    destruct Hwhy as [H | [Htok Hclob]]; [discriminate | ].
    rewrite bind_run.
    assert (Hsel : select_token W json_loads md idx w1 = (Returned None, w1, [])).
    { unfold select_token.
      destruct Htok as [-> | ->]; destruct (clobTokenIds md) as [s | ];
        try reflexivity; rewrite Hclob; reflexivity. }
    rewrite Hsel. cbn. rewrite !app_nil_r. reflexivity.
  - clear - Hpre. induction Hpre as [ | e pre He _ IH]; [reflexivity | ].
    destruct e; cbn in *; tauto.
  - apply posts_none, resolving_not_trading, Hpre.
Qed.

(** X16 on a scripted venue where both services are down. *)
Lemma X16_run_without_market_or_token_witness :
  run Scripted.world Scripted.client Scripted.fromisoformat Scripted.json_loads
      3 "btc-updown"%string 13 1 Scripted.silent
  = (Returned tt, Scripted.silent, [EvRequestsGet "btc-updown"%string]).
Proof.
  apply (X16_run_without_market_or_token Scripted.world Scripted.client
           Scripted.fromisoformat Scripted.json_loads 3 "btc-updown"%string 13%Z 1%Z
           Scripted.silent Scripted.silent [EvRequestsGet "btc-updown"%string] None
           eq_refl I).
Defined.

(** X17. Nothing in [run] guards the time gate: when the market and the
    token are resolved and the close time does not parse, the parser's
    exception leaves [run] before the clock is read; when it parses to a
    time without a zone, the subtraction raises [TypeError] once the clock
    is read.  In both cases no order has been submitted. *)
Theorem X17_run_unparsable_close_time :
  forall (W : Type) (client : Client W) (fromisoformat : string -> exn + datetime)
         (json_loads : string -> exn + list string) (fuel : nat) (slug : string)
         (time_threshold outcome_index : Z) (w w1 w2 : W) (pre t2 : list event)
         (md : market) (tok : pystr) (s : string),
    get_market_details W client slug w = (Returned (Some md), w1, pre) ->
    dict_empty md = false ->
    select_token W json_loads md outcome_index w1 = (Returned (Some tok), w2, t2) ->
    py_or (endDate md) (end_date_iso md) = Some s ->
    truthy (Some s) = true ->
    let r := run W client fromisoformat json_loads fuel slug time_threshold
               outcome_index w in
    (forall e,
       fromisoformat (replace_Z s) = inl e ->
       r = (Raised e, w2, pre ++ [EvGate (Raised e)]))
    /\ (forall us,
          fromisoformat (replace_Z s) = inr (Naive us) ->
          r = (Raised TypeError, snd (now client w2),
               pre ++ [EvNow; EvGate (Raised TypeError)]))
    /\ ((exists e, fromisoformat (replace_Z s) = inl e)
        \/ (exists us, fromisoformat (replace_Z s) = inr (Naive us)) ->
        posts (events r) = []).
Proof.
  intros W client fromisoformat json_loads fuel slug thr idx w w1 w2 pre t2 md tok s
         Hmd Hd Hsel Hs Ht r.
  assert (Hpre : posts pre = []).
  { apply posts_none, resolving_not_trading.
    pose proof (get_market_details_emits W client slug w) as H.
    rewrite Hmd in H. exact H. }
  assert (Hgate : check_time_remaining W client fromisoformat md thr w2 =
                  match fromisoformat (replace_Z s) with
                  | inl e => (Raised e, w2, [EvGate (Raised e)])
                  | inr (Naive _) =>
                      (Raised TypeError, snd (now client w2),
                       [EvNow; EvGate (Raised TypeError)])
                  | inr (Aware close_us) =>
                      let v := (Z2float thr
                                  <? total_seconds (close_us - fst (now client w2)) / 60)%float in
                      (Returned v, snd (now client w2), [EvNow; EvGate (Returned v)])
                  end).
  { unfold check_time_remaining. rewrite check_time_remaining_body_run, Hs, Ht.
    destruct (fromisoformat (replace_Z s)) as [e | [us | us]]; reflexivity. }
  assert (Hrun := run_from_gate W client fromisoformat json_loads fuel slug thr idx
                    w md w1 pre tok w2 t2 Hmd Hd Hsel).
  fold r in Hrun. rewrite Hgate in Hrun.
  split; [ | split].
  - intros e He. rewrite He in Hrun. exact Hrun.
  - intros us Hus. rewrite Hus in Hrun. exact Hrun.
  - intros [[e He] | [us Hus]].
    + rewrite He in Hrun. rewrite Hrun. cbn [events snd].
      rewrite posts_app, Hpre. reflexivity.
    + rewrite Hus in Hrun. rewrite Hrun. cbn [events snd].
      rewrite posts_app, Hpre. reflexivity.
Qed.

(** X17 on a scripted venue whose market closes at a time written without
    a zone. *)
Lemma X17_run_unparsable_close_time_witness :
  let gamma := mkMarket None None (Some "2025-01-01T00:20:00"%string) None
                 (Some "0xabc"%string) true in
  let clob := mkMarket (Some [mkToken (Some "yes"%string); mkToken (Some "no"%string)])
                None None None None true in
  let w := Scripted.mkWorld [inr (mkHttp 200 (inr [gamma]))] [inr clob] 0
             [inr (RespDict true (Some "o1"%string))] [] [] [] [] in
  run Scripted.world Scripted.client Scripted.fromisoformat Scripted.json_loads
      3 "btc-updown"%string 13 1 w
  = (Raised TypeError,
     Scripted.mkWorld [] [] 0 [inr (RespDict true (Some "o1"%string))] [] [] [] [],
     [EvRequestsGet "btc-updown"%string; EvGetMarket (Some "0xabc"%string);
      EvNow; EvGate (Raised TypeError)]).
Proof.
  intros gamma clob w.
  apply (proj1 (proj2
    (X17_run_unparsable_close_time Scripted.world Scripted.client
       Scripted.fromisoformat Scripted.json_loads 3 "btc-updown"%string 13%Z 1%Z w
       (Scripted.mkWorld [] [] 0 [inr (RespDict true (Some "o1"%string))] [] [] [] [])
       (Scripted.mkWorld [] [] 0 [inr (RespDict true (Some "o1"%string))] [] [] [] [])
       [EvRequestsGet "btc-updown"%string; EvGetMarket (Some "0xabc"%string)] []
       (update clob gamma) (Some "no"%string) "2025-01-01T00:20:00"%string
       eq_refl eq_refl eq_refl eq_refl eq_refl)) 1200000000%Z).
  reflexivity.
Defined.

(** X18. Once the gate has returned [True], [run] submits the ladder of
    three BUY orders for the chosen token and starts the monitor with the
    ladder's maximum cost, whatever the venue answered to the submissions
    (the identifiers returned are not looked at): the outcome of the run
    is the outcome of the monitor on the venue the submissions left. *)
Theorem X18_run_trades_after_gate :
  forall (W : Type) (client : Client W) (fromisoformat : string -> exn + datetime)
         (json_loads : string -> exn + list string) (fuel : nat) (slug : string)
         (time_threshold outcome_index : Z) (w w1 w2 w3 : W) (pre t2 t3 : list event)
         (md : market) (tok : pystr),
    get_market_details W client slug w = (Returned (Some md), w1, pre) ->
    dict_empty md = false ->
    select_token W json_loads md outcome_index w1 = (Returned (Some tok), w2, t2) ->
    check_time_remaining W client fromisoformat md time_threshold w2
      = (Returned true, w3, t3) ->
    let cost := total_max_cost prices size_per_step in
    let mon := monitor_loop W client fuel tok cost
                 (venue_after W client tok size_per_step prices w3) in
    run W client fromisoformat json_loads fuel slug time_threshold outcome_index w
    = (result mon, world mon,
       pre ++ t3
         ++ [EvPost (mkOrderArgs 0.10 10 BUY tok); EvPost (mkOrderArgs 0.20 10 BUY tok);
             EvPost (mkOrderArgs 0.30 10 BUY tok)]
         ++ EvMonitorStart tok cost :: events mon).
Proof.
  intros W client fromisoformat json_loads fuel slug thr idx w w1 w2 w3 pre t2 t3 md tok
         Hmd Hd Hsel Hgate cost mon.
  rewrite (run_from_gate W client fromisoformat json_loads fuel slug thr idx
             w md w1 pre tok w2 t2 Hmd Hd Hsel), Hgate.
  reflexivity.
Qed.

(** X18 on a scripted venue that refuses every submission: the monitor
    starts all the same, finds nothing held and nothing open, and ends. *)
Lemma X18_run_trades_after_gate_witness :
  let gamma := mkMarket None None (Some "2025-01-01T00:20:00Z"%string) None
                 (Some "0xabc"%string) true in
  let clob := mkMarket (Some [mkToken (Some "yes"%string); mkToken (Some "no"%string)])
                None None None None true in
  let w := Scripted.mkWorld [inr (mkHttp 200 (inr [gamma]))] [inr clob] 0
             [inl Scripted.down; inr NotADict; inr (RespDict false None)]
             [inr []] [] [] [inr (mkBalance (Num 0))] in
  let no := Some "no"%string in
  run Scripted.world Scripted.client Scripted.fromisoformat Scripted.json_loads
      3 "btc-updown"%string 13 1 w
  = (Returned tt, Scripted.silent,
     [EvRequestsGet "btc-updown"%string; EvGetMarket (Some "0xabc"%string);
      EvNow; EvGate (Returned true);
      EvPost (mkOrderArgs 0.10 10 BUY no); EvPost (mkOrderArgs 0.20 10 BUY no);
      EvPost (mkOrderArgs 0.30 10 BUY no);
      EvMonitorStart no (total_max_cost prices size_per_step);
      EvGetBalance no; EvGetOrders no]).
Proof.
  intros gamma clob w no.
  pose (w1 := Scripted.mkWorld [] [] 0
                [inl Scripted.down; inr NotADict; inr (RespDict false None)]
                [inr []] [] [] [inr (mkBalance (Num 0))]).
  apply (X18_run_trades_after_gate Scripted.world Scripted.client
           Scripted.fromisoformat Scripted.json_loads 3 "btc-updown"%string 13%Z 1%Z
           w w1 w1 w1
           [EvRequestsGet "btc-updown"%string; EvGetMarket (Some "0xabc"%string)] []
           [EvNow; EvGate (Returned true)] (update clob gamma) no);
    reflexivity.
Defined.

(** ** The choice of the token *)

(** X19. With a non-empty token list, the token chosen is the one at
    [outcome_index], counted from the end when the index is negative, as
    Python's lists are indexed; an index beyond either end raises
    [IndexError].  The choice calls nothing, and ['clobTokenIds'] is not
    looked at. *)
Theorem X19_select_token_indexing :
  forall (W : Type) (json_loads : string -> exn + list string) (md : market)
         (outcome_index : Z) (ts : list token) (w : W),
    tokens md = Some ts ->
    ts <> [] ->
    let r := select_token W json_loads md outcome_index w in
    let n := Z.of_nat (length ts) in
    events r = [] /\ world r = w
    /\ (forall t,
          (0 <= outcome_index < n)%Z ->
          nth_error ts (Z.to_nat outcome_index) = Some t ->
          result r = Returned (Some (token_id t)))
    /\ (forall t,
          (- n <= outcome_index < 0)%Z ->
          nth_error ts (Z.to_nat (n + outcome_index)) = Some t ->
          result r = Returned (Some (token_id t)))
    /\ ((outcome_index < - n \/ n <= outcome_index)%Z -> result r = Raised IndexError).
Proof.
  intros W json_loads md idx ts w Hts Hne r n.
  assert (Hr : r = match py_index ts idx with
                   | Some t => (Returned (Some (token_id t)), w, [])
                   | None => (Raised IndexError, w, [])
                   end).
  { unfold r, select_token. rewrite Hts. destruct ts as [ | t0 ts']; [congruence | ].
    rewrite bind_run. unfold index. destruct (py_index (t0 :: ts') idx); reflexivity. }
  rewrite Hr. unfold py_index. fold n.
  destruct (Z.leb_spec 0 idx) as [H0 | H0].
  - split; [destruct (nth_error ts (Z.to_nat idx)); reflexivity | ].
    split; [destruct (nth_error ts (Z.to_nat idx)); reflexivity | ].
    split; [intros t _ Ht; rewrite Ht; reflexivity | ].
    split; [intros t Hneg; lia | ].
    intros [H | H]; [lia | ].
    assert (Hnone : nth_error ts (Z.to_nat idx) = None) by (apply nth_error_None; lia).
    rewrite Hnone. reflexivity.
  - destruct (Z.leb_spec (- n) idx) as [H1 | H1].
    + split; [destruct (nth_error ts (Z.to_nat (n + idx))); reflexivity | ].
      split; [destruct (nth_error ts (Z.to_nat (n + idx))); reflexivity | ].
      split; [intros t Hpos; lia | ].
      split; [intros t _ Ht; rewrite Ht; reflexivity | ].
      intros [H | H]; lia.
    + repeat split; try (intros t H; lia). 
Qed.

(** X19 on a market with two tokens: index [-1] picks the last. *)
Lemma X19_select_token_indexing_witness :
  let md := mkMarket (Some [mkToken (Some "yes"%string); mkToken (Some "no"%string)])
              None None None None false in
  result (select_token unit Scripted.json_loads md (-1) tt)
  = Returned (Some (Some "no"%string)).
Proof.
  intros md.
  apply (proj1 (proj2 (proj2 (proj2
    (X19_select_token_indexing unit Scripted.json_loads md (-1)%Z
       [mkToken (Some "yes"%string); mkToken (Some "no"%string)] tt eq_refl
       ltac:(discriminate)))))
    (mkToken (Some "no"%string))); [cbn; lia | reflexivity].
Defined.

(** X20. Without tokens (no list, or an empty one), the token comes from
    ['clobTokenIds']: when that is a non-empty string it is decoded and
    indexed, and an exception of the decoding or of the indexing is not
    caught; when it is absent or empty, no token is chosen. *)
Theorem X20_select_token_fallback :
  forall (W : Type) (json_loads : string -> exn + list string) (md : market)
         (outcome_index : Z) (w : W),
    tokens md = None \/ tokens md = Some [] ->
    let r := select_token W json_loads md outcome_index w in
    (truthy (clobTokenIds md) = false -> r = (Returned None, w, []))
    /\ (forall s,
          clobTokenIds md = Some s ->
          truthy (Some s) = true ->
          r = match json_loads s with
              | inl e => (Raised e, w, [])
              | inr ids =>
                  match py_index ids outcome_index with
                  | Some id => (Returned (Some (Some id)), w, [])
                  | None => (Raised IndexError, w, [])
                  end
              end).
Proof.
  intros W json_loads md idx w Htok r.
  assert (Hr : r = match clobTokenIds md with
                   | Some s =>
                       if truthy (clobTokenIds md) then
                         match json_loads s with
                         | inl e => (Raised e, w, [])
                         | inr ids =>
                             match py_index ids idx with
                             | Some id => (Returned (Some (Some id)), w, [])
                             | None => (Raised IndexError, w, [])
                             end
                         end
                       else (Returned None, w, [])
                   | None => (Returned None, w, [])
                   end).
  { unfold r, select_token.
    destruct Htok as [-> | ->]; destruct (clobTokenIds md) as [s | ]; try reflexivity;
      destruct (truthy (Some s)); try reflexivity;
      rewrite bind_run; unfold lift; destruct (json_loads s) as [e | ids];
      try reflexivity; cbn [ret]; cbn zeta; rewrite bind_run; unfold index;
      destruct (py_index ids idx); reflexivity. }
  split.
  - intros H. rewrite Hr. destruct (clobTokenIds md); [ | reflexivity].
    rewrite H. reflexivity.
  - intros s Hs Ht. rewrite Hr, Hs, Ht. reflexivity.
Qed.

(** X20 on a market that has only a ['clobTokenIds'] string, which the
    decoder rejects. *)
Lemma X20_select_token_fallback_witness :
  let md := mkMarket None (Some "not json"%string) None None None false in
  select_token unit Scripted.json_loads md 1 tt = (Raised ValueError, tt, []).
Proof.
  intros md.
  apply (proj2 (X20_select_token_fallback unit Scripted.json_loads md 1%Z tt
                  (or_introl eq_refl)) "not json"%string); reflexivity.
Defined.

(** ** The close time's suffix *)

Lemma has_char_append c a b :
  has_char c (a ++ b) = has_char c a || has_char c b.
Proof.
  induction a as [ | x a IH]; cbn; [reflexivity | ].
  rewrite IH. apply orb_assoc.
Qed.

(** X21. [replace_Z] leaves no ['Z'] in the string and changes nothing
    else: a string without ['Z'] is returned as it is, and a ['Z'] at its
    end becomes the offset [+00:00]. *)
Theorem X21_replace_Z :
  forall s : string,
    has_char "Z"%char (replace_Z s) = false
    /\ (has_char "Z"%char s = false ->
        replace_Z s = s
        /\ replace_Z (s ++ "Z") = (s ++ "+00:00")%string).
Proof.
  intros s. split.
  - induction s as [ | c rest IH]; [reflexivity | ]. cbn [replace_Z].
    destruct (Ascii.eqb c "Z"%char) eqn:Hc.
    + rewrite has_char_append, IH. reflexivity.
    + cbn. now rewrite Hc, IH.
  - induction s as [ | c rest IH]; cbn; intros H; [split; reflexivity | ].
    apply orb_false_iff in H. destruct H as [Hc Hrest]. rewrite Hc.
    destruct (IH Hrest) as [H1 H2]. now rewrite H1, H2.
Qed.

(** X21 on a close time as the Gamma endpoint writes it. *)
Lemma X21_replace_Z_witness :
  replace_Z "2025-01-01T00:20:00Z" = "2025-01-01T00:20:00+00:00"%string.
Proof.
  apply (proj2 (proj2 (X21_replace_Z "2025-01-01T00:20:00") eq_refl)).
Defined.

(** ** The lookup utility: [find_market] *)

Section SearchFacts.

Variable W : Type.
Variable get_markets : string -> W -> (Search.error + Search.page) * W.
Variable lower : string -> string.

Lemma matches_no_null keyword m :
  Search.no_null m ->
  Search.matches lower keyword m = inr (Search.is_match lower keyword m).
Proof.
  intros [Hq Hs]. unfold Search.matches, Search.is_match, Search.lowered, Search.text.
  destruct (Search.question m) as [ | | q]; [ | congruence | ];
    destruct (Search.market_slug m) as [ | | sl]; try congruence;
    destruct (Search.contains (lower keyword) _); reflexivity.
Qed.

Lemma scan_no_null keyword markets :
  Forall Search.no_null markets ->
  Search.scan lower keyword markets =
  (flat_map (Search.report) (filter (Search.is_match lower keyword) markets), None).
Proof.
  induction 1 as [ | m rest Hm _ IH]; [reflexivity | ].
  cbn [Search.scan filter]. rewrite (matches_no_null keyword m Hm), IH.
  destruct (Search.is_match lower keyword m); reflexivity.
Qed.

Lemma scan_app keyword before rest :
  Forall Search.no_null before ->
  Search.scan lower keyword (before ++ rest) =
  (flat_map Search.report (filter (Search.is_match lower keyword) before)
     ++ fst (Search.scan lower keyword rest),
   snd (Search.scan lower keyword rest)).
Proof.
  induction 1 as [ | m before Hm _ IH]; cbn [app Search.scan filter flat_map].
  - destruct (Search.scan lower keyword rest). reflexivity.
  - rewrite (matches_no_null keyword m Hm), IH.
    destruct (Search.is_match lower keyword m); cbn [flat_map];
      rewrite <- ?app_assoc; reflexivity.
Qed.

Lemma matches_lower k1 k2 m :
  lower k1 = lower k2 -> Search.matches lower k1 m = Search.matches lower k2 m.
Proof.
  intros H. unfold Search.matches. now rewrite H.
Qed.

Lemma scan_lower k1 k2 markets :
  lower k1 = lower k2 -> Search.scan lower k1 markets = Search.scan lower k2 markets.
Proof.
  intros H. induction markets as [ | m rest IH]; [reflexivity | ].
  cbn [Search.scan]. now rewrite (matches_lower k1 k2 m H), IH.
Qed.

End SearchFacts.

(** X22. The search does not tell the case of the keyword: two keywords
    with the same lowered form give the same requests, the same lines and
    the same end. *)
Theorem X22_find_market_keyword_case :
  forall (W : Type) (get_markets : string -> W -> (Search.error + Search.page) * W)
         (lower : string -> string) (k1 k2 : string),
    lower k1 = lower k2 ->
    forall (fuel : nat) (w : W),
      Search.find_market W get_markets lower fuel k1 w
      = Search.find_market W get_markets lower fuel k2 w.
Proof.
  intros W get_markets lower k1 k2 H fuel. unfold Search.find_market.
  generalize EmptyString as cursor.
  induction fuel as [ | fuel IH]; intros cursor w; [reflexivity | ].
  cbn [Search.find_market_from].
  destruct (get_markets cursor w) as [[e | resp] w1]; [reflexivity | ].
  destruct (Search.data resp) as [ | | l]; try reflexivity;
    rewrite (scan_lower lower k1 k2 _ H);
    destruct (Search.scan lower k2 _) as [out [e | ]]; try reflexivity;
    destruct (Search.next_cursor resp) as [[ | c cs] | ]; try reflexivity;
    rewrite IH; reflexivity.
Qed.

(** X22 on a scripted listing of one page, searched for BTC and for btc. *)
Lemma X22_find_market_keyword_case_witness :
  let m := Search.mkListing (Search.Val "Bitcoin up or down?"%string)
             (Search.Val "btc-updown"%string) Search.Absent Search.Absent in
  let w := [inr (Search.mkPage (Search.Val [m]) None)] in
  Search.find_market _ Search.scripted Search.ascii_lower 3 "BTC" w
  = Search.find_market _ Search.scripted Search.ascii_lower 3 "btc" w.
Proof.
  intros m w.
  apply (X22_find_market_keyword_case _ Search.scripted Search.ascii_lower
           "BTC" "btc" eq_refl 3 w).
Defined.

(** X23. On the last page (no next cursor, or an empty one), when no
    market of the page has [None] for a question or a slug, the utility
    prints the four lines of each market that matches, in the order of the
    page and of no other market, then its closing line, and returns. *)
Theorem X23_find_market_last_page :
  forall (W : Type) (get_markets : string -> W -> (Search.error + Search.page) * W)
         (lower : string -> string) (fuel : nat) (keyword cursor : string)
         (w w1 : W) (pg : Search.page) (markets : list Search.listing),
    get_markets cursor w = (inr pg, w1) ->
    Search.data pg = Search.Val markets
    \/ (Search.data pg = Search.Absent /\ markets = []) ->
    Forall Search.no_null markets ->
    truthy (Search.next_cursor pg) = false ->
    Search.find_market_from W get_markets lower (S fuel) keyword cursor w
    = (Search.Done, w1,
       Search.GetMarkets cursor
         :: flat_map Search.report (filter (Search.is_match lower keyword) markets)
         ++ [Search.PrintComplete]).
Proof.
  intros W get_markets lower fuel keyword cursor w w1 pg markets Hg Hd Hn Hc.
  cbn [Search.find_market_from]. rewrite Hg.
  assert (Hscan := scan_no_null lower keyword markets Hn).
  destruct Hd as [Hd | [Hd ->]]; rewrite Hd, Hscan;
    destruct (Search.next_cursor pg) as [[ | c cs] | ]; try discriminate; reflexivity.
Qed.

(** X23 on a scripted listing: of two markets, the one whose slug holds
    the keyword is reported. *)
Lemma X23_find_market_last_page_witness :
  let m1 := Search.mkListing (Search.Val "Will it rain?"%string)
              (Search.Val "rain-tomorrow"%string) Search.Absent Search.Absent in
  let m2 := Search.mkListing (Search.Val "Up or down?"%string)
              (Search.Val "BTC-updown"%string) (Search.Val "0xabc"%string) Search.Absent in
  let w := [inr (Search.mkPage (Search.Val [m1; m2]) (Some EmptyString))] in
  Search.find_market _ Search.scripted Search.ascii_lower 1 "btc" w
  = (Search.Done, [],
     [Search.GetMarkets EmptyString;
      Search.PrintFound (Search.Val "Up or down?"%string);
      Search.PrintSlug (Search.Val "BTC-updown"%string);
      Search.PrintCondition (Search.Val "0xabc"%string);
      Search.PrintTokens Search.Absent;
      Search.PrintComplete]).
Proof.
  intros m1 m2 w.
  apply (X23_find_market_last_page _ Search.scripted Search.ascii_lower 0 "btc"
           EmptyString w [] (Search.mkPage (Search.Val [m1; m2]) (Some EmptyString))
           [m1; m2] eq_refl (or_introl eq_refl)).
  - repeat constructor; discriminate.
  - reflexivity.
Defined.

(** X24. Nothing in the utility catches an exception.  A market whose
    question is [None], or whose question does not match and whose slug is
    [None], stops the search with an [AttributeError]: the markets before
    it are reported, no further page is requested and the closing line is
    not printed.  A slug that is [None] does no harm when the question
    matches. *)
Theorem X24_find_market_null_field :
  forall (W : Type) (get_markets : string -> W -> (Search.error + Search.page) * W)
         (lower : string -> string) (fuel : nat) (keyword cursor : string)
         (w w1 : W) (pg : Search.page) (before after : list Search.listing)
         (m : Search.listing),
    get_markets cursor w = (inr pg, w1) ->
    Search.data pg = Search.Val (before ++ m :: after) ->
    Forall Search.no_null before ->
    (Search.question m = Search.Null
     \/ (Search.market_slug m = Search.Null
         /\ Search.contains (lower keyword) (Search.text lower (Search.question m))
            = false) ->
     Search.find_market_from W get_markets lower (S fuel) keyword cursor w
     = (Search.Failed Search.AttributeError, w1,
        Search.GetMarkets cursor
          :: flat_map Search.report (filter (Search.is_match lower keyword) before)))
    /\ (Search.market_slug m = Search.Null ->
        Search.question m <> Search.Null ->
        Search.contains (lower keyword) (Search.text lower (Search.question m)) = true ->
        Search.matches lower keyword m = inr true).
Proof.
  intros W get_markets lower fuel keyword cursor w w1 pg before after m Hg Hd Hn.
  split.
  - intros Hnull. cbn [Search.find_market_from]. rewrite Hg, Hd.
    rewrite (scan_app lower keyword before (m :: after) Hn).
    assert (Hm : Search.matches lower keyword m = inl Search.AttributeError).
    { unfold Search.matches, Search.lowered, Search.text in *.
      destruct Hnull as [Hq | [Hs Hc]].
      - rewrite Hq. reflexivity.
      - rewrite Hs. destruct (Search.question m) as [ | | q]; try reflexivity;
          rewrite Hc; reflexivity. }
    cbn [Search.scan]. rewrite Hm. cbn [fst snd]. rewrite app_nil_r. reflexivity.
  - intros Hs Hq Hc. unfold Search.matches, Search.lowered, Search.text in *.
    destruct (Search.question m) as [ | | q]; try congruence; rewrite Hc; reflexivity.
Qed.

(** X24 on a scripted listing whose second market has no question. *)
Lemma X24_find_market_null_field_witness :
  let m1 := Search.mkListing (Search.Val "btc up?"%string) (Search.Val "up"%string)
              Search.Absent Search.Absent in
  let m2 := Search.mkListing Search.Null (Search.Val "btc-updown"%string)
              Search.Absent Search.Absent in
  let w := [inr (Search.mkPage (Search.Val [m1; m2]) (Some "next"%string))] in
  Search.find_market _ Search.scripted Search.ascii_lower 5 "btc" w
  = (Search.Failed Search.AttributeError, [],
     [Search.GetMarkets EmptyString;
      Search.PrintFound (Search.Val "btc up?"%string);
      Search.PrintSlug (Search.Val "up"%string);
      Search.PrintCondition Search.Absent;
      Search.PrintTokens Search.Absent]).
Proof.
  intros m1 m2 w.
  refine (proj1 (X24_find_market_null_field _ Search.scripted Search.ascii_lower 4 "btc"
                   EmptyString w []
                   (Search.mkPage (Search.Val [m1; m2]) (Some "next"%string))
                   [m1] [] m2 eq_refl eq_refl _) (or_introl eq_refl)).
  repeat constructor; discriminate.
Defined.

(** X25. The pages are requested one after the other, each with the
    cursor the page before gave: when a page read without exception has a
    non-empty next cursor, the search goes on from that cursor on the
    venue as the request left it, and what it prints for the page comes
    before everything that follows. *)
Theorem X25_find_market_next_page :
  forall (W : Type) (get_markets : string -> W -> (Search.error + Search.page) * W)
         (lower : string -> string) (fuel : nat) (keyword cursor : string)
         (w w1 : W) (pg : Search.page) (markets : list Search.listing)
         (c : ascii) (cs : string),
    get_markets cursor w = (inr pg, w1) ->
    Search.data pg = Search.Val markets
    \/ (Search.data pg = Search.Absent /\ markets = []) ->
    Forall Search.no_null markets ->
    Search.next_cursor pg = Some (String c cs) ->
    let rest := Search.find_market_from W get_markets lower fuel keyword (String c cs) w1 in
    let r := Search.find_market_from W get_markets lower (S fuel) keyword cursor w in
    r = (fst (fst rest), snd (fst rest),
         Search.GetMarkets cursor
           :: flat_map Search.report (filter (Search.is_match lower keyword) markets)
           ++ snd rest)
    /\ Search.requested (snd r) = cursor :: Search.requested (snd rest).
Proof.
  intros W get_markets lower fuel keyword cursor w w1 pg markets c cs Hg Hd Hn Hc rest r.
  assert (Hr : r = (fst (fst rest), snd (fst rest),
                    Search.GetMarkets cursor
                      :: flat_map Search.report
                           (filter (Search.is_match lower keyword) markets)
                      ++ snd rest)).
  { unfold r. cbn [Search.find_market_from]. rewrite Hg.
    assert (Hscan := scan_no_null lower keyword markets Hn).
    destruct Hd as [Hd | [Hd ->]]; rewrite Hd, Hscan, Hc; fold rest;
      destruct rest as [[e w2] out']; reflexivity. }
  split; [exact Hr | ]. rewrite Hr. cbn [snd Search.requested]. f_equal.
  generalize (filter (Search.is_match lower keyword) markets). intros l.
  induction l as [ | m l IH]; [reflexivity | exact IH].
Qed.

(** X25 on a scripted listing of two pages. *)
Lemma X25_find_market_next_page_witness :
  let m := Search.mkListing (Search.Val "btc up?"%string) (Search.Val "up"%string)
             Search.Absent Search.Absent in
  let w := [inr (Search.mkPage (Search.Val [m]) (Some "MTAw"%string));
            inr (Search.mkPage Search.Absent None)] in
  Search.requested (snd (Search.find_market _ Search.scripted Search.ascii_lower 2 "eth" w))
  = [EmptyString; "MTAw"%string].
Proof.
  intros m w.
  apply (proj2 (X25_find_market_next_page _ Search.scripted Search.ascii_lower 1 "eth"
                  EmptyString w [inr (Search.mkPage Search.Absent None)]
                  (Search.mkPage (Search.Val [m]) (Some "MTAw"%string)) [m]
                  "M"%char "TAw"%string eq_refl (or_introl eq_refl)
                  ltac:(repeat constructor; discriminate) eq_refl)).
Defined.

(** X26. The search has no bound of its own and no other end than an
    empty cursor: on a venue that keeps answering pages with a non-empty
    next cursor, it requests a page for every unit of fuel, never prints
    its closing line and has not returned when the fuel is spent. *)
Theorem X26_find_market_endless :
  forall (W : Type) (get_markets : string -> W -> (Search.error + Search.page) * W)
         (lower : string -> string) (keyword : string) (endless : W -> Prop),
    (forall cursor w,
       endless w ->
       exists pg w1 c cs,
         get_markets cursor w = (inr pg, w1)
         /\ Search.data pg = Search.Absent
         /\ Search.next_cursor pg = Some (String c cs)
         /\ endless w1) ->
    forall (fuel : nat) (cursor : string) (w : W),
      endless w ->
      let r := Search.find_market_from W get_markets lower fuel keyword cursor w in
      fst (fst r) = Search.Unfinished
      /\ length (Search.requested (snd r)) = fuel
      /\ ~ In Search.PrintComplete (snd r).
Proof.
  intros W get_markets lower keyword endless Hpage fuel.
  induction fuel as [ | fuel IH]; intros cursor w Hw; cbn zeta.
  - cbn. repeat split. tauto.
  - destruct (Hpage cursor w Hw) as [pg [w1 [c [cs [Hg [Hd [Hc Hw1]]]]]]].
    cbn [Search.find_market_from]. rewrite Hg, Hd, Hc. cbn [Search.scan].
    specialize (IH (String c cs) w1 Hw1). cbn zeta in IH.
    destruct (Search.find_market_from W get_markets lower fuel keyword (String c cs) w1)
      as [[e w2] out]. cbn [fst snd] in *. destruct IH as [H1 [H2 H3]].
    cbn [app Search.requested length]. repeat split; [exact H1 | now rewrite H2 | ].
    intros [H | H]; [discriminate | exact (H3 H)].
Qed.

(** X26 on a venue that answers every request with an empty page and the
    same cursor. *)
Lemma X26_find_market_endless_witness :
  let venue := fun (cursor : string) (w : unit) =>
                 (@inr Search.error Search.page
                    (Search.mkPage Search.Absent (Some "LTE="%string)), w) in
  fst (fst (Search.find_market unit venue Search.ascii_lower 7 "btc" tt))
  = Search.Unfinished.
Proof.
  intros venue.
  apply (X26_find_market_endless unit venue Search.ascii_lower "btc"%string
           (fun _ => True)); [ | exact I].
  intros cursor w _. exists (Search.mkPage Search.Absent (Some "LTE="%string)), w.
  exists "L"%char, "TE="%string. repeat split.
Defined.

(** ** The substring test *)

Lemma starts_with_spec needle : forall hay,
  Search.starts_with needle hay = true <-> exists b, hay = (needle ++ b)%string.
Proof.
  induction needle as [ | x needle IH]; intros hay; cbn.
  - split; [intros _; exists hay; reflexivity | reflexivity].
  - destruct hay as [ | y hay]; cbn.
    + split; [discriminate | intros [b Hb]; discriminate].
    + rewrite andb_true_iff, Ascii.eqb_eq, IH. split.
      * intros [-> [b ->]]. exists b. reflexivity.
      * intros [b Hb]. injection Hb as -> ->. split; [reflexivity | exists b; reflexivity].
Qed.

(** X27. The test [needle in hay] of the search is the substring test: it
    holds exactly when the hay is some text, the needle, and some text.
    In particular the empty keyword is found in every text. *)
Theorem X27_contains_substring :
  forall needle hay : string,
    (Search.contains needle hay = true <->
     exists a b, hay = (a ++ needle ++ b)%string)
    /\ Search.contains EmptyString hay = true.
Proof.
  intros needle hay. split.
  - induction hay as [ | y hay IH]; cbn [Search.contains].
    + rewrite orb_false_r, starts_with_spec. split.
      * intros [b Hb]. exists EmptyString, b. exact Hb.
      * intros [a [b Hab]]. destruct a as [ | x a]; [exists b; exact Hab | discriminate].
    + rewrite orb_true_iff, starts_with_spec, IH. split.
      * intros [[b Hb] | [a [b Hab]]].
        -- exists EmptyString, b. exact Hb.
        -- exists (String y a), b. cbn. now rewrite Hab.
      * intros [a [b Hab]]. destruct a as [ | x a].
        -- left. exists b. exact Hab.
        -- right. cbn in Hab. injection Hab as -> ->. exists a, b. reflexivity.
  - destruct hay; reflexivity.
Qed.
